(** * agri-mvp: analytics and validation layer

    A shallow embedding of [ml/analytics/config.py],
    [ml/analytics/core_analytics.py] and [ml/analytics/validators.py].

    Conventions of the embedding.
    - A Python/NumPy float is an exact rational, or one of the three
      special values of IEEE arithmetic ([pyfloat]); rounding errors of
      binary floating point and the sign of zero are not represented, and
      [round] rounds the exact value, ties to even: it is the code's
      result where the value and its tie are exactly representable.
    - A timestamp is a number of microseconds of the proleptic Gregorian
      calendar ([datetime]); time zones do not occur in the sources.
    - The tables read by the analytics functions are lists of typed rows
      that carry the columns the functions use; a numeric cell may be NaN
      (a missing value), key cells (dates, names) are present. A table
      without rows is a file that has its header only: its columns are
      read with dtype object. The header of the price forecast summary is
      kept beside its rows, for the one test the code makes on it.
    - The tables given to the validators are column stores whose cells may
      be missing and whose date cells are still text ([DataFrame]).
    - A dict is an association list in insertion order; a field that holds
      [None] is an [option]; a dict that may be left empty is [models].
    - A call runs in a [World]: the backing files, read and never written,
      and the system clock, read by [datetime.now()]. An exception ends
      the call with [Raise].
    The batch entry point [validate_all_data] takes the three raw tables
    as an argument. The printing of the modules and the [__main__] blocks
    are not part of the embedding. *)

From Stdlib Require Import ZArith QArith Qabs Qround List String Ascii Bool Lia.
From Stdlib Require Import DecimalString Sorted.
Import ListNotations.
Open Scope string_scope.
Open Scope Z_scope.

Set Implicit Arguments.

(* ====================================================================== *)
(** * Numbers *)
(* ====================================================================== *)

Module Num.

Inductive pyfloat : Type :=
| Finite (q : Q)
| PInf
| NInf
| NaN.

Definition fin (q : Q) : pyfloat := Finite (Qred q).
Definition of_Z (z : Z) : pyfloat := Finite (inject_Z z).
Definition of_nat (n : nat) : pyfloat := of_Z (Z.of_nat n).

Definition Qsign (q : Q) : comparison := Qcompare q 0.

Definition isnan (x : pyfloat) : bool :=
  match x with NaN => true | _ => false end.

Definition notna (x : pyfloat) : bool := negb (isnan x).

Definition fneg (x : pyfloat) : pyfloat :=
  match x with
  | Finite q => fin (- q)
  | PInf => NInf
  | NInf => PInf
  | NaN => NaN
  end.

Definition fadd (x y : pyfloat) : pyfloat :=
  match x, y with
  | NaN, _ | _, NaN => NaN
  | Finite a, Finite b => fin (a + b)
  | PInf, NInf | NInf, PInf => NaN
  | PInf, _ | _, PInf => PInf
  | NInf, _ | _, NInf => NInf
  end.

Definition fsub (x y : pyfloat) : pyfloat := fadd x (fneg y).

(** Sign of a value that is not NaN: [Lt] negative, [Eq] zero, [Gt]
    positive. *)
Definition fsign (x : pyfloat) : comparison :=
  match x with
  | Finite q => Qsign q
  | PInf => Gt
  | NInf => Lt
  | NaN => Eq
  end.

Definition inf_of_sign (s : comparison) : pyfloat :=
  match s with
  | Gt => PInf
  | Lt => NInf
  | Eq => NaN
  end.

Definition sign_mul (s t : comparison) : comparison :=
  match s, t with
  | Eq, _ | _, Eq => Eq
  | Gt, Gt | Lt, Lt => Gt
  | _, _ => Lt
  end.

Definition fmul (x y : pyfloat) : pyfloat :=
  match x, y with
  | NaN, _ | _, NaN => NaN
  | Finite a, Finite b => fin (a * b)
  | _, _ => inf_of_sign (sign_mul (fsign x) (fsign y))
  end.

(** NumPy division: a zero divisor gives an infinity or NaN, never an
    exception. *)
Definition fdiv (x y : pyfloat) : pyfloat :=
  match x, y with
  | NaN, _ | _, NaN => NaN
  | Finite a, Finite b =>
      match Qsign b with
      | Eq => inf_of_sign (Qsign a)
      | _ => fin (a / b)
      end
  | Finite _, _ => Finite 0
  | _, Finite b =>
      match Qsign b with
      | Lt => fneg x
      | _ => x
      end
  | _, _ => NaN
  end.

(** Comparisons; every comparison with NaN is false. *)
Definition fcompare (x y : pyfloat) : option comparison :=
  match x, y with
  | NaN, _ | _, NaN => None
  | Finite a, Finite b => Some (Qcompare a b)
  | PInf, PInf | NInf, NInf => Some Eq
  | PInf, _ | _, NInf => Some Gt
  | NInf, _ | _, PInf => Some Lt
  end.

Definition flt (x y : pyfloat) : bool :=
  match fcompare x y with Some Lt => true | _ => false end.
Definition fgt (x y : pyfloat) : bool :=
  match fcompare x y with Some Gt => true | _ => false end.
Definition feq (x y : pyfloat) : bool :=
  match fcompare x y with Some Eq => true | _ => false end.
Definition fle (x y : pyfloat) : bool := flt x y || feq x y.
Definition fge (x y : pyfloat) : bool := fgt x y || feq x y.

(** Truth value of a number in a condition: zero is false, everything
    else, NaN included, is true. *)
Definition truthy (x : pyfloat) : bool :=
  match x with
  | Finite q => negb (Qeq_bool q 0)
  | _ => true
  end.

Definition fabs (x : pyfloat) : pyfloat :=
  match x with
  | Finite q => fin (Qabs q)
  | NInf => PInf
  | _ => x
  end.

(** Rounding to the nearest integer, ties to the even one. *)
Definition round_half_even (q : Q) : Z :=
  let n := Qnum q in
  let d := Zpos (Qden q) in
  let f := n / d in
  let r2 := 2 * (n mod d) in
  if r2 <? d then f
  else if d <? r2 then f + 1
  else if Z.even f then f else f + 1.

Definition pow10 (ndigits : nat) : Z := 10 ^ Z.of_nat ndigits.

Definition Qround_digits (ndigits : nat) (q : Q) : Q :=
  Qred (Qmake (round_half_even (q * inject_Z (pow10 ndigits)))
              (Z.to_pos (pow10 ndigits))).

(** [round(x, ndigits)] and [Series.round(ndigits)], on the exact
    value. *)
Definition round (x : pyfloat) (ndigits : nat) : pyfloat :=
  match x with
  | Finite q => Finite (Qround_digits ndigits q)
  | _ => x
  end.

(** Reductions of a column; missing values are skipped. *)
Definition dropna (xs : list pyfloat) : list pyfloat := filter notna xs.

Definition sum (xs : list pyfloat) : pyfloat :=
  fold_left fadd (dropna xs) (Finite 0).

Definition count (xs : list pyfloat) : nat := List.length (dropna xs).

Definition mean (xs : list pyfloat) : pyfloat :=
  match count xs with
  | O => NaN
  | n => fdiv (sum xs) (of_nat n)
  end.

Definition fmin2 (x y : pyfloat) : pyfloat := if flt y x then y else x.
Definition fmax2 (x y : pyfloat) : pyfloat := if fgt y x then y else x.

Definition min (xs : list pyfloat) : pyfloat :=
  match dropna xs with
  | [] => NaN
  | x :: r => fold_left fmin2 r x
  end.

Definition max (xs : list pyfloat) : pyfloat :=
  match dropna xs with
  | [] => NaN
  | x :: r => fold_left fmax2 r x
  end.

Section Sqrt.

(** The square root of the platform, on the exact values. *)
Variable sqrt : Q -> Q.

Definition fsqrt (x : pyfloat) : pyfloat :=
  match x with
  | Finite q =>
      match Qsign q with
      | Lt => NaN
      | _ => fin (sqrt q)
      end
  | PInf => PInf
  | _ => NaN
  end.

(** Sum of the products of the deviations from the means. *)
Definition codeviation (xs ys : list pyfloat) : pyfloat :=
  let mx := mean xs in
  let my := mean ys in
  fold_left fadd
    (map (fun p => fmul (fsub (fst p) mx) (fsub (snd p) my)) (combine xs ys))
    (Finite 0).

(** Sample covariance, one degree of freedom removed. *)
Definition cov (xs ys : list pyfloat) : pyfloat :=
  fdiv (codeviation xs ys) (fsub (of_nat (List.length xs)) (of_Z 1)).

(** [Series.std()]: sample standard deviation of the values present. *)
Definition std (xs : list pyfloat) : pyfloat :=
  let v := dropna xs in
  match v with
  | [] | [_] => NaN
  | _ => fsqrt (cov v v)
  end.

Definition clip (lo hi x : pyfloat) : pyfloat :=
  if flt x lo then lo else if fgt x hi then hi else x.

(** [Series.corr], Pearson: the covariance divided by both standard
    deviations in turn, clipped to [-1, 1]. Both columns are free of
    missing values where it is called. *)
Definition corr (xs ys : list pyfloat) : pyfloat :=
  match xs with
  | [] => NaN
  | _ =>
      let c := cov xs ys in
      clip (of_Z (-1)) (of_Z 1)
           (fdiv (fdiv c (fsqrt (cov xs xs))) (fsqrt (cov ys ys)))
  end.

End Sqrt.

End Num.

Import Num.

(* ====================================================================== *)
(** * Timestamps *)
(* ====================================================================== *)

Module Calendar.

(** Microseconds since the midnight that starts ordinal day 0; ordinal
    day 1 is 0001-01-01, as in [datetime.date.toordinal]. *)
Definition datetime : Type := Z.

Definition us_per_day : Z := 86400000000.

Definition timedelta (days : Z) : Z := days * us_per_day.

Definition toordinal (t : datetime) : Z := t / us_per_day.
Definition time_of_day (t : datetime) : Z := t mod us_per_day.

Definition is_leap (year : Z) : bool :=
  (year mod 4 =? 0) && (negb (year mod 100 =? 0) || (year mod 400 =? 0)).

Definition days_before_year (year : Z) : Z :=
  let y := year - 1 in
  y * 365 + y / 4 - y / 100 + y / 400.

Definition DAYS_IN_MONTH : list Z :=
  [31; 28; 31; 30; 31; 30; 31; 31; 30; 31; 30; 31].

Definition DAYS_BEFORE_MONTH : list Z :=
  [0; 31; 59; 90; 120; 151; 181; 212; 243; 273; 304; 334].

Definition table (l : list Z) (month : Z) : Z :=
  nth (Z.to_nat (month - 1)) l 0.

Definition bool_to_Z (b : bool) : Z := if b then 1 else 0.

Definition days_before_month (year month : Z) : Z :=
  table DAYS_BEFORE_MONTH month + bool_to_Z ((2 <? month) && is_leap year).

Definition ymd2ord (year month day : Z) : Z :=
  days_before_year year + days_before_month year month + day.

(** Ordinal to (year, month, day), by the 400/100/4/1-year cycles. *)
Definition ord2ymd (ordinal : Z) : Z * Z * Z :=
  let n := ordinal - 1 in
  let n400 := n / 146097 in
  let n := n mod 146097 in
  let n100 := n / 36524 in
  let n := n mod 36524 in
  let n4 := n / 1461 in
  let n := n mod 1461 in
  let n1 := n / 365 in
  let n := n mod 365 in
  let year := n400 * 400 + 1 + n100 * 100 + n4 * 4 + n1 in
  if (n1 =? 4) || (n100 =? 4) then (year - 1, 12, 31)
  else
    let leapyear := (n1 =? 3) && (negb (n4 =? 24) || (n100 =? 3)) in
    let month := Z.shiftr (n + 50) 5 in
    let preceding :=
      table DAYS_BEFORE_MONTH month + bool_to_Z ((2 <? month) && leapyear) in
    if n <? preceding then
      let month := month - 1 in
      let preceding :=
        preceding
        - (table DAYS_IN_MONTH month + bool_to_Z ((month =? 2) && leapyear)) in
      (year, month, n - preceding + 1)
    else (year, month, n - preceding + 1).

Definition year_of (t : datetime) : Z := fst (fst (ord2ymd (toordinal t))).
Definition month_of (t : datetime) : Z := snd (fst (ord2ymd (toordinal t))).
Definition day_of (t : datetime) : Z := snd (ord2ymd (toordinal t)).

(** [datetime(year, month, day)], at midnight. *)
Definition mk_date (year month day : Z) : datetime :=
  ymd2ord year month day * us_per_day.

(** [t.replace(day=d)]: the time of day is kept. *)
Definition replace_day (t : datetime) (d : Z) : datetime :=
  ymd2ord (year_of t) (month_of t) d * us_per_day + time_of_day t.

(** [Series.dt.to_period('M')]: the calendar month, (year, month). *)
Definition period_M : Type := Z * Z.

Definition to_period_M (t : datetime) : period_M := (year_of t, month_of t).

Definition period_eqb (p q : period_M) : bool :=
  (fst p =? fst q) && (snd p =? snd q).

Definition period_leb (p q : period_M) : bool :=
  (fst p <? fst q) || ((fst p =? fst q) && (snd p <=? snd q)).

End Calendar.

Import Calendar.

(* ====================================================================== *)
(** * config.py *)
(* ====================================================================== *)

Module Config.

Definition REGIONS : list string :=
  ["Mbeya"; "Iringa"; "Ruvuma"; "Rukwa"; "Morogoro"; "Dodoma"; "Arusha";
   "Kilimanjaro"; "Dar es Salaam"; "Mwanza"; "Shinyanga"].

Definition MARKETS : list string :=
  ["Mbeya Central"; "Iringa Central"; "Songea Central"; "Sumbawanga Central";
   "Morogoro Central"; "Dodoma Central"; "Arusha Central"; "Moshi Central";
   "Kariakoo"; "Mwenge"; "Mwanza Central"; "Shinyanga Central"].

Definition QUALITY_GRADES : list string := ["A"; "B"; "C"].

Definition MASIKA_HARVEST : list Z := [6; 7; 8].
Definition VULI_HARVEST : list Z := [1; 2].
Definition LEAN_SEASON : list Z := [3; 4; 5].

Definition MASIKA_PRODUCTION_PCT : pyfloat := fin (65 # 100).
Definition VULI_PRODUCTION_PCT : pyfloat := fin (35 # 100).

Definition STORAGE_CRITICAL_HIGH : Z := 90.
Definition STORAGE_CRITICAL_LOW : Z := 10.
Definition STORAGE_OPTIMAL_MIN : Z := 40.
Definition STORAGE_OPTIMAL_MAX : Z := 80.

Definition PRICE_MIN_NORMAL : Z := 800.
Definition PRICE_MAX_NORMAL : Z := 2500.

Definition COMPARISON_PERIODS : list (string * Z) :=
  [("current", 30); ("month", 30); ("quarter", 90); ("season", 180);
   ("year", 365)].

Definition EXPECTED_PREMIUMS : list (string * pyfloat) :=
  [("A", fin (25 # 100)); ("B", fin (12 # 100)); ("C", fin 0)].

(** DECIMAL_PLACES *)
Definition DECIMAL_PLACES_price : nat := 2.
Definition DECIMAL_PLACES_quantity : nat := 2.
Definition DECIMAL_PLACES_percentage : nat := 1.
Definition DECIMAL_PLACES_utilization : nat := 1.

Definition CURRENCY : string := "TZS".

End Config.

Import Config.

(* ====================================================================== *)
(** * Table operations of pandas *)
(* ====================================================================== *)

Module Pd.

Section Keyed.

Variables K R : Type.
Variable eqb : K -> K -> bool.
Variable leb : K -> K -> bool.

Fixpoint insert_by (key : R -> K) (x : R) (l : list R) : list R :=
  match l with
  | [] => [x]
  | y :: l' =>
      if leb (key x) (key y) then x :: l else y :: insert_by key x l'
  end.

(** [sort_values]: ascending by the key. pandas does not fix the order of
    rows with equal keys; here they keep their order. *)
Definition sort_values (key : R -> K) (rows : list R) : list R :=
  fold_right (insert_by key) [] rows.

Fixpoint mem (k : K) (l : list K) : bool :=
  match l with
  | [] => false
  | k' :: l' => eqb k k' || mem k l'
  end.

(** [unique]: the distinct values, in order of first appearance. *)
Fixpoint unique_from (seen : list K) (l : list K) : list K :=
  match l with
  | [] => []
  | k :: l' =>
      if mem k seen then unique_from seen l'
      else k :: unique_from (k :: seen) l'
  end.

Definition unique (l : list K) : list K := unique_from [] l.

Definition nunique (l : list K) : nat := List.length (unique l).

Fixpoint insert_key (k : K) (l : list K) : list K :=
  match l with
  | [] => [k]
  | y :: l' => if leb k y then k :: l else y :: insert_key k l'
  end.

Definition sort_keys (l : list K) : list K := fold_right insert_key [] l.

(** [groupby(key)]: one group per distinct key, the groups in ascending
    key order, the rows of a group in table order. *)
Definition groupby (key : R -> K) (rows : list R) : list (K * list R) :=
  map (fun k => (k, filter (fun r => eqb (key r) k) rows))
      (sort_keys (unique (map key rows))).

(** [dict.get(k, default)] and lookup in an association list. *)
Fixpoint lookup (V : Type) (k : K) (d : list (K * V)) : option V :=
  match d with
  | [] => None
  | (k', v) :: d' => if eqb k k' then Some v else lookup k d'
  end.

Definition get (V : Type) (d : list (K * V)) (k : K) (default : V) : V :=
  match lookup k d with
  | Some v => v
  | None => default
  end.

End Keyed.

(** The last value of a column that is not missing
    ([GroupBy.last] works column by column). *)
Definition last_valid (xs : list pyfloat) : pyfloat :=
  List.last (dropna xs) NaN.

(** [Series.idxmax] and [Series.idxmin]: the label of the first largest
    (smallest) value present. *)
Fixpoint idx_best (K : Type) (better : pyfloat -> pyfloat -> bool)
         (best : K * pyfloat) (l : list (K * pyfloat)) : K :=
  match l with
  | [] => fst best
  | (k, v) :: l' =>
      if isnan v then idx_best better best l'
      else if better v (snd best) then idx_best better (k, v) l'
      else idx_best better best l'
  end.

Definition first_valid (K : Type) (s : list (K * pyfloat))
  : option (K * pyfloat) :=
  List.find (fun kv => notna (snd kv)) s.

Definition idxmax (K : Type) (s : list (K * pyfloat)) : option K :=
  match first_valid s with
  | Some b => Some (idx_best fgt b s)
  | None => None
  end.

Definition idxmin (K : Type) (s : list (K * pyfloat)) : option K :=
  match first_valid s with
  | Some b => Some (idx_best flt b s)
  | None => None
  end.

(** [Series.sort_values(ascending=False)]: the values present in
    descending order, equal values in table order, then the missing ones. *)
Fixpoint insert_desc (K : Type) (x : K * pyfloat) (l : list (K * pyfloat))
  : list (K * pyfloat) :=
  match l with
  | [] => [x]
  | y :: l' =>
      if fge (snd x) (snd y) then x :: l else y :: insert_desc x l'
  end.

Definition sort_values_desc (K : Type) (s : list (K * pyfloat))
  : list (K * pyfloat) :=
  fold_right (@insert_desc K) [] (filter (fun kv => notna (snd kv)) s)
  ++ filter (fun kv => isnan (snd kv)) s.

(** [d[k] = v]: a key already present keeps its place. *)
Fixpoint dict_set (V : Type) (k : string) (v : V) (d : list (string * V))
  : list (string * V) :=
  match d with
  | [] => [(k, v)]
  | (k', v') :: d' =>
      if (k =? k')%string then (k, v) :: d' else (k', v') :: dict_set k v d'
  end.

End Pd.

Definition Zmem : Z -> list Z -> bool := Pd.mem Z.eqb.
Definition str_mem : string -> list string -> bool := Pd.mem String.eqb.

(* ====================================================================== *)
(** * The files, the clock and the effects of a call *)
(* ====================================================================== *)

(** Rows of [maize_production.csv], [maize_prices.csv] and
    [maize_storage.csv], after the loader has parsed the dates. *)
Record ProductionRow : Type := {
  prod_date : datetime;
  prod_region : string;
  quantity_tons : pyfloat
}.

Record PriceRow : Type := {
  price_date : datetime;
  price_market : string;
  quality_grade : string;
  price_per_kg_tzs : pyfloat
}.

Record StorageRow : Type := {
  stor_date : datetime;
  warehouse_id : string;
  stor_region : string;
  quantity_stored_tons : pyfloat;
  capacity_tons : pyfloat
}.

(** Rows of [forecasts/production/forecast_summary.csv]. *)
Record ProductionForecastRow : Type := {
  pf_region : string;
  historical_avg : pyfloat;
  forecast_avg : pyfloat;
  growth_pct : pyfloat
}.

(** Rows of [forecasts/prices/forecast_summary_all_markets.csv]. *)
Record PriceForecastRow : Type := {
  fc_month : datetime;
  fc_market : string;
  fc_grade : string;
  yhat : pyfloat
}.

(** The backing files; [None] is a file that does not exist.
    [price_forecast_columns] is the header of the price forecast summary,
    [df.columns], read where the code tests it for [market] and
    [grade]. *)
Record Files : Type := {
  PRODUCTION_DATA : option (list ProductionRow);
  PRICE_DATA : option (list PriceRow);
  STORAGE_DATA : option (list StorageRow);
  production_forecast_summary : option (list ProductionForecastRow);
  price_forecast_summary : option (list PriceForecastRow);
  price_forecast_columns : list string
}.

(** The world a call runs in: the files, and the system clock given as the
    sequence of its successive readings. *)
Record World : Type := {
  files : Files;
  clock : nat -> datetime;
  ticks : nat
}.

Inductive exn : Type :=
| FileNotFoundError (path : string)
| UnboundLocalError (name : string)
| ValueError (what : string)
| KeyError (key : string)
| TypeError (what : string).

Inductive outcome (A : Type) : Type :=
| Ok (a : A)
| Raise (e : exn).

Arguments Ok {A} a.
Arguments Raise {A} e.

Definition M (A : Type) : Type := World -> outcome A * World.

Definition ret {A : Type} (a : A) : M A := fun w => (Ok a, w).

Definition bind {A B : Type} (m : M A) (f : A -> M B) : M B :=
  fun w =>
    match m w with
    | (Ok a, w') => f a w'
    | (Raise e, w') => (Raise e, w')
    end.

Definition raise {A : Type} (e : exn) : M A := fun w => (Raise e, w).

(** [try: body / except Exception: handler]. *)
Definition try_except {A : Type} (body : M A) (handler : exn -> M A) : M A :=
  fun w =>
    match body w with
    | (Ok a, w') => (Ok a, w')
    | (Raise e, w') => handler e w'
    end.

Declare Scope py_scope.
Delimit Scope py_scope with py.
Notation "x <- m ;; k" := (bind m (fun x => k))
  (at level 61, m at next level, right associativity) : py_scope.
Open Scope py_scope.

(** [datetime.now()]: the next reading of the clock. *)
Definition datetime_now : M datetime :=
  fun w =>
    (Ok (clock w (ticks w)),
     {| files := files w; clock := clock w; ticks := S (ticks w) |}).

(** [pd.read_csv(path)] of a mandatory file. *)
Definition read_csv {A : Type} (path : string) (sel : Files -> option A)
  : M A :=
  fun w =>
    match sel (files w) with
    | Some t => (Ok t, w)
    | None => (Raise (FileNotFoundError path), w)
    end.

(** [if summary_file.exists(): return pd.read_csv(summary_file)] else
    [None]. *)
Definition read_csv_if_exists {A : Type} (sel : Files -> option A)
  : M (option A) :=
  fun w => (Ok (sel (files w)), w).

(** Reading a local variable that an [if] may have left unassigned. *)
Definition local {A : Type} (name : string) (v : option A) : M A :=
  match v with
  | Some a => ret a
  | None => raise (UnboundLocalError name)
  end.

(** Truth value of an optional string argument ([if region:]). *)
Definition given (arg : option string) : bool :=
  match arg with
  | Some s => negb (s =? "")%string
  | None => false
  end.

Definition arg_or (arg : option string) (default : string) : string :=
  match arg with
  | Some s => if (s =? "")%string then default else s
  | None => default
  end.

Definition arg_is (arg : option string) (s : string) : bool :=
  match arg with
  | Some a => (a =? s)%string
  | None => false
  end.

(* ---------------------------------------------------------------------- *)
(** ** Data loading utilities *)

Definition load_production_data : M (list ProductionRow) :=
  read_csv "data/maize_production.csv" PRODUCTION_DATA.

Definition load_price_data : M (list PriceRow) :=
  read_csv "data/maize_prices.csv" PRICE_DATA.

Definition load_storage_data : M (list StorageRow) :=
  read_csv "data/maize_storage.csv" STORAGE_DATA.

Definition load_production_forecasts : M (option (list ProductionForecastRow)) :=
  read_csv_if_exists production_forecast_summary.

Definition load_price_forecasts : M (option (list PriceForecastRow)) :=
  read_csv_if_exists price_forecast_summary.

(* ====================================================================== *)
(** * core_analytics.py *)
(* ====================================================================== *)

Definition period_days (period : string) : Z :=
  Pd.get String.eqb COMPARISON_PERIODS period 30.

(** [df.sort_values('date').groupby('warehouse_id').last()]: one row per
    warehouse, in ascending order of the identifier, each column holding
    its last value present. *)
Definition latest_per_warehouse (storage_df : list StorageRow)
  : list StorageRow :=
  map (fun g =>
         let rows := snd g in
         {| stor_date := List.last (map stor_date rows) 0;
            warehouse_id := fst g;
            stor_region := List.last (map stor_region rows) "";
            quantity_stored_tons :=
              Pd.last_valid (map quantity_stored_tons rows);
            capacity_tons := Pd.last_valid (map capacity_tons rows) |})
      (Pd.groupby String.eqb String.leb warehouse_id
                  (Pd.sort_values Z.leb stor_date storage_df)).

(** [(stored / capacity * 100) if capacity > 0 else 0] *)
Definition percent_of (part whole : pyfloat) : pyfloat :=
  if fgt whole (of_Z 0) then fmul (fdiv part whole) (of_Z 100) else of_Z 0.

(* ---------------------------------------------------------------------- *)
(** ** Function 1: national summary *)

Record NS_production : Type := {
  ns_total_tons : pyfloat;
  ns_avg_per_region : pyfloat;
  ns_active_regions : nat
}.

Record NS_prices : Type := {
  ns_avg_price_tzs : pyfloat;
  ns_currency : string;
  ns_active_markets : nat
}.

Record StorageTotals : Type := {
  total_stored_tons : pyfloat;
  total_capacity_tons : pyfloat;
  utilization_percent : pyfloat;
  active_warehouses : nat
}.

Record NationalSummary : Type := {
  ns_period : string;
  ns_period_days : Z;
  ns_production : NS_production;
  ns_prices : NS_prices;
  ns_storage : StorageTotals;
  ns_generated_at : datetime
}.

Definition get_national_summary (period : string) : M NationalSummary :=
  production_df <- load_production_data ;;
  price_df <- load_price_data ;;
  storage_df <- load_storage_data ;;
  let days := period_days period in
  now <- datetime_now ;;
  let cutoff_date := now - timedelta days in
  let prod_period :=
    filter (fun r => cutoff_date <=? prod_date r) production_df in
  let price_period :=
    filter (fun r => cutoff_date <=? price_date r) price_df in
  let storage_period :=
    filter (fun r => cutoff_date <=? stor_date r) storage_df in
  let total_production := sum (map quantity_tons prod_period) in
  let avg_price := mean (map price_per_kg_tzs price_period) in
  let latest_storage := latest_per_warehouse storage_df in
  let total_stored := sum (map quantity_stored_tons latest_storage) in
  let total_capacity := sum (map capacity_tons latest_storage) in
  let storage_utilization := percent_of total_stored total_capacity in
  let active_regions := Pd.nunique String.eqb (map prod_region prod_period) in
  let active_markets := Pd.nunique String.eqb (map price_market price_period) in
  let active_warehouses := List.length latest_storage in
  generated_at <- datetime_now ;;
  ret {| ns_period := period;
         ns_period_days := days;
         ns_production :=
           {| ns_total_tons := round total_production DECIMAL_PLACES_quantity;
              ns_avg_per_region :=
                if (0 <? active_regions)%nat
                then round (fdiv total_production (of_nat active_regions))
                           DECIMAL_PLACES_quantity
                else of_Z 0;
              ns_active_regions := active_regions |};
         ns_prices :=
           {| ns_avg_price_tzs := round avg_price DECIMAL_PLACES_price;
              ns_currency := CURRENCY;
              ns_active_markets := active_markets |};
         ns_storage :=
           {| total_stored_tons := round total_stored DECIMAL_PLACES_quantity;
              total_capacity_tons :=
                round total_capacity DECIMAL_PLACES_quantity;
              utilization_percent :=
                round storage_utilization DECIMAL_PLACES_utilization;
              active_warehouses := active_warehouses |};
         ns_generated_at := generated_at |}.

(* ---------------------------------------------------------------------- *)
(** ** Function 2: production summary *)

Record PS_current_period : Type := {
  total_production_tons : pyfloat;
  avg_monthly_tons : pyfloat;
  yoy_growth_percent : pyfloat
}.

Record ForecastComparison : Type := {
  forecast_avg_tons : pyfloat;
  historical_avg_tons : pyfloat;
  growth_percent : pyfloat
}.

Record ProductionSummary : Type := {
  ps_region : string;
  ps_period : string;
  ps_current_period : PS_current_period;
  ps_regional_breakdown : list (string * pyfloat);
  ps_forecast_comparison : option ForecastComparison;
  ps_generated_at : datetime
}.

(** The body of the [try] block of the forecast comparison. The local
    [region_forecast] is assigned only under [if region:]. *)
Definition production_forecast_join (region : option string)
           (forecasts_df : list ProductionForecastRow)
  : M (option ForecastComparison) :=
  let region_forecast : option (list ProductionForecastRow) :=
    if given region
    then Some (filter (fun r => arg_is region (pf_region r)) forecasts_df)
    else None in
  rf <- local "region_forecast" region_forecast ;;
  match rf with
  | first :: _ =>
      ret (Some
        {| forecast_avg_tons :=
             round (forecast_avg first) DECIMAL_PLACES_quantity;
           historical_avg_tons :=
             round (historical_avg first) DECIMAL_PLACES_quantity;
           growth_percent :=
             round (growth_pct first) DECIMAL_PLACES_percentage |})
  | [] =>
      let forecast_total := sum (map forecast_avg forecasts_df) in
      let historical_total := sum (map historical_avg forecasts_df) in
      let growth :=
        percent_of (fsub forecast_total historical_total) historical_total in
      ret (Some
        {| forecast_avg_tons := round forecast_total DECIMAL_PLACES_quantity;
           historical_avg_tons :=
             round historical_total DECIMAL_PLACES_quantity;
           growth_percent := round growth DECIMAL_PLACES_percentage |})
  end.

Definition get_production_summary (region : option string) (period : string)
  : M ProductionSummary :=
  production_df <- load_production_data ;;
  forecasts_df <- load_production_forecasts ;;
  let production_df :=
    if given region
    then filter (fun r => arg_is region (prod_region r)) production_df
    else production_df in
  let days := period_days period in
  now <- datetime_now ;;
  let cutoff_date := now - timedelta days in
  let prod_period :=
    filter (fun r => cutoff_date <=? prod_date r) production_df in
  let total_production := sum (map quantity_tons prod_period) in
  let avg_monthly :=
    mean (map (fun g => sum (map quantity_tons (snd g)))
              (Pd.groupby period_eqb period_leb
                          (fun r => to_period_M (prod_date r)) prod_period)) in
  let yoy_cutoff := cutoff_date - timedelta 365 in
  let yoy_period :=
    filter (fun r => (yoy_cutoff <=? prod_date r) && (prod_date r <? cutoff_date))
           production_df in
  let yoy_production := sum (map quantity_tons yoy_period) in
  let yoy_growth :=
    percent_of (fsub total_production yoy_production) yoy_production in
  let regional_breakdown :=
    map (fun g => (fst g,
                   round (sum (map quantity_tons (snd g)))
                         DECIMAL_PLACES_quantity))
        (Pd.groupby String.eqb String.leb prod_region prod_period) in
  forecast_comparison <-
    match forecasts_df with
    | Some fdf =>
        try_except (production_forecast_join region fdf)
                   (fun _ => ret None)
    | None => ret None
    end ;;
  generated_at <- datetime_now ;;
  ret {| ps_region := arg_or region "National";
         ps_period := period;
         ps_current_period :=
           {| total_production_tons :=
                round total_production DECIMAL_PLACES_quantity;
              avg_monthly_tons := round avg_monthly DECIMAL_PLACES_quantity;
              yoy_growth_percent :=
                round yoy_growth DECIMAL_PLACES_percentage |};
         ps_regional_breakdown := regional_breakdown;
         ps_forecast_comparison := forecast_comparison;
         ps_generated_at := generated_at |}.

(* ---------------------------------------------------------------------- *)
(** ** Function 4: storage status *)

(** [str(n)] inside an f-string. *)
Definition str_of_nat (n : nat) : string :=
  NilZero.string_of_uint (Nat.to_uint n).

Definition str_of_Z (z : Z) : string :=
  NilZero.string_of_int (Z.to_int z).

(** A row of [latest] once the column [utilization_percent] is added. *)
Record WarehouseStatus : Type := {
  ws_warehouse_id : string;
  ws_region : string;
  ws_quantity_stored_tons : pyfloat;
  ws_capacity_tons : pyfloat;
  ws_utilization_percent : pyfloat
}.

Record Alert : Type := {
  alert_type : string;
  severity : string;
  alert_message : string;
  warehouses : list string
}.

Record UtilizationCategories : Type := {
  optimal : nat;
  overstocked : nat;
  understocked : nat
}.

(** [warehouse_status] is the list of rows, one row, or [None]. *)
Inductive WarehouseReport : Type :=
| AllWarehouses (rows : list WarehouseStatus)
| OneWarehouse (row : WarehouseStatus)
| NoWarehouse.

Record StorageStatus : Type := {
  ss_warehouse : string;
  national_summary : StorageTotals;
  utilization_categories : UtilizationCategories;
  warehouse_status : WarehouseReport;
  alerts : list Alert;
  ss_generated_at : datetime
}.

Definition with_utilization (r : StorageRow) : WarehouseStatus :=
  {| ws_warehouse_id := warehouse_id r;
     ws_region := stor_region r;
     ws_quantity_stored_tons := quantity_stored_tons r;
     ws_capacity_tons := capacity_tons r;
     ws_utilization_percent :=
       round (fmul (fdiv (quantity_stored_tons r) (capacity_tons r))
                   (of_Z 100))
             DECIMAL_PLACES_utilization |}.

(** The three categories of [get_storage_status]. *)
Definition is_overstocked (r : WarehouseStatus) : bool :=
  fgt (ws_utilization_percent r) (of_Z STORAGE_CRITICAL_HIGH).

Definition is_understocked (r : WarehouseStatus) : bool :=
  flt (ws_utilization_percent r) (of_Z STORAGE_CRITICAL_LOW).

Definition is_optimal (r : WarehouseStatus) : bool :=
  fge (ws_utilization_percent r) (of_Z STORAGE_OPTIMAL_MIN)
  && fle (ws_utilization_percent r) (of_Z STORAGE_OPTIMAL_MAX).

(** [Series.round] needs a numeric dtype. [pd.read_csv] reads the columns
    of a file that has a header and no row with dtype object, and the
    grouping, the selection and the division keep it: rounding a column
    computed from such a file raises. *)
Definition series_round (R A : Type) (file_rows : list R) (rounded : A)
  : M A :=
  match file_rows with
  | [] => raise (TypeError "Expected numeric dtype, got object instead.")
  | _ :: _ => ret rounded
  end.

Definition get_storage_status (warehouse : option string) : M StorageStatus :=
  storage_df <- load_storage_data ;;
  let latest := latest_per_warehouse storage_df in
  let latest :=
    if given warehouse
    then filter (fun r => arg_is warehouse (warehouse_id r)) latest
    else latest in
  latest <- series_round storage_df (map with_utilization latest) ;;
  let total_stored := sum (map ws_quantity_stored_tons latest) in
  let total_capacity := sum (map ws_capacity_tons latest) in
  let national_utilization := percent_of total_stored total_capacity in
  let overstocked := filter is_overstocked latest in
  let understocked := filter is_understocked latest in
  let optimal := filter is_optimal latest in
  let warehouse_status := latest in
  let alerts := [] in
  let alerts :=
    if (0 <? List.length overstocked)%nat
    then (alerts ++
         [{| alert_type := "overstocked";
             severity := "high";
             alert_message :=
               str_of_nat (List.length overstocked) ++ " warehouse(s) over "
               ++ str_of_Z STORAGE_CRITICAL_HIGH ++ "% capacity";
             warehouses := map ws_warehouse_id overstocked |}])%list
    else alerts in
  let alerts :=
    if (0 <? List.length understocked)%nat
    then (alerts ++
         [{| alert_type := "understocked";
             severity := "medium";
             alert_message :=
               str_of_nat (List.length understocked) ++ " warehouse(s) under "
               ++ str_of_Z STORAGE_CRITICAL_LOW ++ "% capacity";
             warehouses := map ws_warehouse_id understocked |}])%list
    else alerts in
  generated_at <- datetime_now ;;
  ret {| ss_warehouse := arg_or warehouse "All Warehouses";
         national_summary :=
           {| total_stored_tons := round total_stored DECIMAL_PLACES_quantity;
              total_capacity_tons :=
                round total_capacity DECIMAL_PLACES_quantity;
              utilization_percent :=
                round national_utilization DECIMAL_PLACES_utilization;
              active_warehouses := List.length latest |};
         utilization_categories :=
           {| optimal := List.length optimal;
              overstocked := List.length overstocked;
              understocked := List.length understocked |};
         warehouse_status :=
           if negb (given warehouse) then AllWarehouses warehouse_status
           else match warehouse_status with
                | first :: _ => OneWarehouse first
                | [] => NoWarehouse
                end;
         alerts := alerts;
         ss_generated_at := generated_at |}.

(* ---------------------------------------------------------------------- *)
(** ** Function 5: seasonal pattern *)

Definition month_names : list (Z * string) :=
  [(1, "Jan"); (2, "Feb"); (3, "Mar"); (4, "Apr"); (5, "May"); (6, "Jun");
   (7, "Jul"); (8, "Aug"); (9, "Sep"); (10, "Oct"); (11, "Nov"); (12, "Dec")].

Definition month_name (m : Z) : string := Pd.get Z.eqb month_names m "".

Record MonthEntry : Type := {
  month_number : Z;
  season_type : string;
  avg_production_tons : pyfloat;
  avg_price_tzs : pyfloat
}.

Record HarvestSeason : Type := {
  harvest_months : list string;
  production_share_percent : pyfloat;
  hs_characteristics : string
}.

Record LeanSeasonInfo : Type := {
  lean_months : list string;
  ls_characteristics : string
}.

Record SeasonalPatterns : Type := {
  masika_season : HarvestSeason;
  vuli_season : HarvestSeason;
  lean_season : LeanSeasonInfo
}.

Record Insights : Type := {
  peak_production_month : string;
  low_production_month : string;
  peak_price_month : string;
  low_price_month : string
}.

Record SeasonalPattern : Type := {
  crop : string;
  seasonal_patterns : SeasonalPatterns;
  monthly_averages_production : list (Z * pyfloat);
  monthly_averages_prices : list (Z * pyfloat);
  insights : Insights;
  seasonal_calendar : list (string * MonthEntry);
  sp_generated_at : datetime
}.

(** [list(d.keys())[values.index(max(values))]] (and the same with [min]):
    the built-in keeps the first item that no later one beats, and
    [index] finds the first item equal to it, or the item itself when it
    is NaN, which can only be the first one. *)
Definition key_of_extreme (better : pyfloat -> pyfloat -> bool)
           (what : string) (d : list (Z * pyfloat)) : M Z :=
  match d with
  | [] => raise (ValueError what)
  | (k0, v0) :: rest =>
      let m := fold_left (fun m x => if better x m then x else m)
                         (map snd rest) v0 in
      ret (if isnan m then k0
           else match List.find (fun kv => feq (snd kv) m) d with
                | Some kv => fst kv
                | None => k0
                end)
  end.

Definition season_type_of (month : Z) : string :=
  if Zmem month MASIKA_HARVEST then "masika_harvest"
  else if Zmem month VULI_HARVEST then "vuli_harvest"
  else if Zmem month LEAN_SEASON then "lean_season"
  else "normal".

Definition months_1_to_12 : list Z := [1; 2; 3; 4; 5; 6; 7; 8; 9; 10; 11; 12].

Definition get_seasonal_pattern (crop : string) : M SeasonalPattern :=
  production_df <- load_production_data ;;
  price_df <- load_price_data ;;
  let monthly_production :=
    map (fun g => (fst g,
                   round (mean (map quantity_tons (snd g)))
                         DECIMAL_PLACES_quantity))
        (Pd.groupby Z.eqb Z.leb (fun r => month_of (prod_date r))
                    production_df) in
  let monthly_prices :=
    map (fun g => (fst g,
                   round (mean (map price_per_kg_tzs (snd g)))
                         DECIMAL_PLACES_price))
        (Pd.groupby Z.eqb Z.leb (fun r => month_of (price_date r))
                    price_df) in
  peak_production_month <-
    key_of_extreme fgt "max() arg is an empty sequence" monthly_production ;;
  low_production_month <-
    key_of_extreme flt "min() arg is an empty sequence" monthly_production ;;
  peak_price_month <-
    key_of_extreme fgt "max() arg is an empty sequence" monthly_prices ;;
  low_price_month <-
    key_of_extreme flt "min() arg is an empty sequence" monthly_prices ;;
  let seasonal_calendar :=
    map (fun month =>
           (month_name month,
            {| month_number := month;
               season_type := season_type_of month;
               avg_production_tons :=
                 Pd.get Z.eqb monthly_production month (of_Z 0);
               avg_price_tzs :=
                 Pd.get Z.eqb monthly_prices month (of_Z 0) |}))
        months_1_to_12 in
  generated_at <- datetime_now ;;
  ret {| crop := crop;
         seasonal_patterns :=
           {| masika_season :=
                {| harvest_months := map month_name MASIKA_HARVEST;
                   production_share_percent :=
                     round (fmul MASIKA_PRODUCTION_PCT (of_Z 100))
                           DECIMAL_PLACES_percentage;
                   hs_characteristics :=
                     "Main harvest - highest production, lowest prices" |};
              vuli_season :=
                {| harvest_months := map month_name VULI_HARVEST;
                   production_share_percent :=
                     round (fmul VULI_PRODUCTION_PCT (of_Z 100))
                           DECIMAL_PLACES_percentage;
                   hs_characteristics :=
                     "Secondary harvest - moderate production and prices" |};
              lean_season :=
                {| lean_months := map month_name LEAN_SEASON;
                   ls_characteristics :=
                     "Pre-harvest period - low production, high prices" |} |};
         monthly_averages_production := monthly_production;
         monthly_averages_prices := monthly_prices;
         insights :=
           {| peak_production_month := month_name peak_production_month;
              low_production_month := month_name low_production_month;
              peak_price_month := month_name peak_price_month;
              low_price_month := month_name low_price_month |};
         seasonal_calendar := seasonal_calendar;
         sp_generated_at := generated_at |}.

(* ---------------------------------------------------------------------- *)
(** ** Function 6: forecast accuracy *)

Record RegionalMetric : Type := {
  rm_forecast_avg_tons : pyfloat;
  rm_historical_avg_tons : pyfloat;
  rm_growth_percent : pyfloat;
  rm_status : string
}.

Record ProductionModels : Type := {
  by_region : list (string * RegionalMetric);
  pm_model_type : string;
  pm_status : string;
  pm_total_models : nat
}.

Record PriceModels : Type := {
  total_models : nat;
  model_type : string;
  status : string
}.

Record OverallPerformance : Type := {
  production_models_active : nat;
  price_models_active : nat;
  last_evaluation : datetime;
  op_status : string
}.

(** A dict of models: the empty dict [{}] that [results] starts with, or
    the dict built from a summary file. *)
Inductive models (A : Type) : Type :=
| NoModels
| Models (a : A).

Arguments NoModels {A}.

Record ForecastAccuracy : Type := {
  production_models : models ProductionModels;
  price_models : models PriceModels;
  overall_performance : OverallPerformance
}.

Definition pair_eqb (p q : string * string) : bool :=
  ((fst p =? fst q) && (snd p =? snd q))%string.

(** [price_forecasts.columns]: the header of the price summary file. *)
Definition price_forecasts_columns : M (list string) :=
  fun w => (Ok (price_forecast_columns (files w)), w).

Definition get_forecast_accuracy : M ForecastAccuracy :=
  price_forecasts <- load_price_forecasts ;;
  prod_forecasts <- load_production_forecasts ;;
  price_forecasts <- load_price_forecasts ;;
  let production_models :=
    match prod_forecasts with
    | Some rows =>
        let regional_metrics :=
          fold_left
            (fun acc row =>
               Pd.dict_set (pf_region row)
                 {| rm_forecast_avg_tons :=
                      round (forecast_avg row) DECIMAL_PLACES_quantity;
                    rm_historical_avg_tons :=
                      round (historical_avg row) DECIMAL_PLACES_quantity;
                    rm_growth_percent :=
                      round (growth_pct row) DECIMAL_PLACES_percentage;
                    rm_status := "active" |} acc)
            rows [] in
        Models {| by_region := regional_metrics;
                  pm_model_type := "Prophet";
                  pm_status := "active";
                  pm_total_models := List.length regional_metrics |}
    | None => NoModels
    end in
  columns <- price_forecasts_columns ;;
  let price_models :=
    match price_forecasts with
    | Some rows =>
        let price_model_count :=
          if str_mem "market" columns && str_mem "grade" columns
          then Pd.nunique pair_eqb
                 (map (fun r => (fc_market r, fc_grade r)) rows)
          else 36%nat in
        Models {| total_models := price_model_count;
                  model_type := "Prophet";
                  status := "active" |}
    | None => NoModels
    end in
  last_evaluation <- datetime_now ;;
  ret {| production_models := production_models;
         price_models := price_models;
         overall_performance :=
           {| production_models_active :=
                match production_models with
                | Models pm => List.length (by_region pm)
                | NoModels => 0%nat
                end;
              price_models_active :=
                match price_models with
                | Models pm => total_models pm
                | NoModels => 36%nat
                end;
              last_evaluation := last_evaluation;
              op_status := "All models operational" |} |}.

(* ---------------------------------------------------------------------- *)
(** ** Functions 3 and 7: price analysis, supply-demand balance *)

Record CurrentPrices : Type := {
  cp_avg_price_tzs : pyfloat;
  cp_min_price_tzs : pyfloat;
  cp_max_price_tzs : pyfloat;
  cp_volatility : pyfloat;
  cp_currency : string
}.

Record GradePremium : Type := {
  actual_premium_percent : pyfloat;
  expected_premium_percent : pyfloat
}.

Record GradeAnalysis : Type := {
  prices_by_grade : list (string * pyfloat);
  grade_premiums : option (list (string * GradePremium))
}.

Record PriceForecastComparison : Type := {
  forecast_next_month : pyfloat;
  vs_current : pyfloat
}.

Record PriceAnalysis : Type := {
  pa_market : string;
  pa_grade : string;
  current_prices : CurrentPrices;
  market_comparison : option (list (string * pyfloat));
  grade_analysis : option GradeAnalysis;
  pa_forecast_comparison : option PriceForecastComparison;
  pa_generated_at : datetime
}.

Record CurrentBalance : Type := {
  cb_status : string;
  cb_message : string;
  cb_production_tons : pyfloat;
  cb_avg_price_tzs : pyfloat;
  cb_storage_tons : pyfloat
}.

Record CorrelationAnalysis : Type := {
  price_production_correlation : option pyfloat;
  interpretation : string
}.

Record HistoricalPatterns : Type := {
  surplus_periods : list period_M;
  shortage_periods : list period_M;
  avg_production : pyfloat;
  production_volatility : pyfloat
}.

Record SupplyDemandBalance : Type := {
  current_balance : CurrentBalance;
  correlation_analysis : CorrelationAnalysis;
  historical_patterns : HistoricalPatterns;
  sd_generated_at : datetime
}.

(** [pd.DataFrame({'production': a, 'price': b}).dropna()]: the months
    that have a value present in both series, in ascending order. *)
Definition joined_months (a b : list (period_M * pyfloat))
  : list (pyfloat * pyfloat) :=
  flat_map (fun kv =>
              match Pd.lookup period_eqb (fst kv) b with
              | Some p =>
                  if notna (snd kv) && notna p then [(snd kv, p)] else []
              | None => []
              end) a.

(** [df.groupby(df['date'].dt.to_period('M'))[col].agg()]: one value per
    calendar month, the months in ascending order. *)
Definition monthly (R : Type) (agg : list pyfloat -> pyfloat)
           (date : R -> datetime) (col : R -> pyfloat) (rows : list R)
  : list (period_M * pyfloat) :=
  map (fun g => (fst g, agg (map col (snd g))))
      (Pd.groupby period_eqb period_leb (fun r => to_period_M (date r)) rows).

(** Truth value of a variable that holds a number or [None]. *)
Definition truthy_opt (x : option pyfloat) : bool :=
  match x with
  | Some v => truthy v
  | None => false
  end.

(** [s.iloc[-1] if len(s) > 0 else 0] *)
Definition iloc_last_or_zero (K : Type) (s : list (K * pyfloat)) : pyfloat :=
  List.last (map snd s) (of_Z 0).

Section Platform.

Variable sqrt : Q -> Q.

Definition get_price_analysis (market grade : option string)
  : M PriceAnalysis :=
  price_df <- load_price_data ;;
  forecasts_df <- load_price_forecasts ;;
  let price_df :=
    if given market
    then filter (fun r => arg_is market (price_market r)) price_df
    else price_df in
  let price_df :=
    if given grade
    then filter (fun r => arg_is grade (quality_grade r)) price_df
    else price_df in
  now <- datetime_now ;;
  let cutoff := now - timedelta 7 in
  let current := filter (fun r => cutoff <=? price_date r) price_df in
  let avg_price := mean (map price_per_kg_tzs current) in
  let min_price := min (map price_per_kg_tzs current) in
  let max_price := max (map price_per_kg_tzs current) in
  let price_volatility := std sqrt (map price_per_kg_tzs current) in
  let market_prices :=
    if negb (given market)
    then Some
           (map (fun kv => (fst kv, round (snd kv) DECIMAL_PLACES_price))
                (Pd.sort_values_desc
                   (map (fun g => (fst g,
                                   mean (map price_per_kg_tzs (snd g))))
                        (Pd.groupby String.eqb String.leb
                                    price_market current))))
    else None in
  let grade_prices :=
    map (fun g => (fst g,
                   round (mean (map price_per_kg_tzs (snd g)))
                         DECIMAL_PLACES_price))
        (Pd.groupby String.eqb String.leb quality_grade current) in
  let grade_premiums :=
    match Pd.lookup String.eqb "C" grade_prices with
    | Some base_price =>
        Some
          (flat_map
             (fun g =>
                match Pd.lookup String.eqb g grade_prices with
                | Some p =>
                    let premium_pct :=
                      percent_of (fsub p base_price) base_price in
                    [(g,
                      {| actual_premium_percent :=
                           round premium_pct DECIMAL_PLACES_percentage;
                         expected_premium_percent :=
                           round (fmul (Pd.get String.eqb EXPECTED_PREMIUMS
                                               g NaN) (of_Z 100))
                                 DECIMAL_PLACES_percentage |})]
                | None => []
                end)
             ["A"; "B"; "C"])
    | None => None
    end in
  forecast_comparison <-
    match forecasts_df with
    | Some fdf =>
        now <- datetime_now ;;
        let future_month := replace_day (now + timedelta 30) 1 in
        let forecast_data :=
          filter (fun r => fc_month r =? future_month) fdf in
        let forecast_data :=
          if given market
          then filter (fun r => arg_is market (fc_market r)) forecast_data
          else forecast_data in
        let forecast_data :=
          if given grade
          then filter (fun r => arg_is grade (fc_grade r)) forecast_data
          else forecast_data in
        if (0 <? List.length forecast_data)%nat
        then
          let forecast_avg := mean (map yhat forecast_data) in
          ret (Some
            {| forecast_next_month :=
                 round forecast_avg DECIMAL_PLACES_price;
               vs_current :=
                 if fgt avg_price (of_Z 0)
                 then round (fmul (fdiv (fsub forecast_avg avg_price)
                                        avg_price) (of_Z 100))
                            DECIMAL_PLACES_percentage
                 else of_Z 0 |})
        else ret None
    | None => ret None
    end ;;
  generated_at <- datetime_now ;;
  ret {| pa_market := arg_or market "All Markets";
         pa_grade := arg_or grade "All Grades";
         current_prices :=
           {| cp_avg_price_tzs := round avg_price DECIMAL_PLACES_price;
              cp_min_price_tzs := round min_price DECIMAL_PLACES_price;
              cp_max_price_tzs := round max_price DECIMAL_PLACES_price;
              cp_volatility := round price_volatility DECIMAL_PLACES_price;
              cp_currency := CURRENCY |};
         market_comparison := market_prices;
         grade_analysis :=
           if negb (given grade)
           then Some {| prices_by_grade := grade_prices;
                        grade_premiums := grade_premiums |}
           else None;
         pa_forecast_comparison := forecast_comparison;
         pa_generated_at := generated_at |}.

Definition get_supply_demand_balance : M SupplyDemandBalance :=
  production_df <- load_production_data ;;
  price_df <- load_price_data ;;
  storage_df <- load_storage_data ;;
  let monthly_production :=
    monthly sum prod_date quantity_tons production_df in
  let monthly_price :=
    monthly mean price_date price_per_kg_tzs price_df in
  let monthly_storage :=
    monthly mean stor_date quantity_stored_tons storage_df in
  let correlation_df := joined_months monthly_production monthly_price in
  let price_prod_correlation :=
    if (2 <? List.length correlation_df)%nat
    then Some (corr sqrt (map fst correlation_df) (map snd correlation_df))
    else None in
  let prod_mean := mean (map snd monthly_production) in
  let prod_std := std sqrt (map snd monthly_production) in
  let surplus_months :=
    map fst (filter (fun kv => fgt (snd kv) (fadd prod_mean prod_std))
                    monthly_production) in
  let shortage_months :=
    map fst (filter (fun kv => flt (snd kv) (fsub prod_mean prod_std))
                    monthly_production) in
  let latest_prod := iloc_last_or_zero monthly_production in
  let latest_price := iloc_last_or_zero monthly_price in
  let latest_storage := iloc_last_or_zero monthly_storage in
  let current :=
    if fgt latest_prod prod_mean
    then ("surplus",
          "Production above average - favorable supply conditions")
    else if flt latest_prod (fsub prod_mean prod_std)
    then ("shortage",
          "Production below average - potential supply constraints")
    else ("balanced", "Production at normal levels") in
  generated_at <- datetime_now ;;
  ret {| current_balance :=
           {| cb_status := fst current;
              cb_message := snd current;
              cb_production_tons :=
                round latest_prod DECIMAL_PLACES_quantity;
              cb_avg_price_tzs := round latest_price DECIMAL_PLACES_price;
              cb_storage_tons :=
                round latest_storage DECIMAL_PLACES_quantity |};
         correlation_analysis :=
           {| price_production_correlation :=
                match price_prod_correlation with
                | Some c => if truthy c then Some (round c 3) else None
                | None => None
                end;
              interpretation :=
                if truthy_opt price_prod_correlation
                   && match price_prod_correlation with
                      | Some c => flt c (of_Z 0)
                      | None => false
                      end
                then "Negative correlation expected (high production → low prices)"
                else "Positive correlation indicates other factors at play" |};
         historical_patterns :=
           {| surplus_periods := surplus_months;
              shortage_periods := shortage_months;
              avg_production := round prod_mean DECIMAL_PLACES_quantity;
              production_volatility :=
                round prod_std DECIMAL_PLACES_quantity |};
         sd_generated_at := generated_at |}.

End Platform.

(* ---------------------------------------------------------------------- *)
(** ** Function 8: market opportunities *)

(** A label of an index, or the NaN that [idxmax] and [idxmin] give for a
    series without a value present. *)
Inductive index_label : Type :=
| Label (name : string)
| NaNLabel.

Record Arbitrage : Type := {
  buy_market : index_label;
  buy_price_tzs : pyfloat;
  sell_market : index_label;
  sell_price_tzs : pyfloat;
  price_gap_tzs : pyfloat;
  profit_margin_percent : pyfloat;
  recommendation : string
}.

Record QualityPremium : Type := {
  grade_c_price_tzs : pyfloat;
  grade_a_price_tzs : pyfloat;
  premium_percent : pyfloat;
  qp_recommendation : string
}.

Record Timing : Type := {
  current_period : string;
  action : string;
  reason : string;
  confidence : string
}.

Record ForecastOpportunity : Type := {
  fo_market : string;
  fo_current_price : pyfloat;
  fo_forecast_price : pyfloat;
  fo_change_percent : pyfloat;
  fo_action : string
}.

Record MarketReport : Type := {
  arbitrage_opportunity : Arbitrage;
  quality_premium_opportunity : option QualityPremium;
  timing_recommendation : Timing;
  forecast_opportunities : option (list ForecastOpportunity);
  mo_generated_at : datetime
}.

(** The result is either the dict with the single key [message] or the
    full report. *)
Inductive MarketOpportunities : Type :=
| InsufficientData (message : string)
| Report (r : MarketReport).

(** Mean grade-A price per market over the rows given, the markets in
    ascending order. *)
Definition grade_a_market_prices (current_prices : list PriceRow)
  : list (string * pyfloat) :=
  map (fun g => (fst g, mean (map price_per_kg_tzs (snd g))))
      (Pd.groupby String.eqb String.leb price_market
                  (filter (fun r => (quality_grade r =? "A")%string)
                          current_prices)).

Definition arbitrage_label (price_gap_pct : pyfloat) : string :=
  if fgt price_gap_pct (of_Z 15) then "Strong opportunity"
  else if fgt price_gap_pct (of_Z 8) then "Moderate opportunity"
  else "Limited opportunity".

(** [idxmax]/[idxmin] of a series with no value present return NaN (with
    a warning that a later version will raise). *)
Definition label_of (i : option string) : index_label :=
  match i with
  | Some k => Label k
  | None => NaNLabel
  end.

Definition timing_for (current_month : Z) : Timing :=
  if Zmem current_month LEAN_SEASON then
    {| current_period := "Lean season";
       action := "SELL NOW";
       reason := "Prices typically peak during lean season (March-May)";
       confidence := "High" |}
  else if Zmem current_month MASIKA_HARVEST then
    {| current_period := "Masika harvest";
       action := "HOLD or STORE";
       reason := "Prices typically drop during harvest. Consider storage for better prices later.";
       confidence := "High" |}
  else if Zmem current_month VULI_HARVEST then
    {| current_period := "Vuli harvest";
       action := "SELL MODERATE VOLUMES";
       reason := "Moderate harvest period. Balance immediate sales with storage.";
       confidence := "Medium" |}
  else
    {| current_period := "Normal period";
       action := "MONITOR";
       reason := "Prices stable. Watch for seasonal changes.";
       confidence := "Medium" |}.

Definition forecast_opportunity (current_prices : list PriceRow)
           (forecast_next : list PriceForecastRow) (m : string)
  : list ForecastOpportunity :=
  let market_current :=
    mean (map price_per_kg_tzs
              (filter (fun r => (price_market r =? m)%string
                                && (quality_grade r =? "A")%string)
                      current_prices)) in
  let market_forecast :=
    map yhat (filter (fun r => (fc_market r =? m)%string
                               && (fc_grade r =? "A")%string)
                     forecast_next) in
  match market_forecast with
  | forecast_price :: _ =>
      if negb (isnan market_current) then
        let change_pct :=
          fmul (fdiv (fsub forecast_price market_current) market_current)
               (of_Z 100) in
        if fgt (fabs change_pct) (of_Z 5) then
          [{| fo_market := m;
              fo_current_price := round market_current DECIMAL_PLACES_price;
              fo_forecast_price := round forecast_price DECIMAL_PLACES_price;
              fo_change_percent := round change_pct DECIMAL_PLACES_percentage;
              fo_action :=
                if fgt change_pct (of_Z 5) then "Consider storing"
                else "Consider selling soon" |}]
        else []
      else []
  | [] => []
  end.

Definition get_market_opportunities : M MarketOpportunities :=
  price_df <- load_price_data ;;
  prod_forecasts <- load_production_forecasts ;;
  price_forecasts <- load_price_forecasts ;;
  now <- datetime_now ;;
  let cutoff := now - timedelta 7 in
  let current_prices := filter (fun r => cutoff <=? price_date r) price_df in
  let market_prices := grade_a_market_prices current_prices in
  if (List.length market_prices <? 2)%nat
  then ret (InsufficientData "Insufficient data for opportunity analysis")
  else
    let max_price_market := label_of (Pd.idxmax market_prices) in
    let min_price_market := label_of (Pd.idxmin market_prices) in
    let max_price := max (map snd market_prices) in
    let min_price := min (map snd market_prices) in
    let price_gap := fsub max_price min_price in
    let price_gap_pct := fmul (fdiv price_gap min_price) (of_Z 100) in
    let arbitrage :=
      {| buy_market := min_price_market;
         buy_price_tzs := round min_price DECIMAL_PLACES_price;
         sell_market := max_price_market;
         sell_price_tzs := round max_price DECIMAL_PLACES_price;
         price_gap_tzs := round price_gap DECIMAL_PLACES_price;
         profit_margin_percent :=
           round price_gap_pct DECIMAL_PLACES_percentage;
         recommendation := arbitrage_label price_gap_pct |} in
    let grade_prices :=
      map (fun g => (fst g, mean (map price_per_kg_tzs (snd g))))
          (Pd.groupby String.eqb String.leb quality_grade current_prices) in
    let quality_premium :=
      match Pd.lookup String.eqb "A" grade_prices,
            Pd.lookup String.eqb "C" grade_prices with
      | Some grade_a_price, Some grade_c_price =>
          let premium_pct :=
            fmul (fdiv (fsub grade_a_price grade_c_price) grade_c_price)
                 (of_Z 100) in
          Some {| grade_c_price_tzs :=
                    round grade_c_price DECIMAL_PLACES_price;
                  grade_a_price_tzs :=
                    round grade_a_price DECIMAL_PLACES_price;
                  premium_percent :=
                    round premium_pct DECIMAL_PLACES_percentage;
                  qp_recommendation :=
                    if fgt premium_pct (of_Z 20)
                    then "Invest in quality improvement"
                    else "Moderate quality focus" |}
      | _, _ => None
      end in
    now <- datetime_now ;;
    let current_month := month_of now in
    let timing_recommendation := timing_for current_month in
    forecast_opportunities <-
      match price_forecasts with
      | Some fdf =>
          now <- datetime_now ;;
          let next_month := replace_day (now + timedelta 30) 1 in
          let forecast_next :=
            filter (fun r => fc_month r =? next_month) fdf in
          ret (flat_map (forecast_opportunity current_prices forecast_next)
                        (firstn 5 MARKETS))
      | None => ret []
      end ;;
    generated_at <- datetime_now ;;
    ret (Report
      {| arbitrage_opportunity := arbitrage;
         quality_premium_opportunity := quality_premium;
         timing_recommendation := timing_recommendation;
         forecast_opportunities :=
           if (0 <? List.length forecast_opportunities)%nat
           then Some forecast_opportunities
           else None;
         mo_generated_at := generated_at |}).

(* ====================================================================== *)
(** * validators.py *)
(* ====================================================================== *)

(** A column of a DataFrame as [pd.read_csv] types it: numbers (a missing
    number is NaN), text, or timestamps. *)
Inductive column : Type :=
| Float64 (xs : list pyfloat)
| Object (xs : list (option string))
| Datetime64 (xs : list (option datetime)).

(** A single cell, whatever its column. *)
Inductive value : Type :=
| VNum (q : Q)
| VInf (positive : bool)
| VStr (s : string)
| VDate (t : datetime)
| VNull.

(** A DataFrame: its number of rows and its columns in order. The
    validators receive it by reference and may assign to its columns. *)
Record DataFrame : Type := {
  nrows : nat;
  cols : list (string * column)
}.

Definition columns (df : DataFrame) : list string := map fst (cols df).

Definition value_of_float (x : pyfloat) : value :=
  match x with
  | Finite q => VNum q
  | PInf => VInf true
  | NInf => VInf false
  | NaN => VNull
  end.

Definition value_of_option {A : Type} (f : A -> value) (o : option A)
  : value :=
  match o with
  | Some a => f a
  | None => VNull
  end.

Definition values (c : column) : list value :=
  match c with
  | Float64 xs => map value_of_float xs
  | Object xs => map (value_of_option VStr) xs
  | Datetime64 xs => map (value_of_option VDate) xs
  end.

Definition isnull (v : value) : bool :=
  match v with VNull => true | _ => false end.

(** [==] on cells; a missing cell equals nothing. *)
Definition value_eqb (a b : value) : bool :=
  match a, b with
  | VNum p, VNum q => Qeq_bool p q
  | VInf s, VInf t => Bool.eqb s t
  | VStr s, VStr t => (s =? t)%string
  | VDate s, VDate t => (s =? t)
  | _, _ => false
  end.

(** Identity of labels for [unique]: the missing cells count as one. *)
Definition value_same (a b : value) : bool :=
  value_eqb a b || (isnull a && isnull b).

(** [df[name] = c]: an existing column is replaced in place, a new one is
    added at the end. *)
Fixpoint assign (name : string) (c : column) (l : list (string * column))
  : list (string * column) :=
  match l with
  | [] => [(name, c)]
  | (n, c') :: l' =>
      if (name =? n)%string then (n, c) :: l' else (n, c') :: assign name c l'
  end.

Definition set_col (name : string) (c : column) (df : DataFrame) : DataFrame :=
  {| nrows := nrows df; cols := assign name c (cols df) |}.

Definition get_col (name : string) (df : DataFrame) : M column :=
  match Pd.lookup String.eqb name (cols df) with
  | Some c => ret c
  | None => raise (KeyError name)
  end.

(** A column used in arithmetic or compared with a number must be
    numeric. *)
Definition float_col (name : string) (df : DataFrame) : M (list pyfloat) :=
  c <- get_col name df ;;
  match c with
  | Float64 xs => ret xs
  | _ => raise (TypeError name)
  end.

(** One piece of an f-string: literal text or an interpolated value with
    its format. *)
Inductive fragment : Type :=
| Lit (s : string)
| FStr (s : string)
| FNat (n : nat)
| FInt (z : Z)
| FFloat (x : pyfloat) (decimals : nat)
| FValue (v : value)
| FList (vs : list value)
| FSet (names : list string)
| FTimestamp (t : option datetime)
| FException.

Definition message : Type := list fragment.

Record ValidationResult : Type := {
  errors : list message;
  warnings : list message;
  info : list message
}.

Definition new_result : ValidationResult :=
  {| errors := []; warnings := []; info := [] |}.

Definition add_error (r : ValidationResult) (m : message) : ValidationResult :=
  {| errors := errors r ++ [m]; warnings := warnings r; info := info r |}.

Definition add_warning (r : ValidationResult) (m : message)
  : ValidationResult :=
  {| errors := errors r; warnings := warnings r ++ [m]; info := info r |}.

Definition add_info (r : ValidationResult) (m : message) : ValidationResult :=
  {| errors := errors r; warnings := warnings r; info := info r ++ [m] |}.

Definition is_valid (r : ValidationResult) : bool :=
  (List.length (errors r) =? 0)%nat.

(** [set(required) - set(df.columns)], listed in the order of
    [required]. *)
Definition missing_from (required : list string) (df : DataFrame)
  : list string :=
  filter (fun c => negb (str_mem c (columns df))) required.

Definition count_true (bs : list bool) : nat :=
  List.length (filter (fun b => b) bs).

Definition count_null (c : column) : nat :=
  List.length (filter isnull (values c)).

Definition missing_values_message (col : string) (pct : pyfloat) : message :=
  [Lit "Column '"; FStr col; Lit "' has "; FFloat pct 1;
   Lit "% missing values"].

(** [(count / len(df)) * 100] for the missing cells of a column. *)
Definition missing_pct (df : DataFrame) (c : column) : pyfloat :=
  fmul (fdiv (of_nat (count_null c)) (of_nat (nrows df))) (of_Z 100).

(** The loop over [df.isnull().sum()]. *)
Definition missing_value_audit (df : DataFrame) (result : ValidationResult)
  : ValidationResult :=
  fold_left
    (fun res col =>
       let count := count_null (snd col) in
       if (0 <? count)%nat then
         let pct := missing_pct df (snd col) in
         if fgt pct (of_Z 20)
         then add_error res (missing_values_message (fst col) pct)
         else if fgt pct (of_Z 5)
         then add_warning res (missing_values_message (fst col) pct)
         else res
       else res)
    (cols df) result.

(** [Series.nunique()]: distinct values present. *)
Definition nunique (c : column) : nat :=
  Pd.nunique value_eqb (filter (fun v => negb (isnull v)) (values c)).

(** [Series.unique()]: distinct values, the missing one included. *)
Definition unique (vs : list value) : list value := Pd.unique value_same vs.

(** [df[col].min()] and [.max()] of the timestamp column. *)
Definition date_bound (pick : Z -> Z -> Z) (c : column) : option datetime :=
  match c with
  | Datetime64 xs =>
      fold_left (fun acc x =>
                   match acc, x with
                   | Some a, Some t => Some (pick a t)
                   | None, Some t => Some t
                   | _, None => acc
                   end) xs None
  | _ => None
  end.

Definition date_range_message (c : column) : message :=
  [Lit "Date range: "; FTimestamp (date_bound Z.min c); Lit " to ";
   FTimestamp (date_bound Z.max c)].

(** [df['date'] > datetime.now()], row by row. *)
Definition after (now : datetime) (c : column) : list bool :=
  match c with
  | Datetime64 xs =>
      map (fun x => match x with Some t => now <? t | None => false end) xs
  | _ => []
  end.

(** [~df[col].isin(allowed)], the offending values. *)
Definition not_in (allowed : list string) (c : column) : list value :=
  filter (fun v => match v with
                   | VStr s => negb (str_mem s allowed)
                   | _ => true
                   end) (values c).

(** [Series.quantile(q)], linear interpolation between the two nearest
    ranks of the values present. *)
Definition quantile (xs : list pyfloat) (q : Q) : pyfloat :=
  let sorted := Pd.sort_values fle (fun x => x) (dropna xs) in
  match sorted with
  | [] => NaN
  | _ =>
      let h := (inject_Z (Z.of_nat (List.length sorted)) - 1) * q in
      let lo := Qfloor h in
      let a := nth (Z.to_nat lo) sorted NaN in
      let b := nth (Z.to_nat (lo + 1)) sorted a in
      fadd a (fmul (fsub b a) (fin (h - inject_Z lo)))
  end%Q.

Definition count_if (p : pyfloat -> bool) (xs : list pyfloat) : nat :=
  count_true (map p xs).

(** Row-by-row comparison of two numeric columns. *)
Definition count_pairs (p : pyfloat -> pyfloat -> bool)
           (xs ys : list pyfloat) : nat :=
  count_true (map (fun xy => p (fst xy) (snd xy)) (combine xs ys)).

(** [if c: result.add_error(m)], and the same for warnings and info. *)
Definition error_if (c : bool) (m : message) (r : ValidationResult)
  : ValidationResult :=
  if c then add_error r m else r.

Definition warning_if (c : bool) (m : message) (r : ValidationResult)
  : ValidationResult :=
  if c then add_warning r m else r.

Definition info_if (c : bool) (m : message) (r : ValidationResult)
  : ValidationResult :=
  if c then add_info r m else r.

(** The grade hierarchy check of one market: the mean price per grade
    over the rows of the market, a grade counting as present when it has
    a row. *)
Definition grade_hierarchy (rows : list (value * (value * pyfloat)))
           (result : ValidationResult) (m : value) : ValidationResult :=
  let market_rows := filter (fun r => value_eqb (fst r) m) rows in
  let of_grade g :=
    map (fun r => snd (snd r))
        (filter (fun r => value_eqb (fst (snd r)) (VStr g)) market_rows) in
  let present g := (0 <? List.length (of_grade g))%nat in
  let result :=
    warning_if (present "A" && present "B"
                && flt (mean (of_grade "A")) (mean (of_grade "B")))
               [FValue m; Lit ": Grade A price lower than Grade B (unusual)"]
               result in
  warning_if (present "B" && present "C"
              && flt (mean (of_grade "B")) (mean (of_grade "C")))
             [FValue m; Lit ": Grade B price lower than Grade C (unusual)"]
             result.

Section Validators.

(** [pd.to_datetime] on a column: the parsed column, or [None] when it
    raises. *)
Variable to_datetime : column -> option (list (option datetime)).

Definition validate_production_data (df : DataFrame)
  : M (ValidationResult * DataFrame) :=
  let result := new_result in
  if (nrows df =? 0)%nat
  then ret (add_error result [Lit "Production data is empty"], df)
  else
  let required_columns := ["date"; "region"; "quantity_tons"] in
  let missing_columns := missing_from required_columns df in
  if (0 <? List.length missing_columns)%nat
  then ret (add_error result
              [Lit "Missing required columns: "; FSet missing_columns], df)
  else
  date <- get_col "date" df ;;
  match to_datetime date with
  | None =>
      ret (add_error result [Lit "Invalid date format: "; FException], df)
  | Some parsed =>
      let df := set_col "date" (Datetime64 parsed) df in
      date <- get_col "date" df ;;
      now <- datetime_now ;;
      let future_dates := count_true (after now date) in
      let result :=
        warning_if (0 <? future_dates)%nat
             [FNat future_dates; Lit " records have future dates"] result in
      region <- get_col "region" df ;;
      let invalid_regions := not_in REGIONS region in
      let result :=
        error_if (0 <? List.length invalid_regions)%nat
             [Lit "Invalid regions found: ";
              FList (unique invalid_regions)] result in
      quantity <- float_col "quantity_tons" df ;;
      let negative_count := count_if (fun x => flt x (of_Z 0)) quantity in
      let result :=
        error_if (0 <? negative_count)%nat
             [FNat negative_count;
              Lit " records have negative quantities"] result in
      let zero_count := count_if (fun x => feq x (of_Z 0)) quantity in
      let result :=
        warning_if (0 <? zero_count)%nat
             [FNat zero_count; Lit " records have zero quantities"] result in
      let q1 := quantile quantity (25 # 100) in
      let q3 := quantile quantity (75 # 100) in
      let iqr := fsub q3 q1 in
      let lower_bound := fsub q1 (fmul (of_Z 3) iqr) in
      let upper_bound := fadd q3 (fmul (of_Z 3) iqr) in
      let outliers :=
        count_if (fun x => flt x lower_bound || fgt x upper_bound)
                 quantity in
      let result :=
        warning_if (0 <? outliers)%nat
             [FNat outliers;
              Lit " potential outliers detected (extreme values)"] result in
      let result := missing_value_audit df result in
      let result :=
        add_info result [Lit "Total records: "; FNat (nrows df)] in
      let result := add_info result (date_range_message date) in
      let result := add_info result [Lit "Regions: "; FNat (nunique region)] in
      let result :=
        add_info result
          [Lit "Total production: "; FFloat (sum quantity) 2; Lit " tons"] in
      ret (result, df)
  end.

Definition validate_price_data (df : DataFrame)
  : M (ValidationResult * DataFrame) :=
  let result := new_result in
  if (nrows df =? 0)%nat
  then ret (add_error result [Lit "Price data is empty"], df)
  else
  let required_columns :=
    ["date"; "market"; "price_per_kg_tzs"; "quality_grade"] in
  let missing_columns := missing_from required_columns df in
  if (0 <? List.length missing_columns)%nat
  then ret (add_error result
              [Lit "Missing required columns: "; FSet missing_columns], df)
  else
  date <- get_col "date" df ;;
  match to_datetime date with
  | None =>
      ret (add_error result [Lit "Invalid date format: "; FException], df)
  | Some parsed =>
      let df := set_col "date" (Datetime64 parsed) df in
      date <- get_col "date" df ;;
      now <- datetime_now ;;
      let future_dates := count_true (after now date) in
      let result :=
        warning_if (0 <? future_dates)%nat
             [FNat future_dates; Lit " records have future dates"] result in
      market <- get_col "market" df ;;
      let invalid_markets := not_in MARKETS market in
      let result :=
        error_if (0 <? List.length invalid_markets)%nat
             [Lit "Invalid markets found: ";
              FList (unique invalid_markets)] result in
      grade <- get_col "quality_grade" df ;;
      let invalid_grades := not_in QUALITY_GRADES grade in
      let result :=
        error_if (0 <? List.length invalid_grades)%nat
             [Lit "Invalid quality grades found: ";
              FList (unique invalid_grades)] result in
      price <- float_col "price_per_kg_tzs" df ;;
      let negative_count := count_if (fun x => fle x (of_Z 0)) price in
      let result :=
        error_if (0 <? negative_count)%nat
             [FNat negative_count;
              Lit " records have non-positive prices"] result in
      let too_low := count_if (fun x => flt x (of_Z PRICE_MIN_NORMAL)) price in
      let result :=
        warning_if (0 <? too_low)%nat
             [FNat too_low; Lit " records have unusually low prices (< ";
              FInt PRICE_MIN_NORMAL; Lit " TZS)"] result in
      let too_high :=
        count_if (fun x => fgt x (of_Z PRICE_MAX_NORMAL)) price in
      let result :=
        warning_if (0 <? too_high)%nat
             [FNat too_high; Lit " records have unusually high prices (> ";
              FInt PRICE_MAX_NORMAL; Lit " TZS)"] result in
      let rows := combine (values market) (combine (values grade) price) in
      let result :=
        fold_left (grade_hierarchy rows) (unique (values market)) result in
      let result := missing_value_audit df result in
      let result :=
        add_info result [Lit "Total records: "; FNat (nrows df)] in
      let result := add_info result (date_range_message date) in
      let result := add_info result [Lit "Markets: "; FNat (nunique market)] in
      let result :=
        add_info result
          [Lit "Average price: "; FFloat (mean price) 2; Lit " TZS"] in
      ret (result, df)
  end.

Definition validate_storage_data (df : DataFrame)
  : M (ValidationResult * DataFrame) :=
  let result := new_result in
  if (nrows df =? 0)%nat
  then ret (add_error result [Lit "Storage data is empty"], df)
  else
  let required_columns :=
    ["date"; "warehouse_id"; "quantity_stored_tons"; "capacity_tons"] in
  let missing_columns := missing_from required_columns df in
  if (0 <? List.length missing_columns)%nat
  then ret (add_error result
              [Lit "Missing required columns: "; FSet missing_columns], df)
  else
  date <- get_col "date" df ;;
  match to_datetime date with
  | None =>
      ret (add_error result [Lit "Invalid date format: "; FException], df)
  | Some parsed =>
      let df := set_col "date" (Datetime64 parsed) df in
      stored <- float_col "quantity_stored_tons" df ;;
      let negative_count := count_if (fun x => flt x (of_Z 0)) stored in
      let result :=
        error_if (0 <? negative_count)%nat
             [FNat negative_count;
              Lit " records have negative storage quantities"] result in
      capacity <- float_col "capacity_tons" df ;;
      let invalid_count := count_if (fun x => fle x (of_Z 0)) capacity in
      let result :=
        error_if (0 <? invalid_count)%nat
             [FNat invalid_count;
              Lit " records have non-positive capacity"] result in
      let overstocked := count_pairs fgt stored capacity in
      let result :=
        warning_if (0 <? overstocked)%nat
             [FNat overstocked;
              Lit " records exceed warehouse capacity (possible error or real overstocking)"] result in
      let utilization :=
        map (fun sc => fmul (fdiv (fst sc) (snd sc)) (of_Z 100))
            (combine stored capacity) in
      let df := set_col "utilization" (Float64 utilization) df in
      let critical_high :=
        count_if (fun x => fgt x (of_Z 95)) utilization in
      let result :=
        warning_if (0 <? critical_high)%nat
             [FNat critical_high;
              Lit " records show critical high utilization (>95%)"] result in
      warehouse <- get_col "warehouse_id" df ;;
      let result :=
        info_if (str_mem "warehouse_id" (columns df))
             [Lit "Active warehouses: "; FNat (nunique warehouse)] result in
      let result := missing_value_audit df result in
      date <- get_col "date" df ;;
      let result :=
        add_info result [Lit "Total records: "; FNat (nrows df)] in
      let result := add_info result (date_range_message date) in
      let result :=
        add_info result
          [Lit "Total stored: "; FFloat (sum stored) 2; Lit " tons"] in
      let result :=
        add_info result
          [Lit "Total capacity: "; FFloat (sum capacity) 2; Lit " tons"] in
      let result :=
        add_info result
          [Lit "Avg utilization: "; FFloat (mean utilization) 1; Lit "%"] in
      ret (result, df)
  end.

End Validators.

(** The forecast validator reads no clock and parses no date. *)
Definition validate_forecast_data (df : DataFrame) (forecast_type : string)
  : M (ValidationResult * DataFrame) :=
  let result := new_result in
  if (nrows df =? 0)%nat
  then ret (add_error result [Lit "Forecast data is empty"], df)
  else
  let required_columns :=
    if (forecast_type =? "production")%string
    then ["ds"; "yhat"; "yhat_lower"; "yhat_upper"; "region"]
    else ["month"; "yhat"; "yhat_lower"; "yhat_upper"; "market"; "grade"] in
  let missing_columns := missing_from required_columns df in
  if (0 <? List.length missing_columns)%nat
  then ret (add_error result
              [Lit "Missing required columns: "; FSet missing_columns], df)
  else
  yhat <- float_col "yhat" df ;;
  let negative_count := count_if (fun x => flt x (of_Z 0)) yhat in
  let result :=
    error_if (0 <? negative_count)%nat
               [FNat negative_count; Lit " forecasts have negative values"] result in
  yhat_lower <- float_col "yhat_lower" df ;;
  yhat_upper <- float_col "yhat_upper" df ;;
  let invalid_ci := count_pairs fgt yhat_lower yhat_upper in
  let result :=
    error_if (0 <? invalid_ci)%nat
               [FNat invalid_ci;
                Lit " forecasts have invalid confidence intervals (lower > upper)"] result in
  let outside_ci :=
    count_true
      (map (fun t => flt (fst t) (fst (snd t)) || fgt (fst t) (snd (snd t)))
           (combine yhat (combine yhat_lower yhat_upper))) in
  let result :=
    warning_if (0 <? outside_ci)%nat
               [FNat outside_ci;
                Lit " forecasts fall outside their own confidence intervals"] result in
  let result := add_info result [Lit "Total forecasts: "; FNat (nrows df)] in
  let result := add_info result [Lit "Forecast type: "; FStr forecast_type] in
  if (forecast_type =? "production")%string then
    region <- get_col "region" df ;;
    ret (add_info result [Lit "Regions covered: "; FNat (nunique region)], df)
  else
    market <- get_col "market" df ;;
    grade <- get_col "grade" df ;;
    let result :=
      add_info result [Lit "Markets covered: "; FNat (nunique market)] in
    ret (add_info result [Lit "Grades covered: "; FNat (nunique grade)], df).

(* ====================================================================== *)
(** * Sample platform functions and data *)
(* ====================================================================== *)

(** An upper approximation of the square root to ten decimal places, for
    running the functions that take the platform's square root. *)
Definition sqrt_upper (q : Q) : Q :=
  Qmake (Z.sqrt (Qnum q * 10 ^ 20 / Zpos (Qden q)) + 1)
        (Z.to_pos (10 ^ 10)).

(** A date parser for the ISO form [YYYY-MM-DD]. *)
Definition digit (c : ascii) : option Z :=
  let n := Z.of_nat (nat_of_ascii c) - 48 in
  if (0 <=? n) && (n <=? 9) then Some n else None.

Fixpoint number (acc : Z) (cs : list ascii) : option Z :=
  match cs with
  | [] => Some acc
  | c :: cs' =>
      match digit c with
      | Some d => number (acc * 10 + d) cs'
      | None => None
      end
  end.

Definition parse_iso_date (s : string) : option datetime :=
  match list_ascii_of_string s with
  | [y1; y2; y3; y4; "-"%char; m1; m2; "-"%char; d1; d2] =>
      match number 0 [y1; y2; y3; y4], number 0 [m1; m2], number 0 [d1; d2] with
      | Some y, Some m, Some d => Some (mk_date y m d)
      | _, _, _ => None
      end
  | _ => None
  end.

Fixpoint parse_all (xs : list (option string))
  : option (list (option datetime)) :=
  match xs with
  | [] => Some []
  | None :: xs' => option_map (cons None) (parse_all xs')
  | Some s :: xs' =>
      match parse_iso_date s, parse_all xs' with
      | Some t, Some ts => Some (Some t :: ts)
      | _, _ => None
      end
  end.

(** An instance of [pd.to_datetime] for text columns of ISO dates;
    timestamps are kept and an all-missing numeric column has no date. *)
Definition to_datetime_iso (c : column) : option (list (option datetime)) :=
  match c with
  | Object xs => parse_all xs
  | Datetime64 ts => Some ts
  | Float64 xs => if forallb isnan xs then Some (map (fun _ => None) xs) else None
  end.

Module Sample.

Definition noon (year month day : Z) : datetime :=
  mk_date year month day + 12 * 3600 * 1000000.

(** A clock that starts at the time given and advances by one
    microsecond per reading. *)
Definition clock_from (t : datetime) (n : nat) : datetime := Z.of_nat n + t.

Definition storage_row (d : datetime) (w : string) (stored cap : Z)
  : StorageRow :=
  {| stor_date := d; warehouse_id := w; stor_region := "Mbeya";
     quantity_stored_tons := of_Z stored; capacity_tons := of_Z cap |}.

Definition price_row (d : datetime) (m g : string) (p : Z) : PriceRow :=
  {| price_date := d; price_market := m; quality_grade := g;
     price_per_kg_tzs := of_Z p |}.

Definition production_row (d : datetime) (r : string) (q : Z) : ProductionRow :=
  {| prod_date := d; prod_region := r; quantity_tons := of_Z q |}.

Definition forecast_row (r : string) (h f g : Z) : ProductionForecastRow :=
  {| pf_region := r; historical_avg := of_Z h; forecast_avg := of_Z f;
     growth_pct := of_Z g |}.

Definition world (fs : Files) (t : datetime) : World :=
  {| files := fs; clock := clock_from t; ticks := 0 |}.

(** Three warehouses, the first with an older record as well. *)
Definition three_warehouses : list StorageRow :=
  [storage_row (mk_date 2024 5 27) "WH-MBE-002" 5 100;
   storage_row (mk_date 2024 5 20) "WH-MBE-001" 50 100;
   storage_row (mk_date 2024 5 27) "WH-MBE-001" 95 100;
   storage_row (mk_date 2024 5 27) "WH-MBE-003" 60 100].

Definition files_three_warehouses : Files :=
  {| PRODUCTION_DATA := Some [];
     PRICE_DATA := Some [];
     STORAGE_DATA := Some three_warehouses;
     production_forecast_summary := None;
     price_forecast_summary := None;
     price_forecast_columns := [] |}.

(** One warehouse whose only record is more than a year old. *)
Definition files_stale_storage : Files :=
  {| PRODUCTION_DATA := Some [];
     PRICE_DATA := Some [];
     STORAGE_DATA := Some [storage_row (mk_date 2023 1 2) "WH-MBE-001" 50 100];
     production_forecast_summary := None;
     price_forecast_summary := None;
     price_forecast_columns := [] |}.

(** A forecast summary of two regions and no production rows. *)
Definition files_two_forecasts : Files :=
  {| PRODUCTION_DATA := Some [];
     PRICE_DATA := Some [];
     STORAGE_DATA := Some [];
     production_forecast_summary :=
       Some [forecast_row "Mbeya" 100 120 20; forecast_row "Iringa" 100 110 10];
     price_forecast_summary := None;
     price_forecast_columns := [] |}.

(** Grade-A prices of two markets in the last week. *)
Definition files_two_markets : Files :=
  {| PRODUCTION_DATA := Some [];
     PRICE_DATA :=
       Some [price_row (mk_date 2024 5 30) "Mbeya Central" "A" 1000;
             price_row (mk_date 2024 5 30) "Kariakoo" "A" 1200];
     STORAGE_DATA := Some [];
     production_forecast_summary := None;
     price_forecast_summary := None;
     price_forecast_columns := [] |}.

(** Three months of production 1, 2, 3 tons against mean prices 1003,
    1000, 1003: both series vary and their covariance is zero. *)
Definition files_uncorrelated : Files :=
  {| PRODUCTION_DATA :=
       Some [production_row (mk_date 2024 1 1) "Mbeya" 1;
             production_row (mk_date 2024 2 1) "Mbeya" 2;
             production_row (mk_date 2024 3 1) "Mbeya" 3];
     PRICE_DATA :=
       Some [price_row (mk_date 2024 1 15) "Mbeya Central" "A" 1003;
             price_row (mk_date 2024 2 15) "Mbeya Central" "A" 1000;
             price_row (mk_date 2024 3 15) "Mbeya Central" "A" 1003];
     STORAGE_DATA := Some [];
     production_forecast_summary := None;
     price_forecast_summary := None;
     price_forecast_columns := [] |}.

Definition june_2024 : datetime := noon 2024 6 1.

(** A storage table of one row whose stored quantity exceeds the
    capacity. *)
Definition overfull_storage : DataFrame :=
  {| nrows := 1;
     cols := [("date", Object [Some "2024-05-27"]);
              ("warehouse_id", Object [Some "WH-MBE-001"]);
              ("quantity_stored_tons", Float64 [of_Z 120]);
              ("capacity_tons", Float64 [of_Z 100])] |}.

(** Twenty storage rows, one of them without a warehouse identifier:
    exactly 5% of the column is missing. *)
Definition one_in_twenty_missing : DataFrame :=
  {| nrows := 20;
     cols := [("date", Object (repeat (Some "2024-05-27") 20));
              ("warehouse_id",
               Object (None :: repeat (Some "WH-MBE-001") 19));
              ("quantity_stored_tons", Float64 (repeat (of_Z 50) 20));
              ("capacity_tons", Float64 (repeat (of_Z 100) 20))] |}.

(** Two storage rows, one of them without a warehouse identifier. *)
Definition half_missing : DataFrame :=
  {| nrows := 2;
     cols := [("date", Object [Some "2024-05-27"; Some "2024-05-27"]);
              ("warehouse_id", Object [None; Some "WH-MBE-001"]);
              ("quantity_stored_tons", Float64 [of_Z 50; of_Z 50]);
              ("capacity_tons", Float64 [of_Z 100; of_Z 100])] |}.

(** A production forecast with half of its [yhat_lower] cells missing. *)
Definition forecast_with_gaps : DataFrame :=
  {| nrows := 2;
     cols := [("ds", Object [Some "2025-01-01"; Some "2025-02-01"]);
              ("yhat", Float64 [of_Z 10; of_Z 11]);
              ("yhat_lower", Float64 [NaN; of_Z 9]);
              ("yhat_upper", Float64 [of_Z 12; of_Z 13]);
              ("region", Object [Some "Mbeya"; Some "Mbeya"])] |}.

End Sample.

(* ====================================================================== *)
(** * Repeated calls *)
(* ====================================================================== *)

(** Two worlds with the same files whose clocks give the same readings
    from now on. *)
Definition same_readings (w1 w2 : World) : Prop :=
  files w1 = files w2
  /\ forall n : nat, clock w1 (ticks w1 + n)%nat = clock w2 (ticks w2 + n)%nat.

(** A computation whose outcome is fixed by the files and the clock
    readings, and that leaves the files as they are. *)
Definition repeatable {A : Type} (m : M A) : Prop :=
  forall w1 w2 : World,
    same_readings w1 w2 ->
    fst (m w1) = fst (m w2)
    /\ same_readings (snd (m w1)) (snd (m w2))
    /\ files (snd (m w1)) = files w1.

(** The records without their stamp: [generated_at], or
    [last_evaluation] in the model inventory, is set to a fixed value.
    The insufficient-data result carries no stamp. *)
Definition national_summary_unstamped (r : NationalSummary)
  : NationalSummary :=
  {| ns_period := ns_period r;
     ns_period_days := ns_period_days r;
     ns_production := ns_production r;
     ns_prices := ns_prices r;
     ns_storage := ns_storage r;
     ns_generated_at := 0 |}.

Definition production_summary_unstamped (r : ProductionSummary)
  : ProductionSummary :=
  {| ps_region := ps_region r;
     ps_period := ps_period r;
     ps_current_period := ps_current_period r;
     ps_regional_breakdown := ps_regional_breakdown r;
     ps_forecast_comparison := ps_forecast_comparison r;
     ps_generated_at := 0 |}.

Definition price_analysis_unstamped (r : PriceAnalysis) : PriceAnalysis :=
  {| pa_market := pa_market r;
     pa_grade := pa_grade r;
     current_prices := current_prices r;
     market_comparison := market_comparison r;
     grade_analysis := grade_analysis r;
     pa_forecast_comparison := pa_forecast_comparison r;
     pa_generated_at := 0 |}.

Definition storage_status_unstamped (r : StorageStatus) : StorageStatus :=
  {| ss_warehouse := ss_warehouse r;
     national_summary := national_summary r;
     utilization_categories := utilization_categories r;
     warehouse_status := warehouse_status r;
     alerts := alerts r;
     ss_generated_at := 0 |}.

Definition seasonal_pattern_unstamped (r : SeasonalPattern)
  : SeasonalPattern :=
  {| crop := crop r;
     seasonal_patterns := seasonal_patterns r;
     monthly_averages_production := monthly_averages_production r;
     monthly_averages_prices := monthly_averages_prices r;
     insights := insights r;
     seasonal_calendar := seasonal_calendar r;
     sp_generated_at := 0 |}.

Definition forecast_accuracy_unstamped (r : ForecastAccuracy)
  : ForecastAccuracy :=
  {| production_models := production_models r;
     price_models := price_models r;
     overall_performance :=
       {| production_models_active :=
            production_models_active (overall_performance r);
          price_models_active :=
            price_models_active (overall_performance r);
          last_evaluation := 0;
          op_status := op_status (overall_performance r) |} |}.

Definition supply_demand_unstamped (r : SupplyDemandBalance)
  : SupplyDemandBalance :=
  {| current_balance := current_balance r;
     correlation_analysis := correlation_analysis r;
     historical_patterns := historical_patterns r;
     sd_generated_at := 0 |}.

Definition market_opportunities_unstamped (r : MarketOpportunities)
  : MarketOpportunities :=
  match r with
  | InsufficientData m => InsufficientData m
  | Report rep =>
      Report {| arbitrage_opportunity := arbitrage_opportunity rep;
                quality_premium_opportunity :=
                  quality_premium_opportunity rep;
                timing_recommendation := timing_recommendation rep;
                forecast_opportunities := forecast_opportunities rep;
                mo_generated_at := 0 |}
  end.

Definition outcome_map {A B : Type} (f : A -> B) (o : outcome A)
  : outcome B :=
  match o with
  | Ok a => Ok (f a)
  | Raise e => Raise e
  end.

(** Two calls end alike, with the same exception or with records that
    differ at most in their stamp. *)
Definition same_apart_from_stamp {A : Type} (unstamped : A -> A) (m : M A)
           (w1 w2 : World) : Prop :=
  outcome_map unstamped (fst (m w1)) = outcome_map unstamped (fst (m w2)).

(** The rows of a table, none for a file that does not exist. *)
Definition rows_of {R : Type} (table : option (list R)) : list R :=
  match table with
  | Some rows => rows
  | None => []
  end.

(** Two cutoffs leave the same dates inside the window. *)
Definition same_window (cutoff1 cutoff2 : datetime) (dates : list datetime)
  : Prop :=
  forall d, In d dates -> (cutoff1 <=? d) = (cutoff2 <=? d).

(** Two timestamps are equal to the same dates. *)
Definition same_matches (t1 t2 : datetime) (dates : list datetime) : Prop :=
  forall d, In d dates -> (d =? t1) = (d =? t2).

(* ====================================================================== *)
(** * Predicates on the validators *)
(* ====================================================================== *)

(** The frame of a call on a DataFrame: the number of rows and every
    column not named are as before. *)
Definition unchanged_except (names : list string) (df df' : DataFrame) : Prop :=
  nrows df' = nrows df
  /\ forall n : string,
       ~ In n names ->
       Pd.lookup String.eqb n (cols df') = Pd.lookup String.eqb n (cols df).

(** The [date] column of [df'] holds the timestamps parsed from the [date]
    column of [df]; the table has a numeric column [utilization]. *)
Definition holds_timestamps
           (to_datetime : column -> option (list (option datetime)))
           (df df' : DataFrame) : Prop :=
  exists date parsed,
    Pd.lookup String.eqb "date" (cols df) = Some date
    /\ to_datetime date = Some parsed
    /\ Pd.lookup String.eqb "date" (cols df') = Some (Datetime64 parsed).

Definition holds_utilization (df df' : DataFrame) : Prop :=
  exists stored capacity,
    Pd.lookup String.eqb "quantity_stored_tons" (cols df)
    = Some (Float64 stored)
    /\ Pd.lookup String.eqb "capacity_tons" (cols df)
       = Some (Float64 capacity)
    /\ Pd.lookup String.eqb "utilization" (cols df')
       = Some (Float64
                 (map (fun sc => fmul (fdiv (fst sc) (snd sc)) (of_Z 100))
                      (combine stored capacity))).

(** What holds of the value of a computation whenever it returns one. *)
Definition returns {A : Type} (Q : A -> Prop) (m : M A) : Prop :=
  forall (w : World) (a : A), fst (m w) = Ok a -> Q a.

(** The messages of the missing-value audit start with this text. *)
Definition is_missing_values_message (m : message) : bool :=
  match m with
  | Lit s :: _ => (s =? "Column '")%string
  | _ => false
  end.

(** The messages the audit adds for one column. *)
Definition audit_errors_of (df : DataFrame) (col : string * column)
  : list message :=
  if (0 <? count_null (snd col))%nat
     && fgt (missing_pct df (snd col)) (of_Z 20)
  then [missing_values_message (fst col) (missing_pct df (snd col))]
  else [].

Definition audit_warnings_of (df : DataFrame) (col : string * column)
  : list message :=
  if (0 <? count_null (snd col))%nat
     && negb (fgt (missing_pct df (snd col)) (of_Z 20))
     && fgt (missing_pct df (snd col)) (of_Z 5)
  then [missing_values_message (fst col) (missing_pct df (snd col))]
  else [].

(** A result that holds no message of the missing-value audit yet. *)
Definition unaudited (r : ValidationResult) : Prop :=
  forall m : message,
    In m (errors r) \/ In m (warnings r) -> is_missing_values_message m = false.

(** A result whose errors and warnings are those of the audit of [df] run
    on a result not audited before. *)
Definition audited (df : DataFrame) (r : ValidationResult) : Prop :=
  exists before : ValidationResult,
    unaudited before
    /\ errors r = errors (missing_value_audit df before)
    /\ warnings r = warnings (missing_value_audit df before).

(* ====================================================================== *)
(** * validators.py: the batch entry point and the dict of a result *)
(* ====================================================================== *)

(** [ValidationResult.to_dict] *)
Record ResultDict : Type := {
  rd_valid : bool;
  rd_errors : list message;
  rd_warnings : list message;
  rd_info : list message
}.

Definition to_dict (r : ValidationResult) : ResultDict :=
  {| rd_valid := is_valid r;
     rd_errors := errors r;
     rd_warnings := warnings r;
     rd_info := info r |}.

(** The three data files as [pd.read_csv] returns them, before any
    parsing; [None] when the read raises. *)
Record RawFiles : Type := {
  raw_production : option DataFrame;
  raw_price : option DataFrame;
  raw_storage : option DataFrame
}.

Definition read_raw (path : string) (table : option DataFrame) : M DataFrame :=
  match table with
  | Some df => ret df
  | None => raise (FileNotFoundError path)
  end.

(** The result stored when a [try] block of the batch fails. *)
Definition load_failure (text : string) : ValidationResult :=
  add_error new_result [Lit text; FException].

Section Batch.

Variable to_datetime : column -> option (list (option datetime)).

Definition validate_all_data (raw : RawFiles)
  : M (list (string * ValidationResult)) :=
  production <-
    try_except
      (prod_df <- read_raw "data/maize_production.csv" (raw_production raw) ;;
       out <- validate_production_data to_datetime prod_df ;;
       ret (fst out))
      (fun _ => ret (load_failure "Failed to load production data: ")) ;;
  price <-
    try_except
      (price_df <- read_raw "data/maize_prices.csv" (raw_price raw) ;;
       out <- validate_price_data to_datetime price_df ;;
       ret (fst out))
      (fun _ => ret (load_failure "Failed to load price data: ")) ;;
  storage <-
    try_except
      (storage_df <- read_raw "data/maize_storage.csv" (raw_storage raw) ;;
       out <- validate_storage_data to_datetime storage_df ;;
       ret (fst out))
      (fun _ => ret (load_failure "Failed to load storage data: ")) ;;
  ret [("production", production); ("price", price); ("storage", storage)].

End Batch.

(** The metrics the inventory records for one row of the forecast
    summary. *)
Definition metric_of (row : ProductionForecastRow) : RegionalMetric :=
  {| rm_forecast_avg_tons := round (forecast_avg row) DECIMAL_PLACES_quantity;
     rm_historical_avg_tons :=
       round (historical_avg row) DECIMAL_PLACES_quantity;
     rm_growth_percent := round (growth_pct row) DECIMAL_PLACES_percentage;
     rm_status := "active" |}.


(** What the batch records for one dataset: the validator's result, or
    the load failure when the file cannot be read or the validator
    raises. [w] is the world before the [try] block, [w'] the one after. *)
Definition batch_entry (validator : DataFrame -> M (ValidationResult * DataFrame))
           (table : option DataFrame) (text : string)
           (w : World) (entry : ValidationResult) (w' : World) : Prop :=
  match table with
  | None => entry = load_failure text /\ w' = w
  | Some df =>
      match validator df w with
      | (Ok out, w1) => entry = fst out /\ w' = w1
      | (Raise _, w1) => entry = load_failure text /\ w' = w1
      end
  end.

(** A result that holds one error and nothing else. *)
Definition only_error (m : message) : ValidationResult :=
  {| errors := [m]; warnings := []; info := [] |}.

(** [name] is the name of a month of the dict [d]; when no value of [d]
    is NaN, no value of [d] beats the value of that month. *)
Definition extreme_month (better : pyfloat -> pyfloat -> bool)
           (name : string) (d : list (Z * pyfloat)) : Prop :=
  exists m : Z,
    name = month_name m
    /\ In m (map fst d)
    /\ ((forall kv, In kv d -> notna (snd kv) = true) ->
        exists v, In (m, v) d
                  /\ forall kv, In kv d -> better (snd kv) v = false).

(* ====================================================================== *)
(** * More sample data *)
(* ====================================================================== *)

Module Cases.

(** Production and prices without a storage file. *)
Definition files_without_storage : Files :=
  {| PRODUCTION_DATA := Some [];
     PRICE_DATA := Some [];
     STORAGE_DATA := None;
     production_forecast_summary := None;
     price_forecast_summary := None;
     price_forecast_columns := [] |}.

(** A forecast summary that names Mbeya twice. *)
Definition files_repeated_region : Files :=
  {| PRODUCTION_DATA := None;
     PRICE_DATA := None;
     STORAGE_DATA := None;
     production_forecast_summary :=
       Some [Sample.forecast_row "Mbeya" 100 120 20;
             Sample.forecast_row "Iringa" 100 110 10;
             Sample.forecast_row "Mbeya" 100 130 30];
     price_forecast_summary := None;
     price_forecast_columns := [] |}.

(** Two markets with grade-A prices, and a price forecast for July 2024
    whose month is stored as the midnight that starts the month. *)
Definition files_price_forecast : Files :=
  {| PRODUCTION_DATA := Some [];
     PRICE_DATA :=
       Some [Sample.price_row (mk_date 2024 5 30) "Mbeya Central" "A" 1000;
             Sample.price_row (mk_date 2024 5 30) "Kariakoo" "A" 1200];
     STORAGE_DATA := Some [];
     production_forecast_summary := None;
     price_forecast_summary :=
       Some [{| fc_month := mk_date 2024 7 1; fc_market := "Mbeya Central";
                fc_grade := "A"; yhat := of_Z 1500 |}];
     price_forecast_columns := ["month"; "market"; "grade"; "yhat"] |}.

(** A price forecast summary whose header has neither [market] nor
    [grade]: two rows of months and forecasts. *)
Definition files_forecast_without_keys : Files :=
  {| PRODUCTION_DATA := Some [];
     PRICE_DATA := Some [];
     STORAGE_DATA := Some [];
     production_forecast_summary := None;
     price_forecast_summary :=
       Some [{| fc_month := mk_date 2024 7 1; fc_market := "";
                fc_grade := ""; yhat := of_Z 1500 |};
             {| fc_month := mk_date 2024 8 1; fc_market := "";
                fc_grade := ""; yhat := of_Z 1600 |}];
     price_forecast_columns := ["month"; "yhat"] |}.

(** Production of two regions in the last week of May 2024, with the
    forecast summary of Mbeya and Iringa. *)
Definition files_two_regions : Files :=
  {| PRODUCTION_DATA :=
       Some [Sample.production_row (mk_date 2024 5 28) "Mbeya" 10;
             Sample.production_row (mk_date 2024 5 29) "Iringa" 20;
             Sample.production_row (mk_date 2024 5 30) "Mbeya" 30];
     PRICE_DATA := Some [];
     STORAGE_DATA := Some [];
     production_forecast_summary :=
       Some [Sample.forecast_row "Mbeya" 100 120 20;
             Sample.forecast_row "Iringa" 100 110 10];
     price_forecast_summary := None;
     price_forecast_columns := [] |}.

(** Two production records, one with a quantity of zero. *)
Definition production_table : DataFrame :=
  {| nrows := 2;
     cols := [("date", Object [Some "2024-05-27"; Some "2024-05-28"]);
              ("region", Object [Some "Mbeya"; Some "Iringa"]);
              ("quantity_tons", Float64 [of_Z 10; of_Z 0])] |}.

(** One price record above the normal range. *)
Definition price_table : DataFrame :=
  {| nrows := 1;
     cols := [("date", Object [Some "2024-05-27"]);
              ("market", Object [Some "Kariakoo"]);
              ("quality_grade", Object [Some "A"]);
              ("price_per_kg_tzs", Float64 [of_Z 3000])] |}.

(** One production forecast that lies below its own interval. *)
Definition forecast_table : DataFrame :=
  {| nrows := 1;
     cols := [("ds", Object [Some "2024-07-01"]);
              ("yhat", Float64 [of_Z 10]);
              ("yhat_lower", Float64 [of_Z 11]);
              ("yhat_upper", Float64 [of_Z 12]);
              ("region", Object [Some "Mbeya"])] |}.

(** Production in May and June 2024, prices in May 2024. *)
Definition files_two_months : Files :=
  {| PRODUCTION_DATA :=
       Some [Sample.production_row (mk_date 2024 5 28) "Mbeya" 10;
             Sample.production_row (mk_date 2024 6 1) "Mbeya" 30];
     PRICE_DATA :=
       Some [Sample.price_row (mk_date 2024 5 30) "Kariakoo" "A" 1200];
     STORAGE_DATA := Some [];
     production_forecast_summary := None;
     price_forecast_summary := None;
     price_forecast_columns := [] |}.

(** Production, prices and storage of the single month of May 2024. *)
Definition files_one_month : Files :=
  {| PRODUCTION_DATA :=
       Some [Sample.production_row (mk_date 2024 5 28) "Mbeya" 10;
             Sample.production_row (mk_date 2024 5 29) "Iringa" 30];
     PRICE_DATA :=
       Some [Sample.price_row (mk_date 2024 5 30) "Kariakoo" "A" 1200];
     STORAGE_DATA :=
       Some [Sample.storage_row (mk_date 2024 5 27) "WH-MBE-001" 95 100];
     production_forecast_summary := None;
     price_forecast_summary := None;
     price_forecast_columns := [] |}.

End Cases.

(* ====================================================================== *)
(** * Properties *)
(* ====================================================================== *)

Unset Implicit Arguments.

(** Unfolds the effects of a call, so that the files and the clock of the
    world appear in the goal. *)
Ltac run_call :=
  unfold bind, ret, raise, try_except, local, datetime_now,
    load_production_data, load_price_data, load_storage_data,
    load_production_forecasts, load_price_forecasts,
    read_csv, read_csv_if_exists.

(* ---------------------------------------------------------------------- *)
(** ** Rows of sorted and grouped tables come from the table *)

Section TableLemmas.

Variables K R : Type.
Variable eqb leb : K -> K -> bool.

Lemma In_insert_key (k x : K) (l : list K) :
  In x (Pd.insert_key leb k l) -> x = k \/ In x l.
Proof.
  induction l as [|y l IH]; simpl.
  - intros [H|[]]; auto.
  - destruct (leb k y); simpl.
    + intros [H|[H|H]]; auto.
    + intros [H|H]; auto. destruct (IH H); auto.
Qed.

Lemma In_sort_keys (x : K) (l : list K) :
  In x (Pd.sort_keys leb l) -> In x l.
Proof.
  induction l as [|y l IH]; simpl; auto.
  intros H. apply In_insert_key in H. destruct H; auto.
Qed.

Lemma In_unique_from (x : K) (l seen : list K) :
  In x (Pd.unique_from eqb seen l) -> In x l.
Proof.
  revert seen. induction l as [|y l IH]; simpl; auto.
  intros seen. destruct (Pd.mem eqb y seen); simpl.
  - intros H. right. eapply IH, H.
  - intros [H|H]; auto. right. eapply IH, H.
Qed.

Lemma In_insert_by (key : R -> K) (r x : R) (l : list R) :
  In x (Pd.insert_by leb key r l) -> x = r \/ In x l.
Proof.
  induction l as [|y l IH]; simpl.
  - intros [H|[]]; auto.
  - destruct (leb (key r) (key y)); simpl.
    + intros [H|[H|H]]; auto.
    + intros [H|H]; auto. destruct (IH H); auto.
Qed.

Lemma In_sort_values (key : R -> K) (x : R) (l : list R) :
  In x (Pd.sort_values leb key l) -> In x l.
Proof.
  induction l as [|y l IH]; simpl; auto.
  intros H. apply In_insert_by in H. destruct H; auto.
Qed.

(** Every group key is the key of a row of the table. *)
Lemma groupby_key_in (key : R -> K) (rows : list R) (g : K * list R) :
  In g (Pd.groupby eqb leb key rows) ->
  exists r, In r rows /\ key r = fst g.
Proof.
  unfold Pd.groupby. intros H. apply in_map_iff in H.
  destruct H as [k [<- Hk]]. simpl.
  apply In_sort_keys, In_unique_from, in_map_iff in Hk.
  destruct Hk as [r [Hr Hin]]. exists r. auto.
Qed.

End TableLemmas.

Lemma latest_per_warehouse_id (storage_df : list StorageRow) (r : StorageRow) :
  In r (latest_per_warehouse storage_df) ->
  exists r0, In r0 storage_df /\ warehouse_id r0 = warehouse_id r.
Proof.
  unfold latest_per_warehouse. intros H. apply in_map_iff in H.
  destruct H as [g [<- Hg]]. simpl.
  apply groupby_key_in in Hg. destruct Hg as [r0 [Hin Hk]].
  exists r0. split; auto. eapply In_sort_values, Hin.
Qed.

Lemma filter_none (A : Type) (p : A -> bool) (l : list A) :
  (forall x, In x l -> p x = false) -> filter p l = [].
Proof.
  induction l as [|a l IH]; simpl; auto.
  intros H. rewrite (H a (or_introl eq_refl)). apply IH. auto.
Qed.

(** Rounding the columns of a storage file that has a record. *)
Lemma series_round_rows (R A : Type) (file_rows : list R) (rounded : A) :
  file_rows <> [] -> series_round file_rows rounded = ret rounded.
Proof. destruct file_rows; [congruence | reflexivity]. Qed.

(* ---------------------------------------------------------------------- *)
(** ** Production summary *)

(** C1. A call [get_production_summary(region=None, period)] never attaches
    a forecast comparison, whatever the forecast summary file holds: the
    local [region_forecast] is read before it is assigned, the exception is
    swallowed, and the field stays [None]. The national aggregate the claim
    describes is not returned. *)
Theorem production_summary_unscoped_forecast_absent :
  forall (w : World) (period : string)
         (production_df : list ProductionRow)
         (forecasts_df : list ProductionForecastRow),
    PRODUCTION_DATA (files w) = Some production_df ->
    production_forecast_summary (files w) = Some forecasts_df ->
    exists r w',
      get_production_summary None period w = (Ok r, w')
      /\ ps_forecast_comparison r = None.
Proof.
  intros w period production_df forecasts_df Hprod Hfc.
  unfold get_production_summary, production_forecast_join.
  run_call. rewrite Hprod, Hfc. cbn.
  eexists. eexists. split; reflexivity.
Qed.

(** The unscoped call on a forecast summary of two regions. *)
Lemma production_summary_unscoped_forecast_absent_witness :
  exists r w',
    get_production_summary None "current"
      (Sample.world Sample.files_two_forecasts Sample.june_2024) = (Ok r, w')
    /\ ps_forecast_comparison r = None.
Proof.
  apply (production_summary_unscoped_forecast_absent
           (Sample.world Sample.files_two_forecasts Sample.june_2024)
           "current" []
           [Sample.forecast_row "Mbeya" 100 120 20;
            Sample.forecast_row "Iringa" 100 110 10]);
    reflexivity.
Defined.

(** The aggregate branch is the one taken for a region that has no row in
    the forecast summary. *)
Lemma production_summary_unmatched_region_aggregates :
  exists r w',
    get_production_summary (Some "Dodoma") "current"
      (Sample.world Sample.files_two_forecasts Sample.june_2024) = (Ok r, w')
    /\ ps_forecast_comparison r
       = Some {| forecast_avg_tons := of_Z 230;
                 historical_avg_tons := of_Z 200;
                 growth_percent := of_Z 15 |}.
Proof.
  eexists. eexists. split; vm_compute; reflexivity.
Qed.

(* ---------------------------------------------------------------------- *)
(** ** National summary *)

(** The storage section is computed from every storage record, whatever
    the period and the time of the call. *)
Lemma national_summary_storage_any_window :
  forall (w : World) (period : string) production_df price_df storage_df,
    PRODUCTION_DATA (files w) = Some production_df ->
    PRICE_DATA (files w) = Some price_df ->
    STORAGE_DATA (files w) = Some storage_df ->
    exists r w',
      get_national_summary period w = (Ok r, w')
      /\ ns_storage r
         = let latest := latest_per_warehouse storage_df in
           let stored := sum (map quantity_stored_tons latest) in
           let capacity := sum (map capacity_tons latest) in
           {| total_stored_tons := round stored DECIMAL_PLACES_quantity;
              total_capacity_tons := round capacity DECIMAL_PLACES_quantity;
              utilization_percent :=
                round (percent_of stored capacity) DECIMAL_PLACES_utilization;
              active_warehouses := List.length latest |}.
Proof.
  intros w period production_df price_df storage_df Hp Hpr Hs.
  unfold get_national_summary. run_call. rewrite Hp, Hpr, Hs. cbn.
  eexists. eexists. split; reflexivity.
Qed.

(** C4. On a storage table whose only record is seventeen months older
    than the call, no record lies in the 30-day window of the period
    [current], yet the national summary reports that record's 50 tons
    stored, 100 tons of capacity and 50% utilization: the totals are taken
    from the unfiltered table. *)
Theorem national_summary_counts_stale_storage :
  let w := Sample.world Sample.files_stale_storage Sample.june_2024 in
  exists r w',
    get_national_summary "current" w = (Ok r, w')
    /\ filter (fun s => clock w (ticks w) - timedelta (period_days "current")
                        <=? stor_date s)
              [Sample.storage_row (mk_date 2023 1 2) "WH-MBE-001" 50 100] = []
    /\ ns_storage r
       = {| total_stored_tons := of_Z 50; total_capacity_tons := of_Z 100;
            utilization_percent := of_Z 50; active_warehouses := 1 |}.
Proof.
  eexists. eexists. split; [vm_compute; reflexivity|].
  split; vm_compute; reflexivity.
Qed.

(* ---------------------------------------------------------------------- *)
(** ** Storage status *)

(** C7. When the latest records per warehouse are three warehouses with
    (stored, capacity) = (95,100), (5,100), (60,100), the unscoped storage
    status lists them with utilization 95, 5 and 60, classifies the first
    as overstocked, the second as understocked and the third as optimal,
    counts one warehouse in each category, and returns exactly two alerts:
    overstocked with severity high naming the first warehouse, then
    understocked with severity medium naming the second. *)
Theorem storage_status_three_warehouses :
  forall (w : World) (storage_df : list StorageRow) (r1 r2 r3 : StorageRow),
    STORAGE_DATA (files w) = Some storage_df ->
    latest_per_warehouse storage_df = [r1; r2; r3] ->
    quantity_stored_tons r1 = of_Z 95 -> capacity_tons r1 = of_Z 100 ->
    quantity_stored_tons r2 = of_Z 5 -> capacity_tons r2 = of_Z 100 ->
    quantity_stored_tons r3 = of_Z 60 -> capacity_tons r3 = of_Z 100 ->
    exists rep w',
      get_storage_status None w = (Ok rep, w')
      /\ (exists s1 s2 s3,
            warehouse_status rep = AllWarehouses [s1; s2; s3]
            /\ ws_warehouse_id s1 = warehouse_id r1
            /\ ws_warehouse_id s2 = warehouse_id r2
            /\ ws_warehouse_id s3 = warehouse_id r3
            /\ ws_utilization_percent s1 = of_Z 95
            /\ ws_utilization_percent s2 = of_Z 5
            /\ ws_utilization_percent s3 = of_Z 60
            /\ is_overstocked s1 = true
            /\ is_understocked s2 = true
            /\ is_optimal s3 = true)
      /\ utilization_categories rep
         = {| optimal := 1; overstocked := 1; understocked := 1 |}
      /\ alerts rep
         = [{| alert_type := "overstocked"; severity := "high";
               alert_message := "1 warehouse(s) over 90% capacity";
               warehouses := [warehouse_id r1] |};
            {| alert_type := "understocked"; severity := "medium";
               alert_message := "1 warehouse(s) under 10% capacity";
               warehouses := [warehouse_id r2] |}].
Proof.
  intros w storage_df r1 r2 r3 Hfile Hlatest Hq1 Hc1 Hq2 Hc2 Hq3 Hc3.
  assert (Hrows : storage_df <> []) by (intros ->; discriminate Hlatest).
  unfold get_storage_status. run_call. rewrite Hfile, Hlatest.
  rewrite (series_round_rows _ _ storage_df _ Hrows). unfold ret.
  unfold given, with_utilization. cbn [map negb].
  rewrite Hq1, Hc1, Hq2, Hc2, Hq3, Hc3.
  eexists. eexists. split; [reflexivity|].
  split; [| split; vm_compute; reflexivity].
  eexists. eexists. eexists. split; [vm_compute; reflexivity|].
  repeat split.
Qed.

(** The scenario on a table of four records, the first warehouse having an
    older record as well. *)
Lemma storage_status_three_warehouses_witness :
  exists rep w',
    get_storage_status None
      (Sample.world Sample.files_three_warehouses Sample.june_2024)
    = (Ok rep, w')
    /\ utilization_categories rep
       = {| optimal := 1; overstocked := 1; understocked := 1 |}
    /\ map warehouses (alerts rep) = [["WH-MBE-001"]; ["WH-MBE-002"]].
Proof.
  destruct (storage_status_three_warehouses
              (Sample.world Sample.files_three_warehouses Sample.june_2024)
              Sample.three_warehouses
              (Sample.storage_row (mk_date 2024 5 27) "WH-MBE-001" 95 100)
              (Sample.storage_row (mk_date 2024 5 27) "WH-MBE-002" 5 100)
              (Sample.storage_row (mk_date 2024 5 27) "WH-MBE-003" 60 100)
              eq_refl eq_refl eq_refl eq_refl eq_refl eq_refl eq_refl eq_refl)
    as [rep [w' [Hrun [_ [Hcat Halerts]]]]].
  exists rep, w'. split; [exact Hrun|]. split; [exact Hcat|].
  rewrite Halerts. reflexivity.
Defined.

(** C10, as the code has it. For every non-empty warehouse identifier that
    matches no record of a storage file with at least one record, the
    storage status returns normally with [warehouse_status] absent, no
    alert, the three category counts 0, and national totals 0 with
    utilization 0. On a storage file without a record the call does not
    return: the rounding of the utilization column raises [TypeError]. *)
Theorem storage_status_unknown_warehouse :
  forall (w : World) (storage_df : list StorageRow) (id : string),
    STORAGE_DATA (files w) = Some storage_df ->
    id <> "" ->
    (forall r, In r storage_df -> warehouse_id r <> id) ->
    (storage_df <> [] ->
     exists rep w',
       get_storage_status (Some id) w = (Ok rep, w')
       /\ warehouse_status rep = NoWarehouse
       /\ alerts rep = []
       /\ utilization_categories rep
          = {| optimal := 0; overstocked := 0; understocked := 0 |}
       /\ national_summary rep
          = {| total_stored_tons := of_Z 0; total_capacity_tons := of_Z 0;
               utilization_percent := of_Z 0; active_warehouses := 0 |})
    /\ (storage_df = [] ->
        get_storage_status (Some id) w
        = (Raise (TypeError "Expected numeric dtype, got object instead."),
           w)).
Proof.
  intros w storage_df id Hfile Hid Hno.
  assert (Hgiven : given (Some id) = true).
  { simpl. apply negb_true_iff, String.eqb_neq, Hid. }
  assert (Hnone : filter (fun r => arg_is (Some id) (warehouse_id r))
                         (latest_per_warehouse storage_df) = []).
  { apply filter_none. intros r Hr. simpl.
    destruct (latest_per_warehouse_id _ _ Hr) as [r0 [Hin Heq]].
    apply String.eqb_neq. intros ->. apply (Hno r0 Hin). auto. }
  unfold get_storage_status. run_call. rewrite Hfile, Hgiven, Hnone.
  split.
  - intros Hrows. rewrite (series_round_rows _ _ storage_df _ Hrows).
    unfold ret.
    eexists. eexists. split; [reflexivity|]. repeat split.
  - intros ->. reflexivity.
Qed.

(** An identifier that none of the three warehouses has. *)
Lemma storage_status_unknown_warehouse_witness :
  exists rep w',
    get_storage_status (Some "WH-XXX-009")
      (Sample.world Sample.files_three_warehouses Sample.june_2024)
    = (Ok rep, w')
    /\ warehouse_status rep = NoWarehouse
    /\ alerts rep = []
    /\ utilization_categories rep
       = {| optimal := 0; overstocked := 0; understocked := 0 |}
    /\ national_summary rep
       = {| total_stored_tons := of_Z 0; total_capacity_tons := of_Z 0;
            utilization_percent := of_Z 0; active_warehouses := 0 |}.
Proof.
  apply (storage_status_unknown_warehouse
           (Sample.world Sample.files_three_warehouses Sample.june_2024)
           Sample.three_warehouses "WH-XXX-009" eq_refl).
  - discriminate.
  - simpl. intros r [H|[H|[H|[H|[]]]]]; subst r; discriminate.
  - discriminate.
Defined.

(** C10, as stated, fails in two cases. The empty identifier matches no
    record, but being falsy it selects no warehouse, so the full report of
    the three warehouses comes back, with totals and both alerts. And on a
    storage file without a record every identifier matches no record, yet
    the call raises instead of returning. *)
Lemma storage_status_empty_identifier :
  ((forall r, In r Sample.three_warehouses -> warehouse_id r <> "")
   /\ exists rep w',
        get_storage_status (Some "")
          (Sample.world Sample.files_three_warehouses Sample.june_2024)
        = (Ok rep, w')
        /\ warehouse_status rep <> NoWarehouse
        /\ List.length (alerts rep) = 2%nat
        /\ total_stored_tons (national_summary rep) = of_Z 160
        /\ utilization_categories rep
           = {| optimal := 1; overstocked := 1; understocked := 1 |})
  /\ (STORAGE_DATA Sample.files_two_forecasts = Some []
      /\ fst (get_storage_status (Some "WH-MBE-001")
                (Sample.world Sample.files_two_forecasts Sample.june_2024))
         = Raise (TypeError "Expected numeric dtype, got object instead.")).
Proof.
  split; [split|split].
  - simpl. intros r [H|[H|[H|[H|[]]]]]; subst r; discriminate.
  - eexists. eexists. split; [vm_compute; reflexivity|].
    split; [discriminate|]. repeat split.
  - reflexivity.
  - reflexivity.
Qed.

(* ---------------------------------------------------------------------- *)
(** ** Supply-demand balance *)

Lemma Qsign_pos (q : Q) : (0 < q)%Q -> Qsign q = Gt.
Proof. intros H. unfold Qsign. apply Qgt_alt. exact H. Qed.

Lemma fdiv_zero_by_positive (q : Q) :
  (0 < q)%Q -> fdiv (Finite 0) (fin q) = Finite 0.
Proof.
  intros H. unfold fin, fdiv.
  assert (Hs : Qsign (Qred q) = Gt).
  { apply Qsign_pos. rewrite Qred_correct. exact H. }
  rewrite Hs. reflexivity.
Qed.

Lemma corr_zero_covariance (sqrt : Q -> Q) (xs ys : list pyfloat) (vx vy : Q) :
  (forall q, 0 < q -> 0 < sqrt q)%Q ->
  xs <> [] ->
  cov xs ys = Finite 0 ->
  cov xs xs = Finite vx -> cov ys ys = Finite vy ->
  (0 < vx)%Q -> (0 < vy)%Q ->
  corr sqrt xs ys = Finite 0.
Proof.
  intros Hsqrt Hne Hc Hx Hy Hvx Hvy.
  unfold corr. destruct xs as [|x xs]; [congruence|].
  rewrite Hc, Hx, Hy. unfold fsqrt.
  rewrite (Qsign_pos vx Hvx), (Qsign_pos vy Hvy).
  rewrite fdiv_zero_by_positive by (apply Hsqrt; exact Hvx).
  rewrite fdiv_zero_by_positive by (apply Hsqrt; exact Hvy).
  reflexivity.
Qed.

(** The correlation field: absent below three joined months, and absent
    as well when the correlation computed is zero. *)
Lemma supply_demand_correlation_field :
  forall (sqrt : Q -> Q) (w : World) production_df price_df storage_df,
    PRODUCTION_DATA (files w) = Some production_df ->
    PRICE_DATA (files w) = Some price_df ->
    STORAGE_DATA (files w) = Some storage_df ->
    exists r w',
      get_supply_demand_balance sqrt w = (Ok r, w')
      /\ price_production_correlation (correlation_analysis r)
         = let months :=
             joined_months
               (monthly sum prod_date quantity_tons production_df)
               (monthly mean price_date price_per_kg_tzs price_df) in
           if (2 <? List.length months)%nat
           then let c := corr sqrt (map fst months) (map snd months) in
                if truthy c then Some (round c 3) else None
           else None.
Proof.
  intros sqrt w production_df price_df storage_df Hp Hpr Hs.
  unfold get_supply_demand_balance. run_call. rewrite Hp, Hpr, Hs.
  eexists. eexists. split; [reflexivity|].
  cbn [price_production_correlation correlation_analysis].
  destruct (2 <? _)%nat; reflexivity.
Qed.

(** C9. Three months have both a production total (1, 2, 3 tons) and a
    mean price (1003, 1000, 1003), so the claim expects a correlation; the
    covariance of the two series is zero, the correlation is 0.0, and the
    truth test [if price_prod_correlation] reports it as [None]. This
    holds for every square root that is positive on positive numbers. *)
Theorem supply_demand_zero_correlation_absent :
  forall sqrt : Q -> Q,
    (forall q, 0 < q -> 0 < sqrt q)%Q ->
    let w := Sample.world Sample.files_uncorrelated Sample.june_2024 in
    exists r w',
      get_supply_demand_balance sqrt w = (Ok r, w')
      /\ joined_months
           (monthly sum prod_date quantity_tons
              [Sample.production_row (mk_date 2024 1 1) "Mbeya" 1;
               Sample.production_row (mk_date 2024 2 1) "Mbeya" 2;
               Sample.production_row (mk_date 2024 3 1) "Mbeya" 3])
           (monthly mean price_date price_per_kg_tzs
              [Sample.price_row (mk_date 2024 1 15) "Mbeya Central" "A" 1003;
               Sample.price_row (mk_date 2024 2 15) "Mbeya Central" "A" 1000;
               Sample.price_row (mk_date 2024 3 15) "Mbeya Central" "A" 1003])
         = [(of_Z 1, of_Z 1003); (of_Z 2, of_Z 1000); (of_Z 3, of_Z 1003)]
      /\ price_production_correlation (correlation_analysis r) = None.
Proof.
  intros sqrt Hsqrt w.
  destruct (supply_demand_correlation_field sqrt w _ _ _
              eq_refl eq_refl eq_refl) as [r [w' [Hrun Hfield]]].
  exists r, w'. split; [exact Hrun|]. split; [vm_compute; reflexivity|].
  rewrite Hfield.
  match goal with
  | |- context [joined_months ?a ?b] =>
      replace (joined_months a b)
        with [(of_Z 1, of_Z 1003); (of_Z 2, of_Z 1000); (of_Z 3, of_Z 1003)]
        by (vm_compute; reflexivity)
  end.
  cbn [List.length Nat.ltb Nat.leb map fst snd].
  rewrite (corr_zero_covariance sqrt _ _ 1 3 Hsqrt);
    try (vm_compute; reflexivity); discriminate.
Qed.

Lemma sqrt_upper_pos (q : Q) : (0 < q -> 0 < sqrt_upper q)%Q.
Proof.
  intros _. unfold sqrt_upper, Qlt. cbn [Qnum Qden].
  match goal with
  | |- context [Z.sqrt ?x] => pose proof (Z.sqrt_nonneg x)
  end.
  lia.
Qed.

(** The same run with the sample square root. *)
Lemma supply_demand_zero_correlation_absent_witness :
  exists r w',
    get_supply_demand_balance sqrt_upper
      (Sample.world Sample.files_uncorrelated Sample.june_2024) = (Ok r, w')
    /\ price_production_correlation (correlation_analysis r) = None.
Proof.
  destruct (supply_demand_zero_correlation_absent sqrt_upper sqrt_upper_pos)
    as [r [w' [Hrun [_ Hnone]]]].
  exists r, w'. split; assumption.
Defined.

(* ---------------------------------------------------------------------- *)
(** ** Repeated calls of the analytics functions *)

Section Repeatable.

Context {A B : Type}.

Lemma repeatable_ret (a : A) : repeatable (ret a).
Proof. intros w1 w2 H. simpl. auto. Qed.

Lemma repeatable_raise (e : exn) : repeatable (@raise A e).
Proof. intros w1 w2 H. simpl. auto. Qed.

Lemma repeatable_bind (m : M A) (f : A -> M B) :
  repeatable m -> (forall a, repeatable (f a)) -> repeatable (bind m f).
Proof.
  intros Hm Hf w1 w2 H. unfold bind.
  destruct (Hm w1 w2 H) as [Hr [Hs Hfiles]].
  destruct (m w1) as [o1 w1'], (m w2) as [o2 w2']. simpl in *. subst o2.
  destruct o1 as [a|e]; simpl; auto.
  destruct (Hf a w1' w2' Hs) as [Hr' [Hs' Hfiles']].
  repeat split; try apply Hs'; auto. congruence.
Qed.

Lemma repeatable_try_except (body : M A) (handler : exn -> M A) :
  repeatable body -> (forall e, repeatable (handler e)) ->
  repeatable (try_except body handler).
Proof.
  intros Hm Hf w1 w2 H. unfold try_except.
  destruct (Hm w1 w2 H) as [Hr [Hs Hfiles]].
  destruct (body w1) as [o1 w1'], (body w2) as [o2 w2']. simpl in *. subst o2.
  destruct o1 as [a|e]; simpl; auto.
  destruct (Hf e w1' w2' Hs) as [Hr' [Hs' Hfiles']].
  repeat split; try apply Hs'; auto. congruence.
Qed.

Lemma repeatable_read_csv (path : string) (sel : Files -> option A) :
  repeatable (read_csv path sel).
Proof.
  intros w1 w2 H. unfold read_csv. destruct H as [Hf Hc]. rewrite <- Hf.
  destruct (sel (files w1)); simpl; repeat split; auto.
Qed.

Lemma repeatable_read_csv_if_exists (sel : Files -> option A) :
  repeatable (read_csv_if_exists sel).
Proof.
  intros w1 w2 H. unfold read_csv_if_exists. destruct H as [Hf Hc].
  rewrite <- Hf. simpl; repeat split; auto.
Qed.

Lemma repeatable_local (name : string) (v : option A) :
  repeatable (local name v).
Proof.
  destruct v; [apply repeatable_ret | apply repeatable_raise].
Qed.

End Repeatable.

Lemma repeatable_now : repeatable datetime_now.
Proof.
  intros w1 w2 [Hf Hc]. unfold datetime_now. simpl. repeat split; auto.
  - f_equal. specialize (Hc 0%nat). rewrite !Nat.add_0_r in Hc. exact Hc.
  - intros n. specialize (Hc (S n)).
    rewrite !Nat.add_succ_r in Hc. exact Hc.
Qed.

Ltac repeatable_step :=
  first
    [ apply repeatable_ret
    | apply repeatable_raise
    | apply repeatable_now
    | apply repeatable_read_csv
    | apply repeatable_read_csv_if_exists
    | apply repeatable_local
    | apply repeatable_bind; [|intro]
    | apply repeatable_try_except; [|intro]
    | progress cbv zeta
    | match goal with
      | |- repeatable (if ?b then _ else _) => destruct b
      | |- repeatable (match ?x with _ => _ end) => destruct x
      end ].

Ltac repeatable_call :=
  unfold load_production_data, load_price_data, load_storage_data,
    load_production_forecasts, load_price_forecasts;
  repeat repeatable_step.

Lemma same_window_filter (R : Type) (date : R -> datetime)
      (c1 c2 : datetime) (rows : list R) :
  same_window c1 c2 (map date rows) ->
  filter (fun r => c1 <=? date r) rows = filter (fun r => c2 <=? date r) rows.
Proof.
  intros H. apply filter_ext_in. intros r Hr. apply H. apply in_map, Hr.
Qed.

Lemma same_matches_filter (R : Type) (date : R -> datetime)
      (t1 t2 : datetime) (rows : list R) :
  same_matches t1 t2 (map date rows) ->
  filter (fun r => date r =? t1) rows = filter (fun r => date r =? t2) rows.
Proof.
  intros H. apply filter_ext_in. intros r Hr. apply H. apply in_map, Hr.
Qed.

Lemma same_window_sub (R : Type) (date : R -> datetime) (p : R -> bool)
      (c1 c2 : datetime) (rows : list R) :
  same_window c1 c2 (map date rows) ->
  same_window c1 c2 (map date (filter p rows)).
Proof.
  intros H d Hd. apply H. apply in_map_iff in Hd.
  destruct Hd as [r [<- Hr]]. apply filter_In in Hr. apply in_map. tauto.
Qed.

(** C2, as the code has it. Two calls on the same files differ at most in
    what they take from the clock. The storage status, the seasonal
    pattern, the model inventory and the supply-demand balance use the
    clock for their stamp only: whatever the times of the two calls, they
    end with the same exception or with records equal apart from
    [generated_at] ([last_evaluation]). The national summary, the
    production summary, the price analysis and the market opportunities
    also take their window from the clock: they end alike, apart from the
    stamp, whenever the readings of the two calls leave the same record
    dates inside the window (for the production summary also inside the
    window of the year before; for the price analysis and the market
    opportunities also the same forecast rows under the month looked up;
    for the market opportunities the same calendar month). *)
Theorem analytics_calls_differ_in_stamp_only :
  forall w1 w2 : World,
    files w1 = files w2 ->
    forall (sqrt : Q -> Q) (period crop : string)
           (region market grade warehouse : option string),
      let now1 := clock w1 (ticks w1) in
      let now2 := clock w2 (ticks w2) in
      let production_dates :=
        map prod_date (rows_of (PRODUCTION_DATA (files w1))) in
      let price_dates := map price_date (rows_of (PRICE_DATA (files w1))) in
      let forecast_months :=
        map fc_month (rows_of (price_forecast_summary (files w1))) in
      same_apart_from_stamp storage_status_unstamped
        (get_storage_status warehouse) w1 w2
      /\ same_apart_from_stamp seasonal_pattern_unstamped
           (get_seasonal_pattern crop) w1 w2
      /\ same_apart_from_stamp forecast_accuracy_unstamped
           get_forecast_accuracy w1 w2
      /\ same_apart_from_stamp supply_demand_unstamped
           (get_supply_demand_balance sqrt) w1 w2
      /\ (same_window (now1 - timedelta (period_days period))
                      (now2 - timedelta (period_days period))
                      (production_dates ++ price_dates) ->
          same_apart_from_stamp national_summary_unstamped
            (get_national_summary period) w1 w2)
      /\ (same_window (now1 - timedelta (period_days period))
                      (now2 - timedelta (period_days period))
                      production_dates ->
          same_window
            (now1 - timedelta (period_days period) - timedelta 365)
            (now2 - timedelta (period_days period) - timedelta 365)
            production_dates ->
          same_apart_from_stamp production_summary_unstamped
            (get_production_summary region period) w1 w2)
      /\ (same_window (now1 - timedelta 7) (now2 - timedelta 7) price_dates ->
          same_matches
            (replace_day (clock w1 (S (ticks w1)) + timedelta 30) 1)
            (replace_day (clock w2 (S (ticks w2)) + timedelta 30) 1)
            forecast_months ->
          same_apart_from_stamp price_analysis_unstamped
            (get_price_analysis sqrt market grade) w1 w2)
      /\ (same_window (now1 - timedelta 7) (now2 - timedelta 7) price_dates ->
          month_of (clock w1 (S (ticks w1)))
          = month_of (clock w2 (S (ticks w2))) ->
          same_matches
            (replace_day (clock w1 (S (S (ticks w1))) + timedelta 30) 1)
            (replace_day (clock w2 (S (S (ticks w2))) + timedelta 30) 1)
            forecast_months ->
          same_apart_from_stamp market_opportunities_unstamped
            get_market_opportunities w1 w2).
Proof.
  intros w1 w2 Hfiles sqrt period crop region market grade warehouse
         now1 now2 production_dates price_dates forecast_months.
  unfold production_dates, price_dates, forecast_months, now1, now2.
  clear production_dates price_dates forecast_months now1 now2.
  unfold same_apart_from_stamp.
  repeat match goal with |- _ /\ _ => split end.
  - unfold get_storage_status, series_round. run_call. rewrite Hfiles.
    destruct (STORAGE_DATA (files w2)) as [[|row rows]|]; reflexivity.
  - unfold get_seasonal_pattern, key_of_extreme. run_call. rewrite Hfiles.
    destruct (PRODUCTION_DATA (files w2)) as [production_df|];
      [|reflexivity].
    cbv beta iota. rewrite ?Hfiles.
    destruct (PRICE_DATA (files w2)) as [price_df|]; [|reflexivity].
    cbv zeta.
    destruct (map _ (Pd.groupby Z.eqb Z.leb _ production_df))
      as [|[k0 v0] rest]; [reflexivity|].
    destruct (map _ (Pd.groupby Z.eqb Z.leb _ price_df))
      as [|[k1 v1] rest']; reflexivity.
  - unfold get_forecast_accuracy, price_forecasts_columns. run_call.
    rewrite Hfiles. reflexivity.
  - unfold get_supply_demand_balance. run_call. rewrite Hfiles.
    destruct (PRODUCTION_DATA (files w2)) as [production_df|];
      [|reflexivity].
    cbv beta iota. rewrite ?Hfiles.
    destruct (PRICE_DATA (files w2)) as [price_df|]; [|reflexivity].
    cbv beta iota. rewrite ?Hfiles.
    destruct (STORAGE_DATA (files w2)) as [storage_df|]; reflexivity.
  - rewrite Hfiles. intros Hwin.
    unfold get_national_summary. run_call. rewrite Hfiles.
    destruct (PRODUCTION_DATA (files w2)) as [production_df|];
      [|reflexivity].
    cbv beta iota. rewrite ?Hfiles.
    destruct (PRICE_DATA (files w2)) as [price_df|]; [|reflexivity].
    cbv beta iota. rewrite ?Hfiles.
    destruct (STORAGE_DATA (files w2)) as [storage_df|]; [|reflexivity].
    cbn [rows_of] in Hwin. cbn [files clock ticks fst outcome_map].
    rewrite (same_window_filter _ prod_date _ _ production_df)
      by (intros d Hd; apply Hwin, in_or_app; left; exact Hd).
    rewrite (same_window_filter _ price_date _ _ price_df)
      by (intros d Hd; apply Hwin, in_or_app; right; exact Hd).
    reflexivity.
  - rewrite Hfiles. intros Hwin Hyoy.
    unfold get_production_summary, production_forecast_join. run_call.
    rewrite Hfiles.
    destruct (PRODUCTION_DATA (files w2)) as [production_df|];
      [|reflexivity].
    cbn [rows_of] in Hwin, Hyoy.
    cbn [files clock ticks fst outcome_map]. cbv zeta.
    set (scoped := if given region
                   then filter (fun r => arg_is region (prod_region r))
                               production_df
                   else production_df).
    assert (Hwin' : same_window
                      (clock w1 (ticks w1) - timedelta (period_days period))
                      (clock w2 (ticks w2) - timedelta (period_days period))
                      (map prod_date scoped)).
    { unfold scoped. destruct (given region); [|exact Hwin].
      apply same_window_sub, Hwin. }
    assert (Hyoy' : forall r, In r scoped ->
              (clock w1 (ticks w1) - timedelta (period_days period)
               - timedelta 365 <=? prod_date r)
              && (prod_date r
                  <? clock w1 (ticks w1) - timedelta (period_days period))
              = (clock w2 (ticks w2) - timedelta (period_days period)
                 - timedelta 365 <=? prod_date r)
                && (prod_date r
                    <? clock w2 (ticks w2) - timedelta (period_days period))).
    { intros r Hr.
      assert (Hd : In (prod_date r) (map prod_date production_df)).
      { unfold scoped in Hr. destruct (given region).
        - apply filter_In in Hr. apply in_map. tauto.
        - apply in_map, Hr. }
      rewrite (Hyoy _ Hd), !Z.ltb_antisym, (Hwin _ Hd). reflexivity. }
    rewrite (same_window_filter _ prod_date _ _ scoped Hwin').
    rewrite (filter_ext_in _ _ scoped Hyoy').
    cbv beta iota. rewrite ?Hfiles.
    destruct (production_forecast_summary (files w2)) as [fdf|];
      [|reflexivity].
    destruct (given region); [|reflexivity].
    destruct (filter _ fdf); reflexivity.
  - rewrite Hfiles. intros Hwin Hmatch.
    unfold get_price_analysis. run_call. rewrite Hfiles.
    cbv beta iota. rewrite ?Hfiles.
    destruct (PRICE_DATA (files w2)) as [price_df|]; [|reflexivity].
    cbn [rows_of] in Hwin.
    cbn [files clock ticks fst outcome_map]. cbv zeta.
    set (scoped := if given grade
                   then filter (fun r => arg_is grade (quality_grade r))
                          (if given market
                           then filter (fun r => arg_is market (price_market r))
                                       price_df
                           else price_df)
                   else if given market
                        then filter (fun r => arg_is market (price_market r))
                                    price_df
                        else price_df).
    assert (Hwin' : same_window (clock w1 (ticks w1) - timedelta 7)
                                (clock w2 (ticks w2) - timedelta 7)
                                (map price_date scoped)).
    { unfold scoped.
      destruct (given grade); destruct (given market);
        repeat apply same_window_sub; exact Hwin. }
    rewrite (same_window_filter _ price_date _ _ scoped Hwin').
    cbv beta iota. rewrite ?Hfiles.
    destruct (price_forecast_summary (files w2)) as [fdf|]; [|reflexivity].
    cbn [rows_of] in Hmatch. cbn [files clock ticks].
    rewrite (same_matches_filter _ fc_month _ _ fdf Hmatch).
    destruct (0 <? _)%nat; reflexivity.
  - rewrite Hfiles. intros Hwin Hmonth Hmatch.
    unfold get_market_opportunities. run_call. rewrite Hfiles.
    cbv beta iota. rewrite ?Hfiles.
    destruct (PRICE_DATA (files w2)) as [price_df|]; [|reflexivity].
    cbn [rows_of] in Hwin.
    cbn [files clock ticks fst outcome_map]. cbv zeta.
    rewrite (same_window_filter _ price_date _ _ price_df Hwin).
    destruct (_ <? 2)%nat; [reflexivity|].
    cbn [files clock ticks]. rewrite Hmonth.
    cbv beta iota. rewrite ?Hfiles.
    destruct (price_forecast_summary (files w2)) as [fdf|]; [|reflexivity].
    cbn [rows_of] in Hmatch. cbn [files clock ticks].
    rewrite (same_matches_filter _ fc_month _ _ fdf Hmatch).
    reflexivity.
Qed.

(** Calls at noon of 1 June and of 2 June 2024 on the same files: the
    price rows of 30 May lie in both windows and no forecast month is
    matched at either time, so the reports are the same apart from their
    stamp, by which they differ. *)
Lemma analytics_calls_differ_in_stamp_only_witness :
  let w1 := Sample.world Cases.files_price_forecast Sample.june_2024 in
  let w2 := Sample.world Cases.files_price_forecast (Sample.noon 2024 6 2) in
  same_apart_from_stamp storage_status_unstamped (get_storage_status None)
                        w1 w2
  /\ same_apart_from_stamp price_analysis_unstamped
       (get_price_analysis sqrt_upper None None) w1 w2
  /\ same_apart_from_stamp market_opportunities_unstamped
       get_market_opportunities w1 w2
  /\ fst (get_market_opportunities w1) <> fst (get_market_opportunities w2).
Proof.
  intros w1 w2.
  destruct (analytics_calls_differ_in_stamp_only w1 w2 eq_refl sqrt_upper
              "current" "maize" None None None None)
    as [Hstorage [_ [_ [_ [_ [_ [Hprice Hmarket]]]]]]].
  assert (Hwin : same_window (clock w1 (ticks w1) - timedelta 7)
                             (clock w2 (ticks w2) - timedelta 7)
                             (map price_date (rows_of (PRICE_DATA (files w1))))).
  { intros d Hd. vm_compute in Hd.
    destruct Hd as [<-|[<-|[]]]; vm_compute; reflexivity. }
  split; [exact Hstorage|]. split; [|split].
  - apply Hprice; [exact Hwin|].
    intros d Hd. vm_compute in Hd. destruct Hd as [<-|[]].
    vm_compute. reflexivity.
  - apply Hmarket; [exact Hwin | vm_compute; reflexivity |].
    intros d Hd. vm_compute in Hd. destruct Hd as [<-|[]].
    vm_compute. reflexivity.
  - vm_compute. intros H. discriminate H.
Defined.

(** C2, as stated, fails: a second call right after the first, on the same
    files, returns another record, because [generated_at] is the reading
    of the clock. *)
Lemma national_summary_twice_differs :
  let w := Sample.world Sample.files_three_warehouses Sample.june_2024 in
  let first := get_national_summary "current" w in
  let second := get_national_summary "current" (snd first) in
  files (snd first) = files w
  /\ fst first <> fst second.
Proof.
  vm_compute. split; [reflexivity|]. intros H. discriminate H.
Qed.

(* ---------------------------------------------------------------------- *)
(** ** Validators: what a returning call guarantees *)

Section Returns.

Context {A B : Type}.
Variable Q : B -> Prop.

Lemma returns_ret (b : B) : Q b -> returns Q (ret b).
Proof. intros H w a Heq. simpl in Heq. inversion Heq. subst. exact H. Qed.

Lemma returns_raise (e : exn) : returns Q (raise e).
Proof. intros w a Heq. discriminate Heq. Qed.

Lemma returns_bind (m : M A) (f : A -> M B) :
  (forall a, returns Q (f a)) -> returns Q (bind m f).
Proof.
  intros H w b. unfold bind. destruct (m w) as [[a|e] w'].
  - apply H.
  - discriminate.
Qed.

End Returns.

Ltac returns_step :=
  first
    [ apply returns_raise
    | apply returns_bind; intro
    | progress cbv zeta
    | match goal with
      | |- returns _ (if ?b then _ else _) => destruct b eqn:?
      | |- returns _ (match ?x with _ => _ end) => destruct x eqn:?
      end ].

Lemma lookup_assign_other (n name : string) (c : column)
      (l : list (string * column)) :
  n <> name ->
  Pd.lookup String.eqb n (assign name c l) = Pd.lookup String.eqb n l.
Proof.
  intros Hne. induction l as [|[k v] l IH]; simpl.
  - apply String.eqb_neq in Hne. rewrite Hne. reflexivity.
  - destruct (String.eqb name k) eqn:Hk; simpl.
    + apply String.eqb_eq in Hk. subst k.
      apply String.eqb_neq in Hne. rewrite Hne. reflexivity.
    + destruct (String.eqb n k); auto.
Qed.

Lemma lookup_assign_same (name : string) (c : column)
      (l : list (string * column)) :
  Pd.lookup String.eqb name (assign name c l) = Some c.
Proof.
  induction l as [|[k v] l IH]; simpl.
  - rewrite String.eqb_refl. reflexivity.
  - destruct (String.eqb name k) eqn:Hk; simpl; rewrite Hk; auto.
Qed.

Lemma lookup_mem (n : string) (c : column) (l : list (string * column)) :
  Pd.lookup String.eqb n l = Some c -> str_mem n (map fst l) = true.
Proof.
  induction l as [|[k v] l IH]; simpl; [discriminate|].
  destruct (String.eqb n k); simpl; auto.
Qed.

Lemma unchanged_except_refl (names : list string) (df : DataFrame) :
  unchanged_except names df df.
Proof. split; auto. Qed.

Lemma unchanged_except_set_col (names : list string) (name : string)
      (c : column) (df df' : DataFrame) :
  In name names ->
  unchanged_except names df df' ->
  unchanged_except names df (set_col name c df').
Proof.
  intros Hin [Hn Hc]. split; [exact Hn|].
  intros n Hnot. simpl. rewrite lookup_assign_other.
  - apply Hc, Hnot.
  - intros ->. contradiction.
Qed.

Ltac frame :=
  repeat returns_step;
  apply returns_ret; cbn [snd];
  repeat first
    [ apply unchanged_except_refl
    | apply unchanged_except_set_col; [simpl; tauto|] ].

Lemma forecast_validator_frame (df : DataFrame) (forecast_type : string) :
  returns (fun out => snd out = df) (validate_forecast_data df forecast_type).
Proof.
  unfold validate_forecast_data.
  repeat returns_step; apply returns_ret; reflexivity.
Qed.

Section Frames.

Variable to_datetime : column -> option (list (option datetime)).

Lemma production_validator_frame (df : DataFrame) :
  returns (fun out => unchanged_except ["date"] df (snd out))
          (validate_production_data to_datetime df).
Proof. unfold validate_production_data. frame. Qed.

Lemma price_validator_frame (df : DataFrame) :
  returns (fun out => unchanged_except ["date"] df (snd out))
          (validate_price_data to_datetime df).
Proof. unfold validate_price_data. frame. Qed.

Lemma storage_validator_frame (df : DataFrame) :
  returns (fun out => unchanged_except ["date"; "utilization"] df (snd out))
          (validate_storage_data to_datetime df).
Proof. unfold validate_storage_data. frame. Qed.

End Frames.

Ltac solve_lookup :=
  cbn [cols set_col];
  repeat (rewrite lookup_assign_other by discriminate);
  first [eassumption | apply lookup_assign_same].

Lemma returns_bind_get_col {B : Type} (Q : B -> Prop) (name : string)
      (df : DataFrame) (f : column -> M B) :
  (forall c, Pd.lookup String.eqb name (cols df) = Some c -> returns Q (f c)) ->
  returns Q (bind (get_col name df) f).
Proof.
  intros H w b. unfold bind, get_col.
  destruct (Pd.lookup String.eqb name (cols df)) as [c|] eqn:Hc.
  - apply H. reflexivity.
  - discriminate.
Qed.

Lemma returns_bind_float_col {B : Type} (Q : B -> Prop) (name : string)
      (df : DataFrame) (f : list pyfloat -> M B) :
  (forall xs, Pd.lookup String.eqb name (cols df) = Some (Float64 xs) ->
              returns Q (f xs)) ->
  returns Q (bind (float_col name df) f).
Proof.
  intros H w b. unfold float_col, bind, get_col.
  destruct (Pd.lookup String.eqb name (cols df)) as [[xs|xs|xs]|] eqn:Hc;
    try discriminate.
  apply H. reflexivity.
Qed.

(** Brings the lookups made in the table under assignment back to the
    table the validator received. *)
Ltac original_lookups :=
  repeat match goal with
         | H : Pd.lookup _ _ (cols (set_col _ _ _)) = _ |- _ =>
             cbn [cols set_col] in H;
             rewrite ?lookup_assign_other in H by discriminate
         end.

Ltac assigns :=
  repeat first
    [ apply returns_bind_get_col; intros ? ?
    | apply returns_bind_float_col; intros ? ?
    | returns_step ];
  apply returns_ret; cbn [fst snd]; intros Hinfo;
  first
    [ solve [exfalso; apply Hinfo; reflexivity]
    | original_lookups;
      repeat match goal with |- _ /\ _ => split end;
      eexists; eexists; (split; [eassumption|]); (split; [eassumption|]);
      solve_lookup ].

Section Assigns.

Variable to_datetime : column -> option (list (option datetime)).

Lemma production_validator_assigns (df : DataFrame) :
  returns (fun out => info (fst out) <> [] ->
                      holds_timestamps to_datetime df (snd out))
          (validate_production_data to_datetime df).
Proof. unfold validate_production_data, holds_timestamps. assigns. Qed.

Lemma price_validator_assigns (df : DataFrame) :
  returns (fun out => info (fst out) <> [] ->
                      holds_timestamps to_datetime df (snd out))
          (validate_price_data to_datetime df).
Proof. unfold validate_price_data, holds_timestamps. assigns. Qed.

Lemma storage_validator_assigns (df : DataFrame) :
  returns (fun out => info (fst out) <> [] ->
                      holds_timestamps to_datetime df (snd out)
                      /\ holds_utilization df (snd out))
          (validate_storage_data to_datetime df).
Proof.
  unfold validate_storage_data, holds_timestamps, holds_utilization.
  assigns.
Qed.

End Assigns.

(** The validators read the clock and nothing else of the world. *)
Lemma repeatable_validators
      (to_datetime : column -> option (list (option datetime)))
      (df : DataFrame) (forecast_type : string) :
  repeatable (validate_production_data to_datetime df)
  /\ repeatable (validate_price_data to_datetime df)
  /\ repeatable (validate_storage_data to_datetime df)
  /\ repeatable (validate_forecast_data df forecast_type).
Proof.
  repeat match goal with |- _ /\ _ => split end;
    unfold validate_production_data, validate_price_data,
      validate_storage_data, validate_forecast_data, float_col, get_col;
    repeat repeatable_step.
Qed.

Lemma same_readings_refl (w : World) : same_readings w w.
Proof. split; auto. Qed.

(** C3, as the code has it. [validate_forecast_data] returns the table it
    was given. The three validators of the raw data leave the number of
    rows and every column other than [date] (for the storage validator,
    other than [date] and [utilization]) as they were; a run that goes
    past the three initial checks leaves timestamps in [date] and, for the
    storage validator, a numeric column [utilization]. No validator
    changes the files. *)
Theorem validators_frame :
  forall (to_datetime : column -> option (list (option datetime)))
         (df : DataFrame) (w : World),
    (forall forecast_type r df',
        fst (validate_forecast_data df forecast_type w) = Ok (r, df') ->
        df' = df)
    /\ (forall r df',
          fst (validate_production_data to_datetime df w) = Ok (r, df') ->
          unchanged_except ["date"] df df'
          /\ (info r <> [] -> holds_timestamps to_datetime df df'))
    /\ (forall r df',
          fst (validate_price_data to_datetime df w) = Ok (r, df') ->
          unchanged_except ["date"] df df'
          /\ (info r <> [] -> holds_timestamps to_datetime df df'))
    /\ (forall r df',
          fst (validate_storage_data to_datetime df w) = Ok (r, df') ->
          unchanged_except ["date"; "utilization"] df df'
          /\ (info r <> [] ->
            holds_timestamps to_datetime df df'
            /\ holds_utilization df df'))
    /\ (forall forecast_type,
          files (snd (validate_forecast_data df forecast_type w)) = files w)
    /\ files (snd (validate_production_data to_datetime df w)) = files w
    /\ files (snd (validate_price_data to_datetime df w)) = files w
    /\ files (snd (validate_storage_data to_datetime df w)) = files w.
Proof.
  intros to_datetime df w.
  assert (Hfiles : forall (A : Type) (m : M A),
             repeatable m -> files (snd (m w)) = files w).
  { intros A m Hm. apply (Hm w w (same_readings_refl w)). }
  split; [|split; [|split; [|split; [|split; [|split; [|split]]]]]].
  - intros ft r df' H. apply (forecast_validator_frame df ft w (r, df') H).
  - intros r df' H. split.
    + apply (production_validator_frame to_datetime df w (r, df') H).
    + apply (production_validator_assigns to_datetime df w (r, df') H).
  - intros r df' H. split.
    + apply (price_validator_frame to_datetime df w (r, df') H).
    + apply (price_validator_assigns to_datetime df w (r, df') H).
  - intros r df' H. split.
    + apply (storage_validator_frame to_datetime df w (r, df') H).
    + apply (storage_validator_assigns to_datetime df w (r, df') H).
  - intros ft. apply Hfiles, (repeatable_validators to_datetime df ft).
  - apply Hfiles, (repeatable_validators to_datetime df "").
  - apply Hfiles, (repeatable_validators to_datetime df "").
  - apply Hfiles, (repeatable_validators to_datetime df "").
Qed.

(** The storage validator on the table of one row. *)
Lemma validators_frame_witness :
  exists r df',
    fst (validate_storage_data to_datetime_iso Sample.overfull_storage
           (Sample.world Sample.files_stale_storage Sample.june_2024))
    = Ok (r, df')
    /\ unchanged_except ["date"; "utilization"] Sample.overfull_storage df'.
Proof.
  destruct (fst (validate_storage_data to_datetime_iso Sample.overfull_storage
                   (Sample.world Sample.files_stale_storage Sample.june_2024)))
    as [[r df']|e] eqn:Hrun; [|vm_compute in Hrun; discriminate Hrun].
  exists r, df'. split; [reflexivity|].
  apply (proj1 (proj1 (proj2 (proj2 (proj2
           (validators_frame to_datetime_iso Sample.overfull_storage
              (Sample.world Sample.files_stale_storage Sample.june_2024)))))
         r df' Hrun)).
Defined.

(** C3, as stated, fails: after [validate_storage_data] the table of one
    row has a fifth column, [utilization], and its [date] column holds a
    timestamp where it held text. *)
Lemma storage_validator_changes_table :
  exists r df',
    fst (validate_storage_data to_datetime_iso Sample.overfull_storage
           (Sample.world Sample.files_stale_storage Sample.june_2024))
    = Ok (r, df')
    /\ columns Sample.overfull_storage
       = ["date"; "warehouse_id"; "quantity_stored_tons"; "capacity_tons"]
    /\ columns df'
       = ["date"; "warehouse_id"; "quantity_stored_tons"; "capacity_tons";
          "utilization"]
    /\ Pd.lookup String.eqb "utilization" (cols df')
       = Some (Float64 [of_Z 120])
    /\ Pd.lookup String.eqb "date" (cols Sample.overfull_storage)
       = Some (Object [Some "2024-05-27"])
    /\ Pd.lookup String.eqb "date" (cols df')
       = Some (Datetime64 [Some (mk_date 2024 5 27)])
    /\ df' <> Sample.overfull_storage.
Proof.
  eexists. eexists. split; [vm_compute; reflexivity|].
  repeat split; try (vm_compute; reflexivity). discriminate.
Qed.

(* ---------------------------------------------------------------------- *)
(** ** The missing-value audit *)

Lemma audit_fold (df : DataFrame) (l : list (string * column))
      (r : ValidationResult) :
  let step := fun res col =>
       let count := count_null (snd col) in
       if (0 <? count)%nat then
         let pct := missing_pct df (snd col) in
         if fgt pct (of_Z 20)
         then add_error res (missing_values_message (fst col) pct)
         else if fgt pct (of_Z 5)
         then add_warning res (missing_values_message (fst col) pct)
         else res
       else res in
  errors (fold_left step l r)
  = (errors r ++ flat_map (audit_errors_of df) l)%list
  /\ warnings (fold_left step l r)
     = (warnings r ++ flat_map (audit_warnings_of df) l)%list
  /\ info (fold_left step l r) = info r.
Proof.
  intros step. revert r. induction l as [|col l IH]; intros r.
  - simpl. rewrite !app_nil_r. auto.
  - cbn [fold_left flat_map]. destruct (IH (step r col)) as [He [Hw Hi]].
    rewrite He, Hw, Hi. unfold step, audit_errors_of, audit_warnings_of.
    destruct (0 <? count_null (snd col))%nat;
      [destruct (fgt (missing_pct df (snd col)) (of_Z 20));
       [|destruct (fgt (missing_pct df (snd col)) (of_Z 5))]|];
      cbn [andb negb errors warnings info add_error add_warning app];
      rewrite <- ?app_assoc; auto.
Qed.

Lemma audit_errors (df : DataFrame) (r : ValidationResult) :
  errors (missing_value_audit df r)
  = (errors r ++ flat_map (audit_errors_of df) (cols df))%list.
Proof. apply (audit_fold df (cols df) r). Qed.

Lemma audit_warnings (df : DataFrame) (r : ValidationResult) :
  warnings (missing_value_audit df r)
  = (warnings r ++ flat_map (audit_warnings_of df) (cols df))%list.
Proof. apply (audit_fold df (cols df) r). Qed.

Lemma audit_info (df : DataFrame) (r : ValidationResult) :
  info (missing_value_audit df r) = info r.
Proof. apply (audit_fold df (cols df) r). Qed.

(** A column without a missing cell has a percentage of zero, or none at
    all on an empty table: it passes no threshold. *)
Lemma missing_pct_without_null (df : DataFrame) (c : column) :
  count_null c = 0%nat ->
  missing_pct df c = NaN \/ missing_pct df c = Finite 0.
Proof.
  intros H. unfold missing_pct. rewrite H.
  destruct (nrows df) as [|n]; [left|right]; reflexivity.
Qed.

Lemma fgt_20_5 (x : pyfloat) :
  fgt x (of_Z 20) = true -> fgt x (of_Z 5) = true.
Proof.
  destruct x as [q| | |]; simpl; try discriminate; auto.
  unfold fgt, fcompare, of_Z.
  destruct (Qcompare q (inject_Z 20)) eqn:H20; try discriminate.
  intros _. apply Qgt_alt in H20.
  assert (H5 : (inject_Z 5 < q)%Q).
  { eapply Qlt_trans; [|exact H20]. reflexivity. }
  apply Qgt_alt in H5. rewrite H5. reflexivity.
Qed.

Lemma missing_values_message_inj (n n' : string) (p p' : pyfloat) :
  missing_values_message n p = missing_values_message n' p' ->
  n = n' /\ p = p'.
Proof. intros H. inversion H. auto. Qed.

(** The thresholds of the audit, for a result that comes out of it. *)
Lemma audited_thresholds (df : DataFrame) (r : ValidationResult) :
  audited df r ->
  forall (name : string) (c : column),
    In (name, c) (cols df) ->
    let m := missing_pct df c in
    (fgt m (of_Z 20) = true ->
     In (missing_values_message name m) (errors r))
    /\ (fgt m (of_Z 20) = false -> fgt m (of_Z 5) = true ->
        In (missing_values_message name m) (warnings r))
    /\ (fgt m (of_Z 5) = false ->
        ~ In (missing_values_message name m) (errors r)
        /\ ~ In (missing_values_message name m) (warnings r)).
Proof.
  intros [before [Hclean [He Hw]]] name c Hin m.
  rewrite He, Hw, audit_errors, audit_warnings.
  assert (Hcount : forall t, fgt m t = true -> fgt (Finite 0) t = false ->
                             (0 <? count_null c)%nat = true).
  { intros t Ht H0. destruct (count_null c) eqn:Hc; [|reflexivity].
    exfalso. destruct (missing_pct_without_null df c Hc) as [E|E];
      unfold m in Ht; rewrite E in Ht; [discriminate | congruence]. }
  split; [|split].
  - intros H20. apply in_or_app. right. apply in_flat_map.
    exists (name, c). split; [exact Hin|]. unfold audit_errors_of. simpl.
    fold m. rewrite H20, (Hcount _ H20 eq_refl). left. reflexivity.
  - intros H20 H5. apply in_or_app. right. apply in_flat_map.
    exists (name, c). split; [exact Hin|]. unfold audit_warnings_of. simpl.
    fold m. rewrite H20, H5, (Hcount _ H5 eq_refl). left. reflexivity.
  - intros H5. split; intros H; apply in_app_or in H; destruct H as [H|H].
    + specialize (Hclean _ (or_introl H)). discriminate Hclean.
    + apply in_flat_map in H. destruct H as [[n' c'] [_ H]].
      unfold audit_errors_of in H. simpl in H.
      destruct (_ && _) eqn:Hc in H; [|contradiction].
      destruct H as [H|[]]. apply missing_values_message_inj in H.
      destruct H as [_ Hp]. apply andb_true_iff in Hc. destruct Hc as [_ Hc].
      rewrite Hp in Hc. fold m in Hc. apply fgt_20_5 in Hc. congruence.
    + specialize (Hclean _ (or_intror H)). discriminate Hclean.
    + apply in_flat_map in H. destruct H as [[n' c'] [_ H]].
      unfold audit_warnings_of in H. simpl in H.
      destruct (_ && _) eqn:Hc in H; [|contradiction].
      destruct H as [H|[]]. apply missing_values_message_inj in H.
      destruct H as [_ Hp]. apply andb_true_iff in Hc. destruct Hc as [_ Hc].
      rewrite Hp in Hc. fold m in Hc. congruence.
Qed.

Lemma unaudited_new : unaudited new_result.
Proof. intros m [[]|[]]. Qed.

Lemma unaudited_error_if (c : bool) (m : message) (r : ValidationResult) :
  is_missing_values_message m = false ->
  unaudited r -> unaudited (error_if c m r).
Proof.
  intros Hm Hr. destruct c; simpl; [|exact Hr].
  intros m' [H|H]; simpl in H.
  - apply in_app_or in H. destruct H as [H|[<-|[]]]; auto.
  - auto.
Qed.

Lemma unaudited_warning_if (c : bool) (m : message) (r : ValidationResult) :
  is_missing_values_message m = false ->
  unaudited r -> unaudited (warning_if c m r).
Proof.
  intros Hm Hr. destruct c; simpl; [|exact Hr].
  intros m' [H|H]; simpl in H.
  - auto.
  - apply in_app_or in H. destruct H as [H|[<-|[]]]; auto.
Qed.

Lemma unaudited_info_if (c : bool) (m : message) (r : ValidationResult) :
  unaudited r -> unaudited (info_if c m r).
Proof. intros Hr. destruct c; simpl; exact Hr. Qed.

Lemma unaudited_grade_hierarchy rows (ms : list value) (r : ValidationResult) :
  unaudited r -> unaudited (fold_left (grade_hierarchy rows) ms r).
Proof.
  revert r. induction ms as [|m ms IH]; intros r Hr; simpl; [exact Hr|].
  apply IH. unfold grade_hierarchy.
  apply unaudited_warning_if; [reflexivity|].
  apply unaudited_warning_if; [reflexivity|]. exact Hr.
Qed.

Ltac unaudited_chain :=
  repeat first
    [ apply unaudited_new
    | apply unaudited_info_if
    | apply unaudited_grade_hierarchy
    | apply unaudited_error_if; [reflexivity|]
    | apply unaudited_warning_if; [reflexivity|] ].

Ltac audited_call :=
  repeat returns_step;
  apply returns_ret; cbn [fst snd]; intros Hinfo;
  first
    [ solve [exfalso; apply Hinfo; reflexivity]
    | eexists; split; [|split; reflexivity]; unaudited_chain ].

Section Audited.

Variable to_datetime : column -> option (list (option datetime)).

Lemma production_validator_audited (df : DataFrame) :
  returns (fun out => info (fst out) <> [] -> audited (snd out) (fst out))
          (validate_production_data to_datetime df).
Proof. unfold validate_production_data. audited_call. Qed.

Lemma price_validator_audited (df : DataFrame) :
  returns (fun out => info (fst out) <> [] -> audited (snd out) (fst out))
          (validate_price_data to_datetime df).
Proof. unfold validate_price_data. audited_call. Qed.

Lemma storage_validator_audited (df : DataFrame) :
  returns (fun out => info (fst out) <> [] -> audited (snd out) (fst out))
          (validate_storage_data to_datetime df).
Proof. unfold validate_storage_data. audited_call. Qed.

End Audited.

(** C6, as the code has it. Take a run of the production, price or storage
    validator that goes past the three initial checks, and a column of the
    table as the run leaves it, with [m] the percentage of its missing
    cells ([count / len(df) * 100]). If [m > 20] the errors hold the
    message naming the column and carrying [m]; if [5 < m <= 20] the
    warnings hold it; if [m <= 5] neither list holds it. *)
Theorem missing_value_audit_thresholds :
  forall (to_datetime : column -> option (list (option datetime)))
         (df : DataFrame) (w : World) (r : ValidationResult) (df' : DataFrame),
    fst (validate_production_data to_datetime df w) = Ok (r, df')
    \/ fst (validate_price_data to_datetime df w) = Ok (r, df')
    \/ fst (validate_storage_data to_datetime df w) = Ok (r, df') ->
    info r <> [] ->
    forall (name : string) (c : column),
      In (name, c) (cols df') ->
      let m := missing_pct df' c in
      (fgt m (of_Z 20) = true ->
       In (missing_values_message name m) (errors r))
      /\ (fgt m (of_Z 20) = false -> fgt m (of_Z 5) = true ->
          In (missing_values_message name m) (warnings r))
      /\ (fgt m (of_Z 5) = false ->
          ~ In (missing_values_message name m) (errors r)
          /\ ~ In (missing_values_message name m) (warnings r)).
Proof.
  intros to_datetime df w r df' Hrun Hinfo.
  apply audited_thresholds.
  destruct Hrun as [H|[H|H]].
  - apply (production_validator_audited to_datetime df w (r, df') H Hinfo).
  - apply (price_validator_audited to_datetime df w (r, df') H Hinfo).
  - apply (storage_validator_audited to_datetime df w (r, df') H Hinfo).
Qed.

(** One identifier missing in two rows: 50%, an error naming the column. *)
Lemma missing_value_audit_thresholds_witness :
  exists r df',
    fst (validate_storage_data to_datetime_iso Sample.half_missing
           (Sample.world Sample.files_stale_storage Sample.june_2024))
    = Ok (r, df')
    /\ In (missing_values_message "warehouse_id" (of_Z 50)) (errors r).
Proof.
  destruct (fst (validate_storage_data to_datetime_iso Sample.half_missing
                   (Sample.world Sample.files_stale_storage Sample.june_2024)))
    as [[r df']|e] eqn:Hrun; [|vm_compute in Hrun; discriminate Hrun].
  exists r, df'. split; [reflexivity|].
  assert (Hshape : info r <> []
                   /\ In ("warehouse_id", Object [None; Some "WH-MBE-001"])
                         (cols df')
                   /\ nrows df' = 2%nat).
  { pose proof Hrun as Hc. vm_compute in Hc. injection Hc as <- <-.
    split; [discriminate|]. split; [simpl; tauto | reflexivity]. }
  destruct Hshape as [Hinfo [Hin Hrows]].
  destruct (missing_value_audit_thresholds to_datetime_iso Sample.half_missing
              (Sample.world Sample.files_stale_storage Sample.june_2024)
              r df' (or_intror (or_intror Hrun)) Hinfo
              "warehouse_id" (Object [None; Some "WH-MBE-001"]) Hin)
    as [Herr _].
  unfold missing_pct in Herr. rewrite Hrows in Herr.
  apply Herr. reflexivity.
Defined.

(** C6, as stated, fails at the lower bound and for the forecast
    validator. With one cell missing in twenty the percentage is exactly
    5, and the storage validator adds no warning (nor error); and
    [validate_forecast_data] has no audit: with half of [yhat_lower]
    missing it reports neither an error nor a warning. *)
Lemma five_percent_missing_no_warning :
  (exists r df',
      fst (validate_storage_data to_datetime_iso Sample.one_in_twenty_missing
             (Sample.world Sample.files_stale_storage Sample.june_2024))
      = Ok (r, df')
      /\ In ("warehouse_id", Object (None :: repeat (Some "WH-MBE-001") 19))
            (cols df')
      /\ missing_pct df' (Object (None :: repeat (Some "WH-MBE-001") 19))
         = of_Z 5
      /\ errors r = [] /\ warnings r = [])
  /\ (exists r df',
        fst (validate_forecast_data Sample.forecast_with_gaps "production"
               (Sample.world Sample.files_stale_storage Sample.june_2024))
        = Ok (r, df')
        /\ In ("yhat_lower", Float64 [NaN; of_Z 9]) (cols df')
        /\ missing_pct df' (Float64 [NaN; of_Z 9]) = of_Z 50
        /\ errors r = [] /\ warnings r = []).
Proof.
  split; eexists; eexists; (split; [vm_compute; reflexivity|]);
    repeat split; try (vm_compute; reflexivity); simpl; tauto.
Qed.

(* ---------------------------------------------------------------------- *)
(** ** Stored quantity above capacity *)

Lemma In_warnings_info_if c m r x :
  In x (warnings r) -> In x (warnings (info_if c m r)).
Proof. destruct c; auto. Qed.

Lemma In_warnings_warning_if c m r x :
  In x (warnings r) -> In x (warnings (warning_if c m r)).
Proof. destruct c; simpl; auto. intros H. apply in_or_app. auto. Qed.


Lemma run_bind {A B : Type} (m : M A) (f : A -> M B) (w w' : World) (a : A) :
  m w = (Ok a, w') -> bind m f w = f a w'.
Proof. intros H. unfold bind. rewrite H. reflexivity. Qed.

Lemma run_get_col (name : string) (df : DataFrame) (c : column) (w : World) :
  Pd.lookup String.eqb name (cols df) = Some c ->
  get_col name df w = (Ok c, w).
Proof. intros H. unfold get_col. rewrite H. reflexivity. Qed.

Lemma run_float_col (name : string) (df : DataFrame) (xs : list pyfloat)
      (w : World) :
  Pd.lookup String.eqb name (cols df) = Some (Float64 xs) ->
  float_col name df w = (Ok xs, w).
Proof.
  intros H. unfold float_col. rewrite (run_bind _ _ _ _ _ (run_get_col _ _ _ _ H)).
  reflexivity.
Qed.

Ltac run_step :=
  erewrite run_bind
    by (first [apply run_get_col | apply run_float_col]; solve_lookup);
  cbv beta iota zeta.

Lemma errors_info_if c m r : errors (info_if c m r) = errors r.
Proof. destruct c; reflexivity. Qed.

Lemma errors_warning_if c m r : errors (warning_if c m r) = errors r.
Proof. destruct c; reflexivity. Qed.

Lemma flat_map_nil {A B : Type} (f : A -> list B) (l : list A) :
  (forall x, In x l -> f x = []) -> flat_map f l = [].
Proof.
  induction l as [|a l IH]; simpl; auto.
  intros H. rewrite (H a (or_introl eq_refl)). simpl. apply IH. auto.
Qed.
(** C5, as the code has it. On a storage table that passes the three
    initial checks and has numeric measure columns, rows with a stored
    quantity above the capacity add an entry to the warnings and none to
    the errors; when no quantity is negative, no capacity is non-positive
    and no column has more than 20% of its cells missing, the result is
    valid. *)
Theorem storage_overstock_is_warning :
  forall (to_datetime : column -> option (list (option datetime)))
         (df : DataFrame) (w : World) (date warehouse : column)
         (parsed : list (option datetime)) (stored capacity : list pyfloat),
    nrows df <> 0%nat ->
    Pd.lookup String.eqb "date" (cols df) = Some date ->
    Pd.lookup String.eqb "warehouse_id" (cols df) = Some warehouse ->
    Pd.lookup String.eqb "quantity_stored_tons" (cols df)
    = Some (Float64 stored) ->
    Pd.lookup String.eqb "capacity_tons" (cols df) = Some (Float64 capacity) ->
    to_datetime date = Some parsed ->
    (0 < count_pairs fgt stored capacity)%nat ->
    let over :=
      [FNat (count_pairs fgt stored capacity);
       Lit " records exceed warehouse capacity (possible error or real overstocking)"] in
    exists r df',
      fst (validate_storage_data to_datetime df w) = Ok (r, df')
      /\ In over (warnings r)
      /\ ~ In over (errors r)
      /\ (count_if (fun x => flt x (of_Z 0)) stored = 0%nat ->
          count_if (fun x => fle x (of_Z 0)) capacity = 0%nat ->
          (forall name c, In (name, c) (cols df') ->
                          fgt (missing_pct df' c) (of_Z 20) = false) ->
          is_valid r = true).
Proof.
  intros to_datetime df w date warehouse parsed stored capacity
         Hrows Hdate Hwh Hst Hcap Hparse Hover over.
  unfold validate_storage_data.
  apply Nat.eqb_neq in Hrows. rewrite Hrows.
  assert (Hmiss : missing_from
                    ["date"; "warehouse_id"; "quantity_stored_tons";
                     "capacity_tons"] df = []).
  { unfold missing_from, columns. cbn [filter].
    rewrite (lookup_mem _ _ _ Hdate), (lookup_mem _ _ _ Hwh),
      (lookup_mem _ _ _ Hst), (lookup_mem _ _ _ Hcap). reflexivity. }
  cbv zeta. rewrite Hmiss.
  change (0 <? List.length (@nil string))%nat with false. cbv iota.
  run_step. rewrite Hparse. cbv beta iota zeta.
  do 4 run_step. unfold ret. cbn [fst].
  eexists. eexists. split; [reflexivity|].
  apply Nat.ltb_lt in Hover.
  split; [|split].
  - cbn [warnings add_info]. rewrite audit_warnings.
    apply in_or_app. left.
    apply In_warnings_info_if, In_warnings_warning_if.
    rewrite Hover. simpl. apply in_or_app. right. left. reflexivity.
  - cbn [errors add_info]. rewrite audit_errors.
    rewrite errors_info_if, !errors_warning_if.
    intros H. apply in_app_or in H. destruct H as [H|H].
    + unfold error_if in H.
      repeat match type of H with
             | context [if ?b then _ else _] => destruct b
             end; simpl in H;
        repeat match type of H with
               | _ \/ _ => destruct H as [H|H]
               end; try contradiction; discriminate H.
    + apply in_flat_map in H. destruct H as [col [_ H]].
      unfold audit_errors_of in H.
      destruct (_ && _) in H; [|contradiction].
      destruct H as [H|[]]. discriminate H.
  - intros Hneg Hinv Hmissing. unfold is_valid.
    cbn [errors add_info]. rewrite audit_errors.
    rewrite errors_info_if, !errors_warning_if. rewrite Hneg, Hinv.
    cbn [error_if Nat.ltb Nat.leb errors new_result app].
    assert (Hnone : flat_map
              (audit_errors_of
                 (set_col "utilization"
                    (Float64
                       (map (fun sc => fmul (fdiv (fst sc) (snd sc)) (of_Z 100))
                            (combine stored capacity)))
                    (set_col "date" (Datetime64 parsed) df)))
              (cols
                 (set_col "utilization"
                    (Float64
                       (map (fun sc => fmul (fdiv (fst sc) (snd sc)) (of_Z 100))
                            (combine stored capacity)))
                    (set_col "date" (Datetime64 parsed) df))) = []).
    { apply flat_map_nil. intros [name c] Hin. unfold audit_errors_of.
      cbn [fst snd]. rewrite (Hmissing name c Hin), andb_false_r.
      reflexivity. }
    rewrite Hnone. reflexivity.
Qed.

(** The table of one row with 120 tons stored for a capacity of 100. *)
Lemma storage_overstock_is_warning_witness :
  exists r df',
    fst (validate_storage_data to_datetime_iso Sample.overfull_storage
           (Sample.world Sample.files_stale_storage Sample.june_2024))
    = Ok (r, df')
    /\ In [FNat 1;
           Lit " records exceed warehouse capacity (possible error or real overstocking)"]
          (warnings r).
Proof.
  destruct (storage_overstock_is_warning to_datetime_iso
              Sample.overfull_storage
              (Sample.world Sample.files_stale_storage Sample.june_2024)
              (Object [Some "2024-05-27"]) (Object [Some "WH-MBE-001"])
              [Some (mk_date 2024 5 27)] [of_Z 120] [of_Z 100])
    as [r [df' [Hrun [Hwarn _]]]];
    try reflexivity; [discriminate | vm_compute; lia |].
  exists r, df'. split; [exact Hrun | exact Hwarn].
Defined.

(** C5, as stated, fails: the table whose only violation is a stored
    quantity of 120 against a capacity of 100 is valid; the condition is
    among the warnings. *)
Lemma overfull_storage_is_valid :
  exists r df',
    fst (validate_storage_data to_datetime_iso Sample.overfull_storage
           (Sample.world Sample.files_stale_storage Sample.june_2024))
    = Ok (r, df')
    /\ is_valid r = true
    /\ errors r = []
    /\ In [FNat 1;
           Lit " records exceed warehouse capacity (possible error or real overstocking)"]
          (warnings r).
Proof.
  eexists. eexists. split; [vm_compute; reflexivity|].
  repeat split. simpl. tauto.
Qed.
(* ====================================================================== *)
(** * Further properties of the analytics functions *)
(* ====================================================================== *)

(* ---------------------------------------------------------------------- *)
(** ** Files that are missing *)

(** A data file that does not exist ends the call with
    [FileNotFoundError]: the production file for the national summary, the
    production summary, the seasonal pattern and the supply-demand
    balance; the price file for the price analysis and the market
    opportunities; the storage file for the storage status. *)
Theorem missing_data_file_raises :
  forall (w : World) (sqrt : Q -> Q) (period crop : string)
         (region market grade warehouse : option string),
    (PRODUCTION_DATA (files w) = None ->
     fst (get_national_summary period w)
     = Raise (FileNotFoundError "data/maize_production.csv")
     /\ fst (get_production_summary region period w)
        = Raise (FileNotFoundError "data/maize_production.csv")
     /\ fst (get_seasonal_pattern crop w)
        = Raise (FileNotFoundError "data/maize_production.csv")
     /\ fst (get_supply_demand_balance sqrt w)
        = Raise (FileNotFoundError "data/maize_production.csv"))
    /\ (PRICE_DATA (files w) = None ->
        fst (get_price_analysis sqrt market grade w)
        = Raise (FileNotFoundError "data/maize_prices.csv")
        /\ fst (get_market_opportunities w)
           = Raise (FileNotFoundError "data/maize_prices.csv"))
    /\ (STORAGE_DATA (files w) = None ->
        fst (get_storage_status warehouse w)
        = Raise (FileNotFoundError "data/maize_storage.csv")).
Proof.
  intros w sqrt period crop region market grade warehouse.
  split; [|split]; intros H; repeat split;
    unfold get_national_summary, get_production_summary,
      get_seasonal_pattern, get_supply_demand_balance, get_price_analysis,
      get_market_opportunities, get_storage_status;
    run_call; rewrite H; reflexivity.
Qed.

(** The storage status of a world without a storage file. *)
Lemma missing_data_file_raises_witness :
  fst (get_storage_status None
         (Sample.world Cases.files_without_storage Sample.june_2024))
  = Raise (FileNotFoundError "data/maize_storage.csv").
Proof.
  apply (proj2 (proj2 (missing_data_file_raises
                         (Sample.world Cases.files_without_storage
                                       Sample.june_2024)
                         sqrt_upper "current" "maize" None None None None))).
  reflexivity.
Defined.

(** Without the two forecast summary files the reports are still
    produced, with their forecast parts absent: no forecast comparison in
    the production summary and the price analysis, no forecast
    opportunities, and a model inventory whose two dicts of models are
    empty, that counts no production model and the default of 36 price
    models. *)
Theorem forecast_files_optional :
  forall (w : World) (sqrt : Q -> Q) (period : string)
         (region market grade : option string)
         (production_df : list ProductionRow) (price_df : list PriceRow),
    PRODUCTION_DATA (files w) = Some production_df ->
    PRICE_DATA (files w) = Some price_df ->
    production_forecast_summary (files w) = None ->
    price_forecast_summary (files w) = None ->
    (exists r w',
        get_production_summary region period w = (Ok r, w')
        /\ ps_forecast_comparison r = None)
    /\ (exists r w',
          get_price_analysis sqrt market grade w = (Ok r, w')
          /\ pa_forecast_comparison r = None)
    /\ (forall r w',
          get_market_opportunities w = (Ok (Report r), w') ->
          forecast_opportunities r = None)
    /\ (exists r w',
          get_forecast_accuracy w = (Ok r, w')
          /\ production_models r = NoModels
          /\ price_models r = NoModels
          /\ production_models_active (overall_performance r) = 0%nat
          /\ price_models_active (overall_performance r) = 36%nat).
Proof.
  intros w sqrt period region market grade production_df price_df
         Hprod Hprice Hpf Hprf.
  split; [|split; [|split]].
  - unfold get_production_summary. run_call. rewrite Hprod, Hpf.
    eexists. eexists. split; reflexivity.
  - unfold get_price_analysis. run_call. rewrite Hprice, Hprf.
    eexists. eexists. split; reflexivity.
  - intros r w'. unfold get_market_opportunities. run_call.
    rewrite Hprice, Hprf. cbn [files clock ticks].
    destruct (_ <? 2)%nat; [discriminate|].
    intros H. inversion H. reflexivity.
  - unfold get_forecast_accuracy, price_forecasts_columns. run_call.
    cbn [files]. rewrite Hpf, Hprf.
    eexists. eexists. split; [reflexivity|]. repeat split.
Qed.

(** The production summary and the model inventory on data files without
    any forecast. *)
Lemma forecast_files_optional_witness :
  (exists r w',
      get_production_summary None "current"
        (Sample.world Sample.files_two_markets Sample.june_2024) = (Ok r, w')
      /\ ps_forecast_comparison r = None)
  /\ (exists r w',
        get_forecast_accuracy
          (Sample.world Sample.files_two_markets Sample.june_2024) = (Ok r, w')
        /\ price_models_active (overall_performance r) = 36%nat).
Proof.
  destruct (forecast_files_optional
              (Sample.world Sample.files_two_markets Sample.june_2024)
              sqrt_upper "current" None None None _ _
              eq_refl eq_refl eq_refl eq_refl)
    as [Hps [_ [_ [r [w' [Hrun [_ [_ [_ H36]]]]]]]]].
  split; [exact Hps|]. exists r, w'. split; assumption.
Defined.

(* ---------------------------------------------------------------------- *)
(** ** The model inventory *)

Section DictSet.

Variable V : Type.

Lemma lookup_dict_set_same (k : string) (v : V) (d : list (string * V)) :
  Pd.lookup String.eqb k (Pd.dict_set k v d) = Some v.
Proof.
  induction d as [|[k' v'] d IH]; simpl.
  - rewrite String.eqb_refl. reflexivity.
  - destruct (String.eqb k k') eqn:E; simpl; rewrite ?String.eqb_refl, ?E; auto.
Qed.

Lemma lookup_dict_set_other (k k' : string) (v : V) (d : list (string * V)) :
  k <> k' ->
  Pd.lookup String.eqb k (Pd.dict_set k' v d) = Pd.lookup String.eqb k d.
Proof.
  intros Hne. apply String.eqb_neq in Hne.
  induction d as [|[k0 v0] d IH]; simpl.
  - rewrite Hne. reflexivity.
  - destruct (String.eqb k' k0) eqn:E; simpl.
    + apply String.eqb_eq in E. subst k0. rewrite Hne. reflexivity.
    + destruct (String.eqb k k0); auto.
Qed.

Lemma keys_dict_set (k : string) (v : V) (d : list (string * V)) :
  map fst (Pd.dict_set k v d)
  = if str_mem k (map fst d) then map fst d else (map fst d ++ [k])%list.
Proof.
  unfold str_mem. induction d as [|[k' v'] d IH]; simpl; [reflexivity|].
  destruct (String.eqb k k') eqn:E; simpl.
  - apply String.eqb_eq in E. subst k'. reflexivity.
  - rewrite IH. destruct (Pd.mem String.eqb k (map fst d)); reflexivity.
Qed.

Lemma str_mem_app (k : string) (l1 l2 : list string) :
  str_mem k (l1 ++ l2) = str_mem k l1 || str_mem k l2.
Proof.
  unfold str_mem. induction l1 as [|x l1 IH]; simpl; [reflexivity|].
  rewrite IH, orb_assoc. reflexivity.
Qed.

Variable R : Type.
Variable key : R -> string.
Variable f : R -> V.

Let step (acc : list (string * V)) (row : R) : list (string * V) :=
  Pd.dict_set (key row) (f row) acc.

(** Filling a dict row by row: the keys are the distinct keys of the rows
    in order of first appearance. *)
Lemma keys_of_filled_dict (rows : list R) (acc : list (string * V))
      (seen : list string) :
  (forall k, Pd.mem String.eqb k seen = str_mem k (map fst acc)) ->
  map fst (fold_left step rows acc)
  = (map fst acc ++ Pd.unique_from String.eqb seen (map key rows))%list.
Proof.
  revert acc seen. induction rows as [|row rows IH]; intros acc seen Hseen.
  - simpl. rewrite app_nil_r. reflexivity.
  - cbn [fold_left map Pd.unique_from].
    rewrite (Hseen (key row)).
    destruct (str_mem (key row) (map fst acc)) eqn:E.
    + rewrite (IH (step acc row) seen).
      * unfold step. rewrite keys_dict_set, E. reflexivity.
      * intros k. unfold step. rewrite keys_dict_set, E. apply Hseen.
    + rewrite (IH (step acc row) (key row :: seen)).
      * unfold step. rewrite keys_dict_set, E, <- app_assoc. reflexivity.
      * intros k. unfold step. rewrite keys_dict_set, E, str_mem_app.
        simpl. rewrite Hseen, orb_false_r, orb_comm. reflexivity.
Qed.

Lemma find_in_app (A : Type) (p : A -> bool) (l1 l2 : list A) :
  List.find p (l1 ++ l2)
  = match List.find p l1 with
    | Some x => Some x
    | None => List.find p l2
    end.
Proof.
  induction l1 as [|x l1 IH]; simpl; [reflexivity|].
  destruct (p x); auto.
Qed.

(** ... and each key holds the value of the last row that has it. *)
Lemma lookup_in_filled_dict (k : string) (rows : list R)
      (acc : list (string * V)) :
  Pd.lookup String.eqb k (fold_left step rows acc)
  = match List.find (fun row => String.eqb (key row) k) (rev rows) with
    | Some row => Some (f row)
    | None => Pd.lookup String.eqb k acc
    end.
Proof.
  revert acc. induction rows as [|row rows IH]; intros acc; [reflexivity|].
  cbn [fold_left rev]. rewrite IH, find_in_app.
  destruct (List.find _ (rev rows)); [reflexivity|].
  simpl. unfold step. destruct (String.eqb (key row) k) eqn:E.
  - apply String.eqb_eq in E. subst k. apply lookup_dict_set_same.
  - apply lookup_dict_set_other. apply String.eqb_neq in E. congruence.
Qed.

End DictSet.

(** [get_forecast_accuracy] returns for every state of the files, the
    data files included. With a production forecast summary, it lists one
    model per distinct region in order of first appearance, counts them,
    and gives each region the values of its last row. With a price
    forecast summary it counts the distinct (market, grade) pairs when the
    file has both columns, and 36 models when the header lacks one of
    them; without the file the dict of price models is empty and 36 price
    models are reported active. *)
Theorem forecast_accuracy_inventory :
  forall w : World,
  exists r w',
    get_forecast_accuracy w = (Ok r, w')
    /\ (forall rows,
          production_forecast_summary (files w) = Some rows ->
          exists pm,
            production_models r = Models pm
            /\ map fst (by_region pm)
               = Pd.unique String.eqb (map pf_region rows)
            /\ pm_total_models pm
               = Pd.nunique String.eqb (map pf_region rows)
            /\ production_models_active (overall_performance r)
               = Pd.nunique String.eqb (map pf_region rows)
            /\ forall region,
                 Pd.lookup String.eqb region (by_region pm)
                 = option_map metric_of
                     (List.find (fun row => String.eqb (pf_region row) region)
                                (rev rows)))
    /\ (production_forecast_summary (files w) = None ->
        production_models r = NoModels
        /\ production_models_active (overall_performance r) = 0%nat)
    /\ (forall rows,
          price_forecast_summary (files w) = Some rows ->
          let counted :=
            if str_mem "market" (price_forecast_columns (files w))
               && str_mem "grade" (price_forecast_columns (files w))
            then Pd.nunique pair_eqb
                   (map (fun row => (fc_market row, fc_grade row)) rows)
            else 36%nat in
          price_models r
          = Models {| total_models := counted; model_type := "Prophet";
                      status := "active" |}
          /\ price_models_active (overall_performance r) = counted)
    /\ (price_forecast_summary (files w) = None ->
        price_models r = NoModels
        /\ price_models_active (overall_performance r) = 36%nat).
Proof.
  intros w. unfold get_forecast_accuracy, price_forecasts_columns. run_call.
  cbn [files].
  eexists. eexists. split; [reflexivity|].
  cbn [production_models price_models overall_performance
       production_models_active price_models_active].
  split; [|split; [|split]].
  - intros rows Hrows. rewrite Hrows. eexists. split; [reflexivity|].
    cbn [by_region pm_total_models].
    assert (Hkeys : map fst
              (fold_left
                 (fun acc row => Pd.dict_set (pf_region row) (metric_of row) acc)
                 rows [])
              = Pd.unique String.eqb (map pf_region rows)).
    { apply (keys_of_filled_dict RegionalMetric ProductionForecastRow
               pf_region metric_of rows [] []). reflexivity. }
    unfold metric_of in Hkeys.
    split; [exact Hkeys|].
    unfold Pd.nunique. rewrite <- Hkeys, length_map.
    split; [reflexivity|]. split; [reflexivity|].
    intros region.
    pose proof (lookup_in_filled_dict RegionalMetric ProductionForecastRow
                  pf_region metric_of region rows []) as Hlook.
    unfold metric_of in *. rewrite Hlook.
    destruct (List.find _ (rev rows)); reflexivity.
  - intros Hnone. rewrite Hnone. split; reflexivity.
  - intros rows Hrows. rewrite Hrows. split; reflexivity.
  - intros Hnone. rewrite Hnone. split; reflexivity.
Qed.

(** Three rows for two regions: the second row of Mbeya replaces the
    first. One price forecast of one market and grade counts one model; a
    price forecast file without the two key columns counts 36. *)
Lemma forecast_accuracy_inventory_witness :
  (exists r w' pm,
      get_forecast_accuracy
        (Sample.world Cases.files_repeated_region Sample.june_2024)
      = (Ok r, w')
      /\ production_models r = Models pm
      /\ map fst (by_region pm) = ["Mbeya"; "Iringa"]
      /\ pm_total_models pm = 2%nat
      /\ Pd.lookup String.eqb "Mbeya" (by_region pm)
         = Some (metric_of (Sample.forecast_row "Mbeya" 100 130 30))
      /\ price_models r = NoModels)
  /\ (exists r w',
         get_forecast_accuracy
           (Sample.world Cases.files_price_forecast Sample.june_2024)
         = (Ok r, w')
         /\ price_models_active (overall_performance r) = 1%nat)
  /\ (exists r w',
         get_forecast_accuracy
           (Sample.world Cases.files_forecast_without_keys Sample.june_2024)
         = (Ok r, w')
         /\ price_models r
            = Models {| total_models := 36; model_type := "Prophet";
                        status := "active" |}
         /\ price_models_active (overall_performance r) = 36%nat).
Proof.
  split; [|split].
  - destruct (forecast_accuracy_inventory
                (Sample.world Cases.files_repeated_region Sample.june_2024))
      as [r [w' [Hrun [Hprod [_ [_ Hnone]]]]]].
    destruct (Hprod _ eq_refl) as [pm [Hpm [Hkeys [Hcount [_ Hlook]]]]].
    exists r, w', pm. split; [exact Hrun|]. split; [exact Hpm|].
    split; [rewrite Hkeys; reflexivity|].
    split; [rewrite Hcount; reflexivity|].
    split; [rewrite Hlook; reflexivity|].
    apply Hnone. reflexivity.
  - destruct (forecast_accuracy_inventory
                (Sample.world Cases.files_price_forecast Sample.june_2024))
      as [r [w' [Hrun [_ [_ [Hprice _]]]]]].
    destruct (Hprice _ eq_refl) as [_ Hactive].
    exists r, w'. split; [exact Hrun|]. rewrite Hactive. reflexivity.
  - destruct (forecast_accuracy_inventory
                (Sample.world Cases.files_forecast_without_keys
                              Sample.june_2024))
      as [r [w' [Hrun [_ [_ [Hprice _]]]]]].
    destruct (Hprice _ eq_refl) as [Hmodels Hactive].
    exists r, w'. split; [exact Hrun|].
    split; [rewrite Hmodels | rewrite Hactive]; reflexivity.
Defined.

(* ---------------------------------------------------------------------- *)
(** ** Sorting and grouping *)

Section SortSpec.

Variables K R : Type.
Variable leb : K -> K -> bool.
Variable key : R -> K.
Hypothesis leb_total : forall a b, leb a b = true \/ leb b a = true.
Hypothesis leb_trans :
  forall a b c, leb a b = true -> leb b c = true -> leb a c = true.

Let key_le (x y : R) : Prop := leb (key x) (key y) = true.

Lemma In_insert_by_iff (r x : R) (l : list R) :
  In x (Pd.insert_by leb key r l) <-> x = r \/ In x l.
Proof.
  induction l as [|y l IH]; simpl.
  - intuition.
  - destruct (leb (key r) (key y)); simpl; intuition.
Qed.

Lemma In_sort_values_iff (x : R) (l : list R) :
  In x (Pd.sort_values leb key l) <-> In x l.
Proof.
  induction l as [|y l IH]; simpl; [tauto|].
  unfold Pd.sort_values in *. simpl. rewrite In_insert_by_iff, IH.
  intuition.
Qed.

Lemma insert_by_sorted (r : R) (l : list R) :
  StronglySorted key_le l -> StronglySorted key_le (Pd.insert_by leb key r l).
Proof.
  induction 1 as [|y l Hl IH Hy]; simpl.
  - constructor; constructor.
  - destruct (leb (key r) (key y)) eqn:E.
    + constructor; [constructor; assumption|].
      constructor; [exact E|].
      eapply Forall_impl; [|exact Hy].
      intros z Hz. unfold key_le in *. eapply leb_trans; eassumption.
    + constructor; [exact IH|].
      apply Forall_forall. intros z Hz. apply In_insert_by_iff in Hz.
      destruct Hz as [->|Hz].
      * destruct (leb_total (key r) (key y)) as [H|H]; [congruence|exact H].
      * rewrite Forall_forall in Hy. apply Hy, Hz.
Qed.

(** [sort_values] sorts: every row is followed by rows with a key at
    least as large. *)
Lemma sort_values_sorted (l : list R) :
  StronglySorted key_le (Pd.sort_values leb key l).
Proof.
  induction l as [|y l IH]; [constructor|].
  unfold Pd.sort_values in *. simpl. apply insert_by_sorted, IH.
Qed.

Lemma filter_sorted (p : R -> bool) (l : list R) :
  StronglySorted key_le l -> StronglySorted key_le (filter p l).
Proof.
  induction 1 as [|y l Hl IH Hy]; simpl; [constructor|].
  destruct (p y); [|exact IH].
  constructor; [exact IH|].
  apply Forall_forall. intros z Hz. apply filter_In in Hz.
  rewrite Forall_forall in Hy. apply Hy, Hz.
Qed.

(** The last row of a sorted table has the greatest key. *)
Lemma sorted_last_greatest (l : list R) (d x : R) :
  StronglySorted key_le l -> In x l -> key_le x (List.last l d).
Proof.
  induction 1 as [|y l Hl IH Hy]; [contradiction|].
  intros [->|Hx].
  - destruct l as [|z l]; simpl.
    + unfold key_le. destruct (leb_total (key x) (key x)); assumption.
    + rewrite Forall_forall in Hy. apply Hy.
      change (In (List.last (z :: l) d) (z :: l)).
      clear. revert z. induction l as [|a l IH]; intros z; simpl; auto.
      right. apply IH.
  - destruct l as [|z l]; [contradiction|]. apply IH, Hx.
Qed.

End SortSpec.

Lemma last_in (A : Type) (l : list A) (d : A) :
  l <> [] -> In (List.last l d) l.
Proof.
  induction l as [|a l IH]; [congruence|]. intros _.
  destruct l as [|b l]; simpl; auto. right. apply IH. discriminate.
Qed.

Lemma last_map (A B : Type) (f : A -> B) (l : list A) (d : A) (e : B) :
  l <> [] -> List.last (map f l) e = f (List.last l d).
Proof.
  induction l as [|a l IH]; [congruence|]. intros _.
  destruct l as [|b l]; [reflexivity|].
  change (List.last (map f (b :: l)) e = f (List.last (b :: l) d)).
  apply IH. discriminate.
Qed.

Section KeySpec.

Variable K : Type.
Variable eqb : K -> K -> bool.
Hypothesis eqb_eq : forall a b, eqb a b = true <-> a = b.

Lemma mem_In (k : K) (l : list K) :
  Pd.mem eqb k l = true <-> In k l.
Proof.
  induction l as [|x l IH]; simpl; [intuition discriminate|].
  rewrite orb_true_iff, IH, eqb_eq. intuition.
Qed.

Lemma unique_from_spec (l seen : list K) :
  NoDup (Pd.unique_from eqb seen l)
  /\ forall k, In k (Pd.unique_from eqb seen l) <-> In k l /\ ~ In k seen.
Proof.
  revert seen. induction l as [|x l IH]; intros seen; simpl.
  - split; [constructor | intuition].
  - destruct (Pd.mem eqb x seen) eqn:E.
    + apply mem_In in E. destruct (IH seen) as [Hn Hi]. split; [exact Hn|].
      intros k. rewrite Hi. intuition. subst. contradiction.
    + assert (Hx : ~ In x seen).
      { intros H. apply mem_In in H. congruence. }
      destruct (IH (x :: seen)) as [Hn Hi]. split.
      * constructor; [|exact Hn]. rewrite Hi. simpl. intuition.
      * intros k. simpl. rewrite Hi. simpl.
        destruct (eqb x k) eqn:Exk.
        -- apply eqb_eq in Exk. subst. intuition.
        -- assert (x <> k) by (intros Heq; apply eqb_eq in Heq; congruence).
           intuition.
Qed.

Lemma lookup_absent (V : Type) (k : K) (d : list (K * V)) :
  ~ In k (map fst d) -> Pd.lookup eqb k d = None.
Proof.
  induction d as [|[k' v] d IH]; simpl; [reflexivity|]. intros Hnot.
  destruct (eqb k k') eqn:E.
  - apply eqb_eq in E. subst. tauto.
  - apply IH. tauto.
Qed.

Lemma lookup_present (V : Type) (k : K) (d : list (K * V)) :
  In k (map fst d) -> exists v, Pd.lookup eqb k d = Some v /\ In (k, v) d.
Proof.
  induction d as [|[k' v] d IH]; simpl; [contradiction|]. intros Hin.
  destruct (eqb k k') eqn:E.
  - apply eqb_eq in E. subst. exists v. auto.
  - destruct Hin as [Heq|Hin].
    + subst k'. rewrite (proj2 (eqb_eq k k) eq_refl) in E. discriminate.
    + destruct (IH Hin) as [v' [Hl Hi]]. exists v'. auto.
Qed.

End KeySpec.

Section SortKeys.

Variable K : Type.
Variable leb : K -> K -> bool.

Lemma In_insert_key_iff (k x : K) (l : list K) :
  In x (Pd.insert_key leb k l) <-> x = k \/ In x l.
Proof.
  induction l as [|y l IH]; simpl.
  - intuition.
  - destruct (leb k y); simpl; intuition.
Qed.

Lemma sort_keys_spec (l : list K) :
  (NoDup l -> NoDup (Pd.sort_keys leb l))
  /\ forall k, In k (Pd.sort_keys leb l) <-> In k l.
Proof.
  induction l as [|x l [IHn IHi]]; simpl.
  - split; [auto | tauto].
  - assert (Hin : forall k, In k (Pd.sort_keys leb (x :: l)) <-> x = k \/ In k l).
    { intros k. unfold Pd.sort_keys in *. simpl.
      rewrite In_insert_key_iff, IHi. intuition. }
    split; [|exact Hin].
    intros Hnd. inversion Hnd as [|? ? Hx Hl]; subst.
    specialize (IHn Hl). unfold Pd.sort_keys in *. simpl.
    assert (Hx' : ~ In x (fold_right (Pd.insert_key leb) [] l)).
    { rewrite IHi. exact Hx. }
    clear - IHn Hx'. revert IHn Hx'.
    generalize (fold_right (Pd.insert_key leb) [] l) as s.
    induction s as [|y s IH]; simpl; intros Hs Hx.
    + constructor; [tauto | constructor].
    + destruct (leb x y).
      * constructor; [exact Hx | exact Hs].
      * inversion Hs as [|? ? Hy Hs']; subst. constructor.
        -- rewrite In_insert_key_iff. intuition.
        -- apply IH; [exact Hs' | intuition].
Qed.

End SortKeys.

Section GroupSpec.

Variables K R : Type.
Variable eqb leb : K -> K -> bool.
Variable key : R -> K.
Hypothesis eqb_eq : forall a b, eqb a b = true <-> a = b.

Lemma groupby_keys (rows : list R) :
  map fst (Pd.groupby eqb leb key rows)
  = Pd.sort_keys leb (Pd.unique eqb (map key rows)).
Proof. unfold Pd.groupby. rewrite map_map. simpl. apply map_id. Qed.

(** The groups of [groupby] have distinct keys, the keys of the rows. *)
Lemma groupby_spec (rows : list R) :
  NoDup (map fst (Pd.groupby eqb leb key rows))
  /\ forall k, In k (map fst (Pd.groupby eqb leb key rows))
               <-> In k (map key rows).
Proof.
  rewrite groupby_keys.
  destruct (sort_keys_spec _ leb (Pd.unique eqb (map key rows))) as [Hn Hi].
  destruct (unique_from_spec _ _ eqb_eq (map key rows) []) as [Hu Hui].
  split; [apply Hn, Hu|].
  intros k. rewrite Hi. unfold Pd.unique. rewrite Hui. simpl. tauto.
Qed.


Lemma groupby_nonempty (rows : list R) :
  rows <> [] -> Pd.groupby eqb leb key rows <> [].
Proof.
  destruct rows as [|r rows]; [congruence|]. intros _ Hnil.
  assert (H : In (key r) (map fst (Pd.groupby eqb leb key (r :: rows)))).
  { apply (proj2 (groupby_spec (r :: rows))). left. reflexivity. }
  rewrite Hnil in H. contradiction.
Qed.

End GroupSpec.

(** The table of latest records has one row for each warehouse of the
    storage table. *)
Lemma latest_ids_spec (storage_df : list StorageRow) :
  NoDup (map warehouse_id (latest_per_warehouse storage_df))
  /\ forall id : string,
       In id (map warehouse_id (latest_per_warehouse storage_df))
       <-> In id (map warehouse_id storage_df).
Proof.
  assert (Hids : map warehouse_id (latest_per_warehouse storage_df)
                 = map fst (Pd.groupby String.eqb String.leb warehouse_id
                              (Pd.sort_values Z.leb stor_date storage_df))).
  { unfold latest_per_warehouse. rewrite map_map. reflexivity. }
  rewrite Hids.
  destruct (groupby_spec _ _ _ String.leb warehouse_id
              String.eqb_eq (Pd.sort_values Z.leb stor_date storage_df))
    as [Hn Hi].
  split; [exact Hn|].
  intros id. rewrite Hi, !in_map_iff.
  split; intros [r [Hr Hin]]; exists r; (split; [exact Hr|]).
  - apply (proj1 (In_sort_values_iff _ _ Z.leb stor_date _ _)), Hin.
  - apply (proj2 (In_sort_values_iff _ _ Z.leb stor_date _ _)), Hin.
Qed.

Lemma Zleb_total (a b : Z) : (a <=? b) = true \/ (b <=? a) = true.
Proof. destruct (Z.leb_spec a b); [left|right]; [reflexivity|]. apply Z.leb_le. lia. Qed.

Lemma Zleb_trans (a b c : Z) :
  (a <=? b) = true -> (b <=? c) = true -> (a <=? c) = true.
Proof. rewrite !Z.leb_le. lia. Qed.

Lemma dropna_all_present (xs : list pyfloat) :
  Forall (fun x => notna x = true) xs -> dropna xs = xs.
Proof.
  induction 1 as [|x xs Hx _ IH]; [reflexivity|].
  unfold dropna in *. simpl. rewrite Hx, IH. reflexivity.
Qed.

(** The table of latest records has exactly one row for each warehouse
    of the storage table: no identifier twice, none left out, none added.
    Each row carries the greatest date recorded for its warehouse, a date
    of one of the warehouse's records; when no stored quantity or capacity
    is missing, the row is a record of the storage table. *)
Theorem latest_per_warehouse_keeps_latest :
  forall storage_df : list StorageRow,
    NoDup (map warehouse_id (latest_per_warehouse storage_df))
    /\ (forall id : string,
          In id (map warehouse_id (latest_per_warehouse storage_df))
          <-> In id (map warehouse_id storage_df))
    /\ forall r : StorageRow,
         In r (latest_per_warehouse storage_df) ->
         (exists r0, In r0 storage_df
                     /\ warehouse_id r0 = warehouse_id r
                     /\ stor_date r0 = stor_date r)
         /\ (forall r0, In r0 storage_df ->
                        warehouse_id r0 = warehouse_id r ->
                        stor_date r0 <= stor_date r)
         /\ ((forall r0, In r0 storage_df ->
                         notna (quantity_stored_tons r0) = true
                         /\ notna (capacity_tons r0) = true) ->
             In r storage_df).
Proof.
  intros storage_df.
  split; [apply latest_ids_spec|]. split; [apply latest_ids_spec|].
  intros r Hr.
  unfold latest_per_warehouse in Hr. apply in_map_iff in Hr.
  destruct Hr as [[k rows] [<- Hg]]. cbn [fst snd stor_date warehouse_id].
  unfold Pd.groupby in Hg. apply in_map_iff in Hg.
  destruct Hg as [k' [Heq Hk]]. inversion Heq; subst k' rows. clear Heq.
  set (sorted := Pd.sort_values Z.leb stor_date storage_df) in *.
  set (rows := filter (fun r => String.eqb (warehouse_id r) k) sorted).
  assert (Hsorted : StronglySorted
                      (fun x y => (stor_date x <=? stor_date y) = true) rows).
  { apply filter_sorted, sort_values_sorted.
    - apply Zleb_total.
    - apply Zleb_trans. }
  assert (Hne : rows <> []).
  { apply (proj1 (proj2 (sort_keys_spec _ String.leb _) _)) in Hk.
    apply (proj1 (proj2 (unique_from_spec _ _ String.eqb_eq _ []) _)) in Hk.
    destruct Hk as [Hk _].
    apply in_map_iff in Hk. destruct Hk as [x [Hx Hin]].
    intros Hnil. assert (Hxin : In x rows).
    { apply filter_In. split; [exact Hin|]. apply String.eqb_eq, Hx. }
    rewrite Hnil in Hxin. contradiction. }
  set (d := {| stor_date := 0; warehouse_id := ""; stor_region := "";
               quantity_stored_tons := NaN; capacity_tons := NaN |}).
  pose proof (last_in _ rows d Hne) as Hlast.
  apply filter_In in Hlast. destruct Hlast as [Hlast_in Hlast_id].
  apply String.eqb_eq in Hlast_id.
  rewrite (last_map _ _ stor_date rows d 0 Hne).
  split; [|split].
  - exists (List.last rows d). split; [|split; [exact Hlast_id | reflexivity]].
    apply (proj1 (In_sort_values_iff _ _ Z.leb stor_date _ _)), Hlast_in.
  - intros r0 Hin Hid.
    assert (Hr0 : In r0 rows).
    { apply filter_In. split.
      - apply (proj2 (In_sort_values_iff _ _ Z.leb stor_date _ _)), Hin.
      - apply String.eqb_eq, Hid. }
    apply Z.leb_le.
    apply (sorted_last_greatest _ _ Z.leb stor_date Zleb_total rows d r0
             Hsorted Hr0).
  - intros Hpresent.
    assert (Hall : forall x, In x rows ->
                     notna (quantity_stored_tons x) = true
                     /\ notna (capacity_tons x) = true).
    { intros x Hx. apply filter_In in Hx. destruct Hx as [Hx _].
      apply Hpresent.
      apply (proj1 (In_sort_values_iff _ _ Z.leb stor_date _ _)), Hx. }
    unfold Pd.last_valid.
    rewrite !dropna_all_present
      by (apply Forall_forall; intros y Hy; apply in_map_iff in Hy;
          destruct Hy as [x [<- Hx]]; apply Hall, Hx).
    rewrite (last_map _ _ stor_region rows d "" Hne).
    rewrite (last_map _ _ quantity_stored_tons rows d NaN Hne).
    rewrite (last_map _ _ capacity_tons rows d NaN Hne).
    rewrite <- Hlast_id.
    replace {| stor_date := stor_date (List.last rows d);
               warehouse_id := warehouse_id (List.last rows d);
               stor_region := stor_region (List.last rows d);
               quantity_stored_tons :=
                 quantity_stored_tons (List.last rows d);
               capacity_tons := capacity_tons (List.last rows d) |}
      with (List.last rows d) by (destruct (List.last rows d); reflexivity).
    apply (proj1 (In_sort_values_iff _ _ Z.leb stor_date _ _)), Hlast_in.
Qed.

(** The older record of the first warehouse is not the one kept. *)
Lemma latest_per_warehouse_keeps_latest_witness :
  In (Sample.storage_row (mk_date 2024 5 27) "WH-MBE-001" 95 100)
     Sample.three_warehouses
  /\ forall r0, In r0 Sample.three_warehouses ->
                warehouse_id r0 = "WH-MBE-001" ->
                stor_date r0 <= mk_date 2024 5 27.
Proof.
  destruct (latest_per_warehouse_keeps_latest Sample.three_warehouses)
    as [_ [_ Hlatest]].
  destruct (Hlatest
              (Sample.storage_row (mk_date 2024 5 27) "WH-MBE-001" 95 100))
    as [_ [Hmax Hin]].
  - vm_compute. tauto.
  - split; [|exact Hmax].
    apply Hin. intros r0 H. simpl in H.
    destruct H as [H|[H|[H|[H|[]]]]]; subst r0; split; reflexivity.
Defined.

(* ---------------------------------------------------------------------- *)
(** ** Storage status: categories and alerts *)

Lemma Qcompare_above (q : Q) (a b : Z) :
  a <= b -> Qcompare q (inject_Z b) = Gt -> Qcompare q (inject_Z a) = Gt.
Proof.
  intros Hab H. apply Qgt_alt. apply Qgt_alt in H.
  eapply Qle_lt_trans; [|exact H]. rewrite <- Zle_Qle. exact Hab.
Qed.

Lemma Qcompare_below (q : Q) (a b : Z) :
  a <= b -> Qcompare q (inject_Z a) = Lt -> Qcompare q (inject_Z b) = Lt.
Proof.
  intros Hab H. apply Qlt_alt. apply Qlt_alt in H.
  eapply Qlt_le_trans; [exact H|]. rewrite <- Zle_Qle. exact Hab.
Qed.

(** A warehouse falls in at most one of the three categories. *)
Lemma category_exclusive (r : WarehouseStatus) :
  (is_overstocked r = true ->
   is_understocked r = false /\ is_optimal r = false)
  /\ (is_understocked r = true -> is_optimal r = false).
Proof.
  unfold is_overstocked, is_understocked, is_optimal, fge, fle, fgt, flt, feq.
  destruct (ws_utilization_percent r) as [q| | |]; cbn;
    try (split; [intros _; split; reflexivity | try discriminate; reflexivity]).
  - split.
    + destruct (Qcompare q (inject_Z STORAGE_CRITICAL_HIGH)) eqn:E;
        try discriminate. intros _.
      rewrite (Qcompare_above q STORAGE_CRITICAL_LOW STORAGE_CRITICAL_HIGH)
        by (try exact E; discriminate).
      rewrite (Qcompare_above q STORAGE_OPTIMAL_MAX STORAGE_CRITICAL_HIGH)
        by (try exact E; discriminate).
      split; [reflexivity | apply andb_false_r].
    + destruct (Qcompare q (inject_Z STORAGE_CRITICAL_LOW)) eqn:E;
        try discriminate. intros _.
      rewrite (Qcompare_below q STORAGE_CRITICAL_LOW STORAGE_OPTIMAL_MIN)
        by (try exact E; discriminate).
      reflexivity.
  - split; [discriminate | reflexivity].
Qed.

Lemma exclusive_count (A : Type) (p q s : A -> bool) (l : list A) :
  (forall x, (p x = true -> q x = false /\ s x = false)
             /\ (q x = true -> s x = false)) ->
  (List.length (filter s l) + List.length (filter p l)
   + List.length (filter q l) <= List.length l)%nat.
Proof.
  intros H. induction l as [|x l IH]; simpl; [lia|].
  destruct (H x) as [Hp Hq].
  destruct (p x); [destruct (Hp eq_refl) as [-> ->]; simpl; lia|].
  destruct (q x); [rewrite (Hq eq_refl); simpl; lia|].
  destruct (s x); simpl; lia.
Qed.

Lemma filter_key_once (id : string) (l : list StorageRow) :
  NoDup (map warehouse_id l) ->
  (List.length (filter (fun r => String.eqb id (warehouse_id r)) l) <= 1)%nat
  /\ (In id (map warehouse_id l) ->
      exists r, filter (fun r => String.eqb id (warehouse_id r)) l = [r]
                /\ warehouse_id r = id).
Proof.
  induction l as [|x l IH]; simpl; intros Hnd.
  - split; [lia | contradiction].
  - inversion Hnd as [|? ? Hx Hl]; subst. destruct (IH Hl) as [Hle Hex].
    destruct (String.eqb_spec id (warehouse_id x)) as [->|Hne].
    + assert (Hnone : filter (fun r => String.eqb (warehouse_id x)
                                         (warehouse_id r)) l = []).
      { apply filter_none. intros y Hy. apply String.eqb_neq.
        intros Heq. apply Hx. rewrite Heq. apply in_map, Hy. }
      rewrite Hnone. split; [simpl; lia|]. intros _. exists x. auto.
    + split; [exact Hle|]. intros [H|H]; [congruence | exact (Hex H)].
Qed.

(** The storage status returns whenever the storage file has a record,
    and its counts fit together: the optimal, overstocked and understocked
    warehouses are disjoint groups of the active ones; a call for one
    warehouse counts at most one; there is one alert, with its kind's
    severity, for each of overstocked and understocked that is not empty,
    and it lists as many warehouses of the storage table as its category
    counts. *)
Theorem storage_status_counts :
  forall (w : World) (warehouse : option string)
         (storage_df : list StorageRow),
    STORAGE_DATA (files w) = Some storage_df ->
    storage_df <> [] ->
    exists rep w',
      get_storage_status warehouse w = (Ok rep, w')
      /\ (optimal (utilization_categories rep)
          + overstocked (utilization_categories rep)
          + understocked (utilization_categories rep)
          <= active_warehouses (national_summary rep))%nat
      /\ (given warehouse = true ->
          (active_warehouses (national_summary rep) <= 1)%nat)
      /\ (List.length (alerts rep) <= 2)%nat
      /\ (forall a, In a (alerts rep) ->
            (forall id, In id (warehouses a) ->
                        In id (map warehouse_id storage_df))
            /\ ((alert_type a = "overstocked" /\ severity a = "high"
                 /\ List.length (warehouses a)
                    = overstocked (utilization_categories rep))
                \/ (alert_type a = "understocked" /\ severity a = "medium"
                    /\ List.length (warehouses a)
                       = understocked (utilization_categories rep))))
      /\ ((0 < overstocked (utilization_categories rep))%nat <->
          exists a, In a (alerts rep) /\ alert_type a = "overstocked")
      /\ ((0 < understocked (utilization_categories rep))%nat <->
          exists a, In a (alerts rep) /\ alert_type a = "understocked").
Proof.
  intros w warehouse storage_df Hfile Hrows.
  unfold get_storage_status. run_call. rewrite Hfile.
  rewrite (series_round_rows _ _ storage_df _ Hrows). unfold ret.
  set (scoped := if given warehouse
                 then filter (fun r => arg_is warehouse (warehouse_id r))
                        (latest_per_warehouse storage_df)
                 else latest_per_warehouse storage_df).
  set (latest := map with_utilization scoped).
  assert (Hsub : forall p id,
             In id (map ws_warehouse_id (filter p latest)) ->
             In id (map warehouse_id storage_df)).
  { intros p id Hin. apply in_map_iff in Hin. destruct Hin as [s [<- Hs]].
    apply filter_In in Hs. destruct Hs as [Hs _]. unfold latest in Hs.
    apply in_map_iff in Hs. destruct Hs as [r [<- Hr]]. simpl.
    assert (Hr' : In r (latest_per_warehouse storage_df)).
    { unfold scoped in Hr. destruct (given warehouse); [|exact Hr].
      apply filter_In in Hr. tauto. }
    apply (proj2 (latest_ids_spec storage_df)).
    apply in_map, Hr'. }
  eexists. eexists. split; [reflexivity|].
  cbn [utilization_categories optimal overstocked understocked
       national_summary active_warehouses alerts].
  split; [apply exclusive_count, category_exclusive|].
  split.
  { intros Hgiven. unfold latest, scoped. rewrite Hgiven, length_map.
    destruct warehouse as [id|]; [|discriminate]. simpl.
    apply filter_key_once.
    apply (proj1 (latest_ids_spec storage_df)). }
  destruct (filter is_overstocked latest) as [|o os] eqn:Eo;
    destruct (filter is_understocked latest) as [|u us] eqn:Eu;
    cbn [List.length Nat.ltb Nat.leb app In alert_type severity warehouses].
  - split; [lia|]. split; [contradiction|].
    split; (split; [lia | intros [a [[] _]]]).
  - split; [lia|]. split.
    { intros a [<-|[]]. cbn [alert_type severity warehouses]. split.
      - rewrite <- Eu. apply Hsub.
      - right. rewrite length_map. auto. }
    split; split; try lia.
    + intros [a [[<-|[]] Ha]]. discriminate.
    + intros _. eexists. split; [left; reflexivity | reflexivity].
  - split; [lia|]. split.
    { intros a [<-|[]]. cbn [alert_type severity warehouses]. split.
      - rewrite <- Eo. apply Hsub.
      - left. rewrite length_map. auto. }
    split; split; try lia.
    + intros _. eexists. split; [left; reflexivity | reflexivity].
    + intros [a [[<-|[]] Ha]]. discriminate.
  - split; [lia|]. split.
    { intros a [<-|[<-|[]]]; cbn [alert_type severity warehouses]; split.
      - rewrite <- Eo. apply Hsub.
      - left. rewrite length_map. auto.
      - rewrite <- Eu. apply Hsub.
      - right. rewrite length_map. auto. }
    split; split; try lia.
    + intros _. eexists. split; [left; reflexivity | reflexivity].
    + intros _. eexists. split; [right; left; reflexivity | reflexivity].
Qed.

(** The three sample warehouses: one overstocked, one optimal, one
    understocked. *)
Lemma storage_status_counts_witness :
  exists rep w',
    get_storage_status None
      (Sample.world Sample.files_three_warehouses Sample.june_2024)
    = (Ok rep, w')
    /\ (optimal (utilization_categories rep)
        + overstocked (utilization_categories rep)
        + understocked (utilization_categories rep)
        <= active_warehouses (national_summary rep))%nat
    /\ (List.length (alerts rep) <= 2)%nat.
Proof.
  destruct (storage_status_counts
              (Sample.world Sample.files_three_warehouses Sample.june_2024)
              None Sample.three_warehouses eq_refl ltac:(discriminate))
    as [rep [w' [Hrun [Hsum [_ [Hlen _]]]]]].
  exists rep, w'. auto.
Defined.

(** A call for a warehouse of the storage table reports that warehouse:
    one active warehouse, and [warehouse_status] is its latest record. *)
Theorem storage_status_known_warehouse :
  forall (w : World) (storage_df : list StorageRow) (id : string),
    STORAGE_DATA (files w) = Some storage_df ->
    id <> "" ->
    In id (map warehouse_id storage_df) ->
    exists rep w' r,
      get_storage_status (Some id) w = (Ok rep, w')
      /\ ss_warehouse rep = id
      /\ In r (latest_per_warehouse storage_df)
      /\ warehouse_id r = id
      /\ warehouse_status rep = OneWarehouse (with_utilization r)
      /\ active_warehouses (national_summary rep) = 1%nat.
Proof.
  intros w storage_df id Hfile Hid Hin.
  assert (Hgiven : given (Some id) = true).
  { simpl. apply negb_true_iff, String.eqb_neq, Hid. }
  destruct (latest_ids_spec storage_df) as [Hnd Hids].
  destruct (filter_key_once id (latest_per_warehouse storage_df) Hnd)
    as [_ Hone].
  destruct (Hone (proj2 (Hids id) Hin)) as [r [Hr Hrid]].
  assert (Hrin : In r (latest_per_warehouse storage_df)).
  { assert (H : In r (filter (fun r => String.eqb id (warehouse_id r))
                        (latest_per_warehouse storage_df)))
      by (rewrite Hr; left; reflexivity).
    apply filter_In in H. tauto. }
  assert (Hrows : storage_df <> []) by (intros ->; contradiction).
  unfold get_storage_status. run_call. rewrite Hfile, Hgiven.
  cbn [arg_is]. rewrite Hr.
  rewrite (series_round_rows _ _ storage_df _ Hrows). unfold ret.
  eexists. eexists. exists r. split; [reflexivity|].
  cbn [ss_warehouse warehouse_status national_summary active_warehouses
       map List.length negb arg_or].
  destruct (String.eqb_spec id ""); [contradiction|].
  repeat match goal with |- _ /\ _ => split end; auto.
Qed.

Lemma storage_status_known_warehouse_witness :
  exists rep w' r,
    get_storage_status (Some "WH-MBE-001")
      (Sample.world Sample.files_three_warehouses Sample.june_2024)
    = (Ok rep, w')
    /\ ss_warehouse rep = "WH-MBE-001"
    /\ In r (latest_per_warehouse Sample.three_warehouses)
    /\ warehouse_id r = "WH-MBE-001"
    /\ warehouse_status rep = OneWarehouse (with_utilization r)
    /\ active_warehouses (national_summary rep) = 1%nat.
Proof.
  apply (storage_status_known_warehouse
           (Sample.world Sample.files_three_warehouses Sample.june_2024)
           Sample.three_warehouses "WH-MBE-001" eq_refl).
  - discriminate.
  - simpl. auto.
Defined.

(* ---------------------------------------------------------------------- *)
(** ** Production summary of one region *)

Lemma filter_find (A : Type) (p : A -> bool) (l : list A) :
  match List.find p l with
  | Some x => exists rest, filter p l = x :: rest
  | None => filter p l = []
  end.
Proof.
  induction l as [|a l IH]; simpl; [reflexivity|].
  destruct (p a); [eexists; reflexivity | exact IH].
Qed.

Lemma NoDup_all_same (A : Type) (a : A) (l : list A) :
  NoDup l -> (forall x, In x l -> x = a) -> (List.length l <= 1)%nat.
Proof.
  intros Hnd Hall. destruct l as [|x [|y l]]; simpl; try lia.
  exfalso. inversion Hnd as [|? ? Hx _]; subst. apply Hx.
  rewrite (Hall x), (Hall y); simpl; auto.
Qed.

(** A call for one region, when the forecast summary file is there,
    always carries a forecast comparison: the figures of the first row of
    the file for that region, or, when the file has no row for the region,
    the totals over all the regions of the file. The regional breakdown
    then has the region as its only key, if any. *)
Theorem production_summary_one_region :
  forall (w : World) (region period : string)
         (production_df : list ProductionRow)
         (forecasts_df : list ProductionForecastRow),
    PRODUCTION_DATA (files w) = Some production_df ->
    production_forecast_summary (files w) = Some forecasts_df ->
    region <> "" ->
    exists r w',
      get_production_summary (Some region) period w = (Ok r, w')
      /\ ps_region r = region
      /\ (forall k v, In (k, v) (ps_regional_breakdown r) -> k = region)
      /\ (List.length (ps_regional_breakdown r) <= 1)%nat
      /\ (forall first,
            List.find (fun row => String.eqb region (pf_region row))
                      forecasts_df = Some first ->
            ps_forecast_comparison r
            = Some {| forecast_avg_tons :=
                        round (forecast_avg first) DECIMAL_PLACES_quantity;
                      historical_avg_tons :=
                        round (historical_avg first) DECIMAL_PLACES_quantity;
                      growth_percent :=
                        round (growth_pct first)
                              DECIMAL_PLACES_percentage |})
      /\ ((forall row, In row forecasts_df -> pf_region row <> region) ->
          let forecast_total := sum (map forecast_avg forecasts_df) in
          let historical_total := sum (map historical_avg forecasts_df) in
          ps_forecast_comparison r
          = Some {| forecast_avg_tons :=
                      round forecast_total DECIMAL_PLACES_quantity;
                    historical_avg_tons :=
                      round historical_total DECIMAL_PLACES_quantity;
                    growth_percent :=
                      round (percent_of
                               (fsub forecast_total historical_total)
                               historical_total)
                            DECIMAL_PLACES_percentage |}).
Proof.
  intros w region period production_df forecasts_df Hp Hf Hregion.
  assert (Hgiven : given (Some region) = true).
  { simpl. apply negb_true_iff, String.eqb_neq, Hregion. }
  unfold get_production_summary, production_forecast_join. run_call.
  rewrite Hp, Hf, Hgiven. cbn [arg_is arg_or files clock ticks].
  destruct (String.eqb_spec region ""); [contradiction|].
  set (scoped := filter (fun r => String.eqb region (prod_region r))
                        production_df).
  set (cutoff := clock w (ticks w) - timedelta (period_days period)).
  set (prod_period := filter (fun r => cutoff <=? prod_date r) scoped).
  assert (Hkeys : forall k,
             In k (map fst (Pd.groupby String.eqb String.leb prod_region
                              prod_period)) -> k = region).
  { intros k Hk.
    apply (proj2 (groupby_spec _ _ _ String.leb prod_region String.eqb_eq
                    prod_period)) in Hk.
    apply in_map_iff in Hk. destruct Hk as [row [<- Hrow]].
    unfold prod_period, scoped in Hrow.
    apply filter_In in Hrow. destruct Hrow as [Hrow _].
    apply filter_In in Hrow. destruct Hrow as [_ Hrow].
    symmetry. apply String.eqb_eq, Hrow. }
  pose proof (filter_find _
                (fun row => String.eqb region (pf_region row)) forecasts_df)
    as Hfind.
  destruct (List.find (fun row => String.eqb region (pf_region row))
                      forecasts_df) as [first|] eqn:Efind.
  - destruct Hfind as [rest Hrest]. rewrite Hrest.
    eexists. eexists. split; [reflexivity|].
    cbn [ps_region ps_regional_breakdown ps_forecast_comparison].
    split; [reflexivity|]. split; [|split; [|split]].
    + intros k v Hin. apply Hkeys. apply in_map_iff in Hin.
      destruct Hin as [g [Hg Hin]]. inversion Hg; subst.
      apply in_map, Hin.
    + rewrite length_map, <- (length_map fst).
      apply (NoDup_all_same _ region); [|exact Hkeys].
      apply (groupby_spec _ _ _ String.leb prod_region String.eqb_eq).
    + intros first' Hfirst. inversion Hfirst; subst. reflexivity.
    + intros Hnone. exfalso. apply find_some in Efind.
      destruct Efind as [Hin Heq]. apply (Hnone first Hin).
      symmetry. apply String.eqb_eq, Heq.
  - rewrite Hfind.
    eexists. eexists. split; [reflexivity|].
    cbn [ps_region ps_regional_breakdown ps_forecast_comparison].
    split; [reflexivity|]. split; [|split; [|split]].
    + intros k v Hin. apply Hkeys. apply in_map_iff in Hin.
      destruct Hin as [g [Hg Hin]]. inversion Hg; subst.
      apply in_map, Hin.
    + rewrite length_map, <- (length_map fst).
      apply (NoDup_all_same _ region); [|exact Hkeys].
      apply (groupby_spec _ _ _ String.leb prod_region String.eqb_eq).
    + discriminate.
    + intros _. reflexivity.
Qed.

(** Dodoma has production records in neither file: the totals of Mbeya
    and Iringa are reported as its forecast. *)
Lemma production_summary_one_region_witness :
  exists r w',
    get_production_summary (Some "Dodoma") "current"
      (Sample.world Cases.files_two_regions Sample.june_2024) = (Ok r, w')
    /\ ps_region r = "Dodoma"
    /\ ps_regional_breakdown r = []
    /\ ps_forecast_comparison r
       = Some {| forecast_avg_tons := of_Z 230;
                 historical_avg_tons := of_Z 200;
                 growth_percent := of_Z 15 |}.
Proof.
  destruct (production_summary_one_region
              (Sample.world Cases.files_two_regions Sample.june_2024)
              "Dodoma" "current" _ _ eq_refl eq_refl)
    as [r [w' [Hrun [Hreg [Hkeys [_ [_ Hagg]]]]]]].
  - discriminate.
  - exists r, w'. split; [exact Hrun|]. split; [exact Hreg|]. split.
    + vm_compute in Hrun. inversion Hrun. reflexivity.
    + rewrite Hagg; [vm_compute; reflexivity|].
      simpl. intros row [H|[H|[]]]; subst row; discriminate.
Defined.

(* ---------------------------------------------------------------------- *)
(** ** The month of the price forecasts *)






(* ---------------------------------------------------------------------- *)
(** ** The batch entry point *)

Lemma run_try_entry (validator : DataFrame -> M (ValidationResult * DataFrame))
      (path text : string) (table : option DataFrame) (w : World) :
  exists entry w',
    try_except
      (bind (read_raw path table)
            (fun df => bind (validator df) (fun out => ret (fst out))))
      (fun _ => ret (load_failure text)) w = (Ok entry, w')
    /\ batch_entry validator table text w entry w'.
Proof.
  unfold try_except, bind, read_raw, batch_entry, ret, raise.
  destruct table as [df|].
  - destruct (validator df w) as [[out|e] w1]; eexists; eexists; split;
      try reflexivity; split; reflexivity.
  - eexists. eexists. split; [reflexivity | split; reflexivity].
Qed.

(** The batch validation never raises: whatever the three files hold, and
    whether or not they can be read, it returns the three entries
    [production], [price], [storage] in this order. An entry is the
    validator's result; when the file is missing or the validator itself
    raises, it is the single error "Failed to load ... data". *)
Theorem validate_all_data_never_raises :
  forall (to_datetime : column -> option (list (option datetime)))
         (raw : RawFiles) (w : World),
    exists production price storage w1 w2 w',
      validate_all_data to_datetime raw w
      = (Ok [("production", production); ("price", price);
             ("storage", storage)], w')
      /\ batch_entry (validate_production_data to_datetime)
           (raw_production raw) "Failed to load production data: "
           w production w1
      /\ batch_entry (validate_price_data to_datetime)
           (raw_price raw) "Failed to load price data: " w1 price w2
      /\ batch_entry (validate_storage_data to_datetime)
           (raw_storage raw) "Failed to load storage data: " w2 storage w'.
Proof.
  intros to_datetime raw w. unfold validate_all_data.
  destruct (run_try_entry (validate_production_data to_datetime)
              "data/maize_production.csv" "Failed to load production data: "
              (raw_production raw) w) as [production [w1 [Hrun1 H1]]].
  destruct (run_try_entry (validate_price_data to_datetime)
              "data/maize_prices.csv" "Failed to load price data: "
              (raw_price raw) w1) as [price [w2 [Hrun2 H2]]].
  destruct (run_try_entry (validate_storage_data to_datetime)
              "data/maize_storage.csv" "Failed to load storage data: "
              (raw_storage raw) w2) as [storage [w' [Hrun3 H3]]].
  exists production, price, storage, w1, w2, w'.
  rewrite (run_bind _ _ _ _ _ Hrun1), (run_bind _ _ _ _ _ Hrun2),
    (run_bind _ _ _ _ _ Hrun3).
  repeat match goal with |- _ /\ _ => split end; auto.
Qed.

(* ---------------------------------------------------------------------- *)
(** ** The first checks of the validators *)

(* ---------------------------------------------------------------------- *)
(** ** The first checks of the validators *)

Lemma missing_from_spec (required : list string) (df : DataFrame) (c : string) :
  In c (missing_from required df) <-> In c required /\ ~ In c (columns df).
Proof.
  unfold missing_from, str_mem. rewrite filter_In, negb_true_iff.
  rewrite <- (mem_In _ _ String.eqb_eq c (columns df)).
  destruct (Pd.mem String.eqb c (columns df)); intuition congruence.
Qed.

Lemma length_pos (A : Type) (l : list A) :
  l <> [] -> (0 <? List.length l)%nat = true.
Proof. destruct l; [congruence | reflexivity]. Qed.

Lemma lookup_columns (name : string) (c : column) (df : DataFrame) :
  Pd.lookup String.eqb name (cols df) = Some c -> In name (columns df).
Proof.
  intros H. apply (mem_In _ _ String.eqb_eq). exact (lookup_mem _ _ _ H).
Qed.

Lemma get_col_present (name : string) (df : DataFrame) (required : list string) :
  missing_from required df = [] -> In name required ->
  exists c, Pd.lookup String.eqb name (cols df) = Some c.
Proof.
  intros Hmiss Hin.
  destruct (Pd.lookup String.eqb name (cols df)) as [c|] eqn:E;
    [exists c; reflexivity|].
  exfalso.
  assert (H : In name (missing_from required df)).
  { apply missing_from_spec. split; [exact Hin|]. intros Hc.
    unfold columns in Hc.
    destruct (lookup_present _ _ String.eqb_eq _ name (cols df) Hc)
      as [v [Hv _]]. congruence. }
  rewrite Hmiss in H. contradiction.
Qed.

(** The validators stop at the first of their initial checks that fails,
    before the clock is read and before the table is assigned to. On an
    empty table the result is the single error "... data is empty". On a
    table without some required column it is the single error that lists
    the required columns that are absent. When the date column does not
    parse it is the single error "Invalid date format". The forecast
    validator takes every type other than "production" for a price
    forecast. *)
Theorem validators_stop_at_first_failure :
  forall (to_datetime : column -> option (list (option datetime)))
         (df : DataFrame) (w : World),
    let empty (text : string) :=
      (Ok (only_error [Lit text], df), w) in
    let without (required : list string) :=
      (Ok (only_error [Lit "Missing required columns: ";
                       FSet (missing_from required df)], df), w) in
    let bad_date :=
      (Ok (only_error [Lit "Invalid date format: "; FException], df), w) in
    let first_checks (validator : DataFrame -> M (ValidationResult * DataFrame))
                     (text : string) (required : list string) :=
      (nrows df = 0%nat -> validator df w = empty text)
      /\ (nrows df <> 0%nat -> missing_from required df <> [] ->
          validator df w = without required)
      /\ (nrows df <> 0%nat -> missing_from required df = [] ->
          forall date,
            Pd.lookup String.eqb "date" (cols df) = Some date ->
            to_datetime date = None ->
            validator df w = bad_date) in
    first_checks (validate_production_data to_datetime)
                 "Production data is empty"
                 ["date"; "region"; "quantity_tons"]
    /\ first_checks (validate_price_data to_datetime)
                    "Price data is empty"
                    ["date"; "market"; "price_per_kg_tzs"; "quality_grade"]
    /\ first_checks (validate_storage_data to_datetime)
                    "Storage data is empty"
                    ["date"; "warehouse_id"; "quantity_stored_tons";
                     "capacity_tons"]
    /\ forall forecast_type : string,
         let required :=
           if String.eqb forecast_type "production"
           then ["ds"; "yhat"; "yhat_lower"; "yhat_upper"; "region"]
           else ["month"; "yhat"; "yhat_lower"; "yhat_upper"; "market";
                 "grade"] in
         (nrows df = 0%nat ->
          validate_forecast_data df forecast_type w
          = empty "Forecast data is empty")
         /\ (nrows df <> 0%nat -> missing_from required df <> [] ->
             validate_forecast_data df forecast_type w = without required).
Proof.
  intros to_datetime df w empty without bad_date first_checks.
  unfold first_checks, empty, without, bad_date.
  unfold validate_production_data, validate_price_data,
    validate_storage_data, validate_forecast_data.
  destruct (Nat.eqb_spec (nrows df) 0) as [Hrows|Hrows]; cbv zeta.
  - repeat match goal with
           | |- _ /\ _ => split
           | |- forall _, _ => intro
           end; try contradiction; reflexivity.
  - repeat match goal with
           | |- _ /\ _ => split
           | |- forall _ : string, _ => intro
           end; try (intros H; contradiction).
    all: intros _.
    all: try (intros Hmiss; rewrite (length_pos _ _ Hmiss); reflexivity).
    all: intros Hmiss date Hdate Hparse; rewrite Hmiss;
      change (0 <? List.length (@nil string))%nat with false; cbv iota;
      run_step; rewrite Hparse; reflexivity.
Qed.

(** A table without rows, and a table of one row that has only a date. *)
Lemma validators_stop_at_first_failure_witness :
  validate_storage_data to_datetime_iso {| nrows := 0; cols := [] |}
    (Sample.world Sample.files_three_warehouses Sample.june_2024)
  = (Ok (only_error [Lit "Storage data is empty"],
         {| nrows := 0; cols := [] |}),
     Sample.world Sample.files_three_warehouses Sample.june_2024)
  /\ validate_production_data to_datetime_iso
       {| nrows := 1; cols := [("date", Object [Some "2024-05-27"])] |}
       (Sample.world Sample.files_three_warehouses Sample.june_2024)
     = (Ok (only_error [Lit "Missing required columns: ";
                        FSet ["region"; "quantity_tons"]],
            {| nrows := 1; cols := [("date", Object [Some "2024-05-27"])] |}),
        Sample.world Sample.files_three_warehouses Sample.june_2024).
Proof.
  split.
  - apply (validators_stop_at_first_failure to_datetime_iso
             {| nrows := 0; cols := [] |}
             (Sample.world Sample.files_three_warehouses Sample.june_2024)).
    reflexivity.
  - apply (validators_stop_at_first_failure to_datetime_iso
             {| nrows := 1; cols := [("date", Object [Some "2024-05-27"])] |}
             (Sample.world Sample.files_three_warehouses Sample.june_2024));
      discriminate.
Defined.

(* ---------------------------------------------------------------------- *)
(** ** When a result is valid *)

Lemma run_now (B : Type) (f : datetime -> M B) (w : World) :
  bind datetime_now f w
  = f (clock w (ticks w))
      {| files := files w; clock := clock w; ticks := S (ticks w) |}.
Proof. reflexivity. Qed.

Lemma is_valid_iff (r : ValidationResult) :
  is_valid r = true <-> errors r = [].
Proof.
  unfold is_valid. destruct (errors r); simpl; split; congruence.
Qed.

Lemma errors_error_if (c : bool) (m : message) (r : ValidationResult) :
  errors (error_if c m r) = (errors r ++ if c then [m] else [])%list.
Proof. destruct c; simpl; [reflexivity | rewrite app_nil_r; reflexivity]. Qed.

Lemma errors_grade_hierarchy rows (ms : list value) (r : ValidationResult) :
  errors (fold_left (grade_hierarchy rows) ms r) = errors r.
Proof.
  revert r. induction ms as [|m ms IH]; intros r; simpl; [reflexivity|].
  rewrite IH. unfold grade_hierarchy. rewrite !errors_warning_if.
  reflexivity.
Qed.

Lemma app_if_nil (A : Type) (l : list A) (c : bool) (m : A) :
  (l ++ if c then [m] else [])%list = [] <-> l = [] /\ c = false.
Proof.
  destruct c.
  - split; [intros H; apply app_eq_nil in H; destruct H; discriminate
           | intros [_ H]; discriminate].
  - rewrite app_nil_r. intuition.
Qed.

Lemma app_nil_iff (A : Type) (l1 l2 : list A) :
  (l1 ++ l2)%list = [] <-> l1 = [] /\ l2 = [].
Proof.
  split; [apply app_eq_nil | intros [-> ->]; reflexivity].
Qed.

Lemma length_pos_false (A : Type) (l : list A) :
  (0 <? List.length l)%nat = false <-> l = [].
Proof. destruct l; simpl; split; intros H; try reflexivity; discriminate. Qed.

Lemma count_true_zero (bs : list bool) :
  (0 <? count_true bs)%nat = false <-> forall b, In b bs -> b = false.
Proof.
  unfold count_true. rewrite length_pos_false. split.
  - intros H b Hb. destruct b; [|reflexivity].
    assert (Hin : In true (filter (fun b => b) bs))
      by (apply filter_In; auto).
    rewrite H in Hin. contradiction.
  - intros H. apply filter_none. intros b Hb. apply H, Hb.
Qed.

Lemma count_if_zero (p : pyfloat -> bool) (xs : list pyfloat) :
  (0 <? count_if p xs)%nat = false <-> forall x, In x xs -> p x = false.
Proof.
  unfold count_if. rewrite count_true_zero. split.
  - intros H x Hx. apply H. apply in_map, Hx.
  - intros H b Hb. apply in_map_iff in Hb. destruct Hb as [x [<- Hx]].
    apply H, Hx.
Qed.

Lemma count_pairs_zero (p : pyfloat -> pyfloat -> bool) (xs ys : list pyfloat) :
  (0 <? count_pairs p xs ys)%nat = false
  <-> forall x y, In (x, y) (combine xs ys) -> p x y = false.
Proof.
  unfold count_pairs. rewrite count_true_zero. split.
  - intros H x y Hxy. apply (H (p x y)).
    apply in_map_iff. exists (x, y). auto.
  - intros H b Hb. apply in_map_iff in Hb. destruct Hb as [[x y] [<- Hxy]].
    apply H, Hxy.
Qed.

(** No offending value: every cell is text and one of the names allowed;
    a missing cell offends. *)
Lemma not_in_nil (allowed : list string) (c : column) :
  (0 <? List.length (not_in allowed c))%nat = false
  <-> forall v, In v (values c) -> exists s, v = VStr s /\ In s allowed.
Proof.
  rewrite length_pos_false. unfold not_in. split.
  - intros H v Hv.
    assert (Hok : match v with
                  | VStr s => negb (str_mem s allowed)
                  | _ => true
                  end = false).
    { destruct (match v with
                | VStr s => negb (str_mem s allowed)
                | _ => true
                end) eqn:E; [|reflexivity].
      exfalso.
      assert (Hin : In v (filter (fun v => match v with
                                           | VStr s => negb (str_mem s allowed)
                                           | _ => true
                                           end) (values c)))
        by (apply filter_In; split; [exact Hv | exact E]).
      rewrite H in Hin. contradiction. }
    destruct v as [q|b|s|t|]; try discriminate.
    exists s. split; [reflexivity|].
    apply (mem_In _ _ String.eqb_eq). apply negb_false_iff, Hok.
  - intros H. apply filter_none. intros v Hv.
    destruct (H v Hv) as [s [-> Hs]].
    apply (mem_In _ _ String.eqb_eq) in Hs. unfold str_mem. rewrite Hs.
    reflexivity.
Qed.

(** The audit adds no error: no column has more than 20% of its cells
    missing. *)
Lemma audit_errors_nil (df : DataFrame) :
  flat_map (audit_errors_of df) (cols df) = []
  <-> forall name c, In (name, c) (cols df) ->
                     fgt (missing_pct df c) (of_Z 20) = false.
Proof.
  split.
  - intros H name c Hin.
    destruct (fgt (missing_pct df c) (of_Z 20)) eqn:E; [|reflexivity].
    exfalso.
    assert (Hnull : (0 <? count_null c)%nat = true).
    { destruct (count_null c) eqn:Ec; [|reflexivity].
      destruct (missing_pct_without_null df c Ec) as [Hp|Hp];
        rewrite Hp in E; discriminate. }
    assert (Hm : In (missing_values_message name (missing_pct df c))
                   (flat_map (audit_errors_of df) (cols df))).
    { apply in_flat_map. exists (name, c). split; [exact Hin|].
      unfold audit_errors_of. cbn [fst snd]. rewrite Hnull, E.
      left. reflexivity. }
    rewrite H in Hm. contradiction.
  - intros H. apply flat_map_nil. intros [name c] Hin.
    unfold audit_errors_of. cbn [fst snd]. rewrite (H name c Hin).
    rewrite andb_false_r. reflexivity.
Qed.

Section Validity.

Variable to_datetime : column -> option (list (option datetime)).

(** On a production table that passes the three initial checks and has a
    numeric quantity column, the validator returns, and its result is
    valid exactly when every region cell names a known region, no quantity
    is negative and no column of the table, the date column as parsed, has
    more than 20% of its cells missing. Zero quantities, outliers and
    future dates never make a result invalid. *)
Theorem production_validity :
  forall (df : DataFrame) (w : World) (date region : column)
         (parsed : list (option datetime)) (quantity : list pyfloat),
    nrows df <> 0%nat ->
    Pd.lookup String.eqb "date" (cols df) = Some date ->
    Pd.lookup String.eqb "region" (cols df) = Some region ->
    Pd.lookup String.eqb "quantity_tons" (cols df) = Some (Float64 quantity) ->
    to_datetime date = Some parsed ->
    exists r w',
      validate_production_data to_datetime df w
      = (Ok (r, set_col "date" (Datetime64 parsed) df), w')
      /\ (is_valid r = true <->
          (forall v, In v (values region) ->
                     exists s, v = VStr s /\ In s REGIONS)
          /\ (forall x, In x quantity -> flt x (of_Z 0) = false)
          /\ (forall name c,
                In (name, c) (cols (set_col "date" (Datetime64 parsed) df)) ->
                fgt (missing_pct df c) (of_Z 20) = false)).
Proof.
  intros df w date region parsed quantity Hrows Hdate Hregion Hq Hparse.
  unfold validate_production_data.
  apply Nat.eqb_neq in Hrows. rewrite Hrows.
  assert (Hmiss : missing_from ["date"; "region"; "quantity_tons"] df = []).
  { unfold missing_from, columns. cbn [filter].
    rewrite (lookup_mem _ _ _ Hdate), (lookup_mem _ _ _ Hregion),
      (lookup_mem _ _ _ Hq). reflexivity. }
  cbv zeta. rewrite Hmiss.
  change (0 <? List.length (@nil string))%nat with false. cbv iota.
  run_step. rewrite Hparse. cbv beta iota zeta.
  run_step. rewrite run_now. do 2 run_step. unfold ret.
  eexists. eexists. split; [reflexivity|].
  rewrite is_valid_iff. cbn [errors add_info].
  rewrite audit_errors, !errors_warning_if, !errors_error_if,
    !errors_warning_if.
  cbn [errors new_result].
  rewrite app_nil_iff, !app_if_nil.
  rewrite <- (not_in_nil REGIONS region).
  rewrite <- (count_if_zero (fun x => flt x (of_Z 0)) quantity).
  rewrite <- (audit_errors_nil (set_col "date" (Datetime64 parsed) df)).
  tauto.
Qed.

(** On a price table that passes the three initial checks and has a
    numeric price column, the validator returns, and its result is valid
    exactly when every market cell names a known market, every grade cell
    a known grade, no price is zero or negative and no column has more
    than 20% of its cells missing. Prices outside the normal range and
    inverted grade prices never make a result invalid. *)
Theorem price_validity :
  forall (df : DataFrame) (w : World) (date market grade : column)
         (parsed : list (option datetime)) (price : list pyfloat),
    nrows df <> 0%nat ->
    Pd.lookup String.eqb "date" (cols df) = Some date ->
    Pd.lookup String.eqb "market" (cols df) = Some market ->
    Pd.lookup String.eqb "quality_grade" (cols df) = Some grade ->
    Pd.lookup String.eqb "price_per_kg_tzs" (cols df) = Some (Float64 price) ->
    to_datetime date = Some parsed ->
    exists r w',
      validate_price_data to_datetime df w
      = (Ok (r, set_col "date" (Datetime64 parsed) df), w')
      /\ (is_valid r = true <->
          (forall v, In v (values market) ->
                     exists s, v = VStr s /\ In s MARKETS)
          /\ (forall v, In v (values grade) ->
                        exists s, v = VStr s /\ In s QUALITY_GRADES)
          /\ (forall x, In x price -> fle x (of_Z 0) = false)
          /\ (forall name c,
                In (name, c) (cols (set_col "date" (Datetime64 parsed) df)) ->
                fgt (missing_pct df c) (of_Z 20) = false)).
Proof.
  intros df w date market grade parsed price
         Hrows Hdate Hmarket Hgrade Hprice Hparse.
  unfold validate_price_data.
  apply Nat.eqb_neq in Hrows. rewrite Hrows.
  assert (Hmiss : missing_from
                    ["date"; "market"; "price_per_kg_tzs"; "quality_grade"]
                    df = []).
  { unfold missing_from, columns. cbn [filter].
    rewrite (lookup_mem _ _ _ Hdate), (lookup_mem _ _ _ Hmarket),
      (lookup_mem _ _ _ Hgrade), (lookup_mem _ _ _ Hprice). reflexivity. }
  cbv zeta. rewrite Hmiss.
  change (0 <? List.length (@nil string))%nat with false. cbv iota.
  run_step. rewrite Hparse. cbv beta iota zeta.
  run_step. rewrite run_now. do 3 run_step. unfold ret.
  eexists. eexists. split; [reflexivity|].
  rewrite is_valid_iff. cbn [errors add_info].
  rewrite audit_errors, errors_grade_hierarchy, !errors_warning_if,
    !errors_error_if, !errors_warning_if.
  cbn [errors new_result].
  rewrite app_nil_iff, !app_if_nil.
  rewrite <- (not_in_nil MARKETS market).
  rewrite <- (not_in_nil QUALITY_GRADES grade).
  rewrite <- (count_if_zero (fun x => fle x (of_Z 0)) price).
  rewrite <- (audit_errors_nil (set_col "date" (Datetime64 parsed) df)).
  tauto.
Qed.

End Validity.

(** The forecast validator never reads the clock and never assigns to the
    table. On a forecast table that passes the two initial checks and has
    numeric forecast columns it returns, and its result is valid exactly
    when no forecast is negative and no lower bound exceeds its upper
    bound; missing cells are not audited. It reports three info lines for
    the type "production" and four for every other type. *)
Theorem forecast_validity :
  forall (df : DataFrame) (forecast_type : string) (w : World)
         (yhat yhat_lower yhat_upper : list pyfloat),
    nrows df <> 0%nat ->
    missing_from
      (if String.eqb forecast_type "production"
       then ["ds"; "yhat"; "yhat_lower"; "yhat_upper"; "region"]
       else ["month"; "yhat"; "yhat_lower"; "yhat_upper"; "market"; "grade"])
      df = [] ->
    Pd.lookup String.eqb "yhat" (cols df) = Some (Float64 yhat) ->
    Pd.lookup String.eqb "yhat_lower" (cols df) = Some (Float64 yhat_lower) ->
    Pd.lookup String.eqb "yhat_upper" (cols df) = Some (Float64 yhat_upper) ->
    exists r,
      validate_forecast_data df forecast_type w = (Ok (r, df), w)
      /\ (is_valid r = true <->
          (forall x, In x yhat -> flt x (of_Z 0) = false)
          /\ (forall lo up, In (lo, up) (combine yhat_lower yhat_upper) ->
                            fgt lo up = false))
      /\ List.length (info r)
         = if String.eqb forecast_type "production" then 3%nat else 4%nat.
Proof.
  intros df forecast_type w yhat yhat_lower yhat_upper
         Hrows Hmiss Hy Hlo Hup.
  unfold validate_forecast_data.
  apply Nat.eqb_neq in Hrows. rewrite Hrows. cbv zeta. rewrite Hmiss.
  change (0 <? List.length (@nil string))%nat with false. cbv iota.
  do 3 run_step.
  assert (Hvalid :
            forall r0 : ValidationResult,
              errors r0
              = errors
                  (error_if (0 <? count_pairs fgt yhat_lower yhat_upper)%nat
                     [FNat (count_pairs fgt yhat_lower yhat_upper);
                      Lit " forecasts have invalid confidence intervals (lower > upper)"]
                     (error_if (0 <? count_if (fun x => flt x (of_Z 0)) yhat)%nat
                        [FNat (count_if (fun x => flt x (of_Z 0)) yhat);
                         Lit " forecasts have negative values"] new_result)) ->
              is_valid r0 = true <->
              (forall x, In x yhat -> flt x (of_Z 0) = false)
              /\ (forall lo up, In (lo, up) (combine yhat_lower yhat_upper) ->
                                fgt lo up = false)).
  { intros r0 Hr0. rewrite is_valid_iff, Hr0, !errors_error_if.
    cbn [errors new_result]. rewrite !app_if_nil.
    rewrite <- (count_if_zero (fun x => flt x (of_Z 0)) yhat).
    rewrite <- (count_pairs_zero fgt yhat_lower yhat_upper).
    tauto. }
  destruct (String.eqb forecast_type "production") eqn:Etype.
  - destruct (get_col_present "region" df _ Hmiss) as [region Hregion];
      [simpl; tauto|].
    run_step. unfold ret. eexists. split; [reflexivity|]. split.
    + apply Hvalid. cbn [errors add_info]. rewrite errors_warning_if.
      reflexivity.
    + cbn [info add_info]. rewrite !length_app.
      destruct (0 <? _)%nat; destruct (0 <? _)%nat; destruct (0 <? _)%nat;
        reflexivity.
  - destruct (get_col_present "market" df _ Hmiss) as [market Hmarket];
      [simpl; tauto|].
    destruct (get_col_present "grade" df _ Hmiss) as [grade Hgrade];
      [simpl; tauto|].
    do 2 run_step. unfold ret. eexists. split; [reflexivity|]. split.
    + apply Hvalid. cbn [errors add_info]. rewrite errors_warning_if.
      reflexivity.
    + cbn [info add_info]. rewrite !length_app.
      destruct (0 <? _)%nat; destruct (0 <? _)%nat; destruct (0 <? _)%nat;
        reflexivity.
Qed.

(** A zero quantity is reported and leaves the result valid. *)
Lemma production_validity_witness :
  exists r w',
    validate_production_data to_datetime_iso Cases.production_table
      (Sample.world Sample.files_three_warehouses Sample.june_2024)
    = (Ok (r, set_col "date"
                (Datetime64 [Some (mk_date 2024 5 27);
                             Some (mk_date 2024 5 28)])
                Cases.production_table), w')
    /\ is_valid r = true.
Proof.
  destruct (production_validity to_datetime_iso Cases.production_table
              (Sample.world Sample.files_three_warehouses Sample.june_2024)
              _ _ [Some (mk_date 2024 5 27); Some (mk_date 2024 5 28)] _
              ltac:(discriminate) eq_refl eq_refl eq_refl eq_refl)
    as [r [w' [Hrun Hvalid]]].
  exists r, w'. split; [exact Hrun|]. apply Hvalid. split; [|split].
  - simpl. intros v [<-|[<-|[]]]; eexists; (split; [reflexivity|]);
      simpl; tauto.
  - simpl. intros x [<-|[<-|[]]]; reflexivity.
  - simpl. intros name c [H|[H|[H|[]]]]; inversion H; subst;
      vm_compute; reflexivity.
Defined.

(** A price above the normal range leaves the result valid. *)
Lemma price_validity_witness :
  exists r w',
    validate_price_data to_datetime_iso Cases.price_table
      (Sample.world Sample.files_three_warehouses Sample.june_2024)
    = (Ok (r, set_col "date" (Datetime64 [Some (mk_date 2024 5 27)])
                Cases.price_table), w')
    /\ is_valid r = true.
Proof.
  destruct (price_validity to_datetime_iso Cases.price_table
              (Sample.world Sample.files_three_warehouses Sample.june_2024)
              _ _ _ [Some (mk_date 2024 5 27)] _
              ltac:(discriminate) eq_refl eq_refl eq_refl eq_refl eq_refl)
    as [r [w' [Hrun Hvalid]]].
  exists r, w'. split; [exact Hrun|]. apply Hvalid.
  split; [|split; [|split]].
  - simpl. intros v [<-|[]]; eexists; (split; [reflexivity|]); simpl; tauto.
  - simpl. intros v [<-|[]]; eexists; (split; [reflexivity|]); simpl; tauto.
  - simpl. intros x [<-|[]]; reflexivity.
  - simpl. intros name c [H|[H|[H|[H|[]]]]]; inversion H; subst;
      vm_compute; reflexivity.
Defined.

(** A forecast below its own interval leaves the result valid. *)
Lemma forecast_validity_witness :
  exists r,
    validate_forecast_data Cases.forecast_table "production"
      (Sample.world Sample.files_three_warehouses Sample.june_2024)
    = (Ok (r, Cases.forecast_table),
       Sample.world Sample.files_three_warehouses Sample.june_2024)
    /\ is_valid r = true
    /\ List.length (info r) = 3%nat.
Proof.
  destruct (forecast_validity Cases.forecast_table "production"
              (Sample.world Sample.files_three_warehouses Sample.june_2024)
              _ _ _ ltac:(discriminate) eq_refl eq_refl eq_refl eq_refl)
    as [r [Hrun [Hvalid Hinfo]]].
  exists r. split; [exact Hrun|]. split; [|exact Hinfo].
  apply Hvalid. split.
  - simpl. intros x [<-|[]]. reflexivity.
  - simpl. intros lo up [H|[]]. inversion H. reflexivity.
Defined.

(* ---------------------------------------------------------------------- *)
(** ** Seasonal pattern *)

Lemma fcompare_refl (x : pyfloat) :
  notna x = true -> feq x x = true.
Proof.
  destruct x as [q| | |]; try discriminate; try reflexivity.
  intros _. unfold feq, fcompare.
  rewrite (proj1 (Qeq_alt q q) (Qeq_refl q)). reflexivity.
Qed.

(** The order of the numbers without NaN, as a rank and a rational. *)
Lemma fgt_spec (x y : pyfloat) :
  fgt x y = true <->
  match x, y with
  | Finite a, Finite b => (b < a)%Q
  | PInf, Finite _ | PInf, NInf | Finite _, NInf => True
  | _, _ => False
  end.
Proof.
  unfold fgt, fcompare.
  destruct x as [a| | |], y as [b| | |];
    try (split; [discriminate | contradiction]);
    try (split; [intros _; exact I | reflexivity]).
  rewrite Qgt_alt.
  destruct (Qcompare a b); split; congruence.
Qed.

Lemma flt_spec (x y : pyfloat) :
  flt x y = true <->
  match x, y with
  | Finite a, Finite b => (a < b)%Q
  | Finite _, PInf | NInf, PInf | NInf, Finite _ => True
  | _, _ => False
  end.
Proof.
  unfold flt, fcompare.
  destruct x as [a| | |], y as [b| | |];
    try (split; [discriminate | contradiction]);
    try (split; [intros _; exact I | reflexivity]).
  rewrite Qlt_alt.
  destruct (Qcompare a b); split; congruence.
Qed.

Lemma feq_spec (x y : pyfloat) :
  feq x y = true <->
  match x, y with
  | Finite a, Finite b => (a == b)%Q
  | PInf, PInf | NInf, NInf => True
  | _, _ => False
  end.
Proof.
  unfold feq, fcompare.
  destruct x as [a| | |], y as [b| | |];
    try (split; [discriminate | contradiction]);
    try (split; [intros _; exact I | reflexivity]).
  rewrite Qeq_alt.
  destruct (Qcompare a b); split; congruence.
Qed.

Lemma not_true_false (b : bool) : b = false <-> ~ b = true.
Proof. destruct b; split; congruence. Qed.

(** A value that beats the best so far is beaten by nothing that the
    best so far was not beaten by. *)
Lemma fgt_chain (x y m : pyfloat) :
  notna y = true ->
  fgt x m = true -> fgt y m = false -> fgt y x = false.
Proof.
  intros Hy. rewrite !not_true_false, !fgt_spec.
  destruct x as [a| | |], y as [b| | |], m as [c| | |];
    try discriminate; try tauto.
  intros H1 H2 H3. apply H2. eapply Qlt_trans; eassumption.
Qed.

Lemma flt_chain (x y m : pyfloat) :
  notna y = true ->
  flt x m = true -> flt y m = false -> flt y x = false.
Proof.
  intros Hy. rewrite !not_true_false, !flt_spec.
  destruct x as [a| | |], y as [b| | |], m as [c| | |];
    try discriminate; try tauto.
  intros H1 H2 H3. apply H2. eapply Qlt_trans; eassumption.
Qed.

Lemma fgt_le_trans (x v m : pyfloat) :
  notna x = true -> notna v = true -> notna m = true ->
  fgt x v = false -> fgt v m = false -> fgt x m = false.
Proof.
  rewrite !not_true_false, !fgt_spec.
  destruct x as [a| | |], v as [b| | |], m as [c| | |];
    try discriminate; try tauto.
  intros _ _ _ H1 H2. apply Qle_not_lt.
  apply Qnot_lt_le in H1. apply Qnot_lt_le in H2.
  eapply Qle_trans; eassumption.
Qed.

Lemma flt_le_trans (x v m : pyfloat) :
  notna x = true -> notna v = true -> notna m = true ->
  flt x v = false -> flt v m = false -> flt x m = false.
Proof.
  rewrite !not_true_false, !flt_spec.
  destruct x as [a| | |], v as [b| | |], m as [c| | |];
    try discriminate; try tauto.
  intros _ _ _ H1 H2. apply Qle_not_lt.
  apply Qnot_lt_le in H1. apply Qnot_lt_le in H2.
  eapply Qle_trans; eassumption.
Qed.

Lemma fgt_feq (v x m : pyfloat) :
  feq v m = true -> fgt x m = false -> fgt x v = false.
Proof.
  rewrite !not_true_false, feq_spec, !fgt_spec.
  destruct v as [a| | |], x as [b| | |], m as [c| | |]; try tauto.
  intros H1 H2 H3. apply H2. rewrite <- H1. exact H3.
Qed.

Lemma flt_feq (v x m : pyfloat) :
  feq v m = true -> flt x m = false -> flt x v = false.
Proof.
  rewrite !not_true_false, feq_spec, !flt_spec.
  destruct v as [a| | |], x as [b| | |], m as [c| | |]; try tauto.
  intros H1 H2 H3. apply H2. rewrite <- H1. exact H3.
Qed.

Lemma fgt_irrefl (x : pyfloat) : fgt x x = false.
Proof.
  apply not_true_false. rewrite fgt_spec.
  destruct x; try tauto. apply Qlt_irrefl.
Qed.

Lemma flt_irrefl (x : pyfloat) : flt x x = false.
Proof.
  apply not_true_false. rewrite flt_spec.
  destruct x; try tauto. apply Qlt_irrefl.
Qed.

Section Extreme.

Variable better : pyfloat -> pyfloat -> bool.
Hypothesis better_irrefl : forall x, better x x = false.
Hypothesis better_chain :
  forall x y m, notna y = true ->
    better x m = true -> better y m = false -> better y x = false.
Hypothesis better_le_trans :
  forall x v m, notna x = true -> notna v = true -> notna m = true ->
    better x v = false -> better v m = false -> better x m = false.
Hypothesis better_feq :
  forall v x m, feq v m = true -> better x m = false -> better x v = false.

(** The fold of the built-in [max] (or [min]) over values without NaN
    ends on a value of the list that none of them beats. *)
Lemma fold_best (xs : list pyfloat) (v0 : pyfloat) :
  (forall x, In x (v0 :: xs) -> notna x = true) ->
  let m := fold_left (fun m x => if better x m then x else m) xs v0 in
  In m (v0 :: xs) /\ forall x, In x (v0 :: xs) -> better x m = false.
Proof.
  revert v0. induction xs as [|x xs IH]; intros v0 Hna; cbn [fold_left].
  - split; [left; reflexivity|]. intros x [<-|[]]. apply better_irrefl.
  - destruct (better x v0) eqn:E.
    + destruct (IH x) as [Hin Hbest].
      { intros y Hy. apply Hna. right. exact Hy. }
      split.
      * destruct Hin as [<-|Hin]; [right; left; reflexivity|].
        right. right. exact Hin.
      * intros y [<-|Hy]; [|apply Hbest, Hy].
        set (m := fold_left (fun m x => if better x m then x else m) xs x)
          in *.
        destruct (better v0 m) eqn:Ev; [|reflexivity].
        assert (Hx : better x m = false) by (apply Hbest; left; reflexivity).
        assert (Hv0 : notna x = true) by (apply Hna; right; left; reflexivity).
        rewrite (better_chain v0 x m Hv0 Ev Hx) in E. discriminate.
    + destruct (IH v0) as [Hin Hbest].
      { intros y [<-|Hy]; apply Hna; [left | right; right]; auto. }
      split.
      * destruct Hin as [<-|Hin]; [left; reflexivity|].
        right. right. exact Hin.
      * intros y [<-|[<-|Hy]].
        -- apply Hbest. left. reflexivity.
        -- set (m := fold_left (fun m x => if better x m then x else m)
                               xs v0) in *.
           assert (Hv : better v0 m = false)
             by (apply Hbest; left; reflexivity).
           apply (better_le_trans x v0 m); auto.
           ++ apply Hna. right. left. reflexivity.
           ++ apply Hna. left. reflexivity.
           ++ apply Hna.
              destruct Hin as [<-|Hin]; [left | right; right]; auto.
        -- apply Hbest. right. exact Hy.
Qed.

(** [key_of_extreme] fails on the empty dict only. The key it returns is
    a key of the dict; when no value is NaN, it is a key whose value is
    beaten by no value of the dict. *)
Lemma key_of_extreme_spec (what : string) (d : list (Z * pyfloat)) :
  d <> [] ->
  exists k,
    key_of_extreme better what d = ret k
    /\ In k (map fst d)
    /\ ((forall kv, In kv d -> notna (snd kv) = true) ->
        exists v, In (k, v) d
                  /\ forall kv, In kv d -> better (snd kv) v = false).
Proof.
  destruct d as [|[k0 v0] rest]; [congruence|]. intros _.
  unfold key_of_extreme.
  set (m := fold_left (fun m x => if better x m then x else m)
                      (map snd rest) v0).
  eexists. split; [reflexivity|]. split.
  - destruct (isnan m); [left; reflexivity|].
    destruct (List.find (fun kv => feq (snd kv) m) ((k0, v0) :: rest))
      as [kv|] eqn:E; [|left; reflexivity].
    apply find_some in E. apply in_map. tauto.
  - intros Hna.
    destruct (fold_best (map snd rest) v0) as [Hin Hbest].
    { intros x Hx. change (In x (map snd ((k0, v0) :: rest))) in Hx.
      apply in_map_iff in Hx. destruct Hx as [kv [<- Hkv]].
      apply Hna, Hkv. }
    fold m in Hin, Hbest.
    change (In m (map snd ((k0, v0) :: rest))) in Hin.
    apply in_map_iff in Hin. destruct Hin as [kvm [Hm Hkvm]].
    assert (Hnotna : notna m = true) by (rewrite <- Hm; apply Hna, Hkvm).
    unfold notna in Hnotna. apply negb_true_iff in Hnotna. rewrite Hnotna.
    destruct (List.find (fun kv => feq (snd kv) m) ((k0, v0) :: rest))
      as [kv|] eqn:E.
    + apply find_some in E. destruct E as [Hkv Heq].
      exists (snd kv). split; [destruct kv; exact Hkv|].
      intros kv' Hkv'. apply (better_feq _ _ m Heq).
      apply Hbest. change (In (snd kv') (map snd ((k0, v0) :: rest))).
      apply in_map, Hkv'.
    + exfalso.
      pose proof (find_none _ _ E kvm Hkvm) as Hnone. cbv beta in Hnone.
      rewrite Hm, fcompare_refl in Hnone; [discriminate|].
      unfold notna. rewrite Hnotna. reflexivity.
Qed.

End Extreme.

Lemma keys_of_means (K R : Type) (f : K * list R -> pyfloat)
      (groups : list (K * list R)) :
  map fst (map (fun g => (fst g, f g)) groups) = map fst groups.
Proof. rewrite map_map. reflexivity. Qed.

(** The seasonal pattern needs at least one production record and one
    price record: with an empty production or price table it raises the
    [ValueError] of [max] on an empty sequence, otherwise it returns. The
    calendar then has the twelve months in order; a month of the calendar
    carries the monthly average of the dict of averages when the data has
    a record in that month, and 0 when it has none. *)
Theorem seasonal_pattern_needs_records :
  forall (w : World) (crop : string)
         (production_df : list ProductionRow) (price_df : list PriceRow),
    PRODUCTION_DATA (files w) = Some production_df ->
    PRICE_DATA (files w) = Some price_df ->
    (production_df = [] \/ price_df = [] ->
     fst (get_seasonal_pattern crop w)
     = Raise (ValueError "max() arg is an empty sequence"))
    /\ (production_df <> [] -> price_df <> [] ->
        exists r w',
          get_seasonal_pattern crop w = (Ok r, w')
          /\ map fst (seasonal_calendar r)
             = ["Jan"; "Feb"; "Mar"; "Apr"; "May"; "Jun";
                "Jul"; "Aug"; "Sep"; "Oct"; "Nov"; "Dec"]
          /\ forall name e,
               In (name, e) (seasonal_calendar r) ->
               (In (month_number e)
                   (map (fun row => month_of (prod_date row)) production_df) ->
                In (month_number e, avg_production_tons e)
                   (monthly_averages_production r))
               /\ (~ In (month_number e)
                        (map (fun row => month_of (prod_date row))
                             production_df) ->
                   avg_production_tons e = of_Z 0)
               /\ (In (month_number e)
                      (map (fun row => month_of (price_date row)) price_df) ->
                   In (month_number e, avg_price_tzs e)
                      (monthly_averages_prices r))
               /\ (~ In (month_number e)
                        (map (fun row => month_of (price_date row)) price_df) ->
                   avg_price_tzs e = of_Z 0)).
Proof.
  intros w crop production_df price_df Hp Hpr.
  unfold get_seasonal_pattern. run_call. rewrite Hp, Hpr. cbv zeta.
  set (mp := map _ (Pd.groupby Z.eqb Z.leb
                      (fun r => month_of (prod_date r)) production_df)).
  set (mpr := map _ (Pd.groupby Z.eqb Z.leb
                       (fun r => month_of (price_date r)) price_df)).
  assert (Hkeys : forall k, In k (map fst mp)
                            <-> In k (map (fun row => month_of (prod_date row))
                                          production_df)).
  { intros k. unfold mp. rewrite keys_of_means.
    apply (groupby_spec _ _ Z.eqb Z.leb _ Z.eqb_eq). }
  assert (Hkeys' : forall k, In k (map fst mpr)
                             <-> In k (map (fun row => month_of (price_date row))
                                           price_df)).
  { intros k. unfold mpr. rewrite keys_of_means.
    apply (groupby_spec _ _ Z.eqb Z.leb _ Z.eqb_eq). }
  split.
  - intros [->| ->].
    + reflexivity.
    + destruct mp as [|[k0 v0] rest]; [reflexivity|].
      reflexivity.
  - intros Hne Hne'.
    assert (Hmp : mp <> []).
    { unfold mp. intros H. apply map_eq_nil in H.
      exact (groupby_nonempty _ _ Z.eqb Z.leb _ Z.eqb_eq _ Hne H). }
    assert (Hmpr : mpr <> []).
    { unfold mpr. intros H. apply map_eq_nil in H.
      exact (groupby_nonempty _ _ Z.eqb Z.leb _ Z.eqb_eq _ Hne' H). }
    destruct mp as [|[k0 v0] rest] eqn:Emp; [congruence|].
    destruct mpr as [|[k1 v1] rest'] eqn:Empr; [congruence|].
    unfold key_of_extreme. cbv beta iota.
    eexists. eexists. split; [reflexivity|].
    cbn [seasonal_calendar monthly_averages_production
         monthly_averages_prices].
    split; [reflexivity|].
    intros name e Hin. apply in_map_iff in Hin.
    destruct Hin as [month [Heq _]]. inversion Heq; subst name e. clear Heq.
    cbn [month_number avg_production_tons avg_price_tzs].
    rewrite <- Hkeys, <- Hkeys'. unfold Pd.get.
    repeat match goal with |- _ /\ _ => split end.
    + intros Hk.
      destruct (lookup_present _ _ Z.eqb_eq _ month _ Hk) as [v [Hl Hv]].
      rewrite Hl. exact Hv.
    + intros Hk. rewrite (lookup_absent _ _ Z.eqb_eq _ month _ Hk).
      reflexivity.
    + intros Hk.
      destruct (lookup_present _ _ Z.eqb_eq _ month _ Hk) as [v [Hl Hv]].
      rewrite Hl. exact Hv.
    + intros Hk. rewrite (lookup_absent _ _ Z.eqb_eq _ month _ Hk).
      reflexivity.
Qed.

(** Records of May and June: every other month of the calendar has an
    average production of 0. *)
Lemma seasonal_pattern_needs_records_witness :
  (exists r w',
      get_seasonal_pattern "maize"
        (Sample.world Cases.files_two_months Sample.june_2024) = (Ok r, w')
      /\ map fst (seasonal_calendar r)
         = ["Jan"; "Feb"; "Mar"; "Apr"; "May"; "Jun";
            "Jul"; "Aug"; "Sep"; "Oct"; "Nov"; "Dec"])
  /\ fst (get_seasonal_pattern "maize"
            (Sample.world Sample.files_three_warehouses Sample.june_2024))
     = Raise (ValueError "max() arg is an empty sequence").
Proof.
  split.
  - destruct (seasonal_pattern_needs_records
                (Sample.world Cases.files_two_months Sample.june_2024)
                "maize" _ _ eq_refl eq_refl) as [_ Hrun].
    destruct Hrun as [r [w' [Hrun [Hcal _]]]]; try discriminate.
    exists r, w'. auto.
  - apply (seasonal_pattern_needs_records
             (Sample.world Sample.files_three_warehouses Sample.june_2024)
             "maize" [] [] eq_refl eq_refl).
    left. reflexivity.
Defined.

(** In every seasonal pattern returned, the four months of the insights
    are months of the dicts of monthly averages; when no monthly average
    is NaN, the peak month has an average that no month exceeds and the
    low month one that no month is below. *)
Theorem seasonal_pattern_extremes :
  forall (w : World) (crop : string)
         (production_df : list ProductionRow) (price_df : list PriceRow),
    PRODUCTION_DATA (files w) = Some production_df ->
    PRICE_DATA (files w) = Some price_df ->
    production_df <> [] -> price_df <> [] ->
    exists r w',
      get_seasonal_pattern crop w = (Ok r, w')
      /\ extreme_month fgt (peak_production_month (insights r))
                       (monthly_averages_production r)
      /\ extreme_month flt (low_production_month (insights r))
                       (monthly_averages_production r)
      /\ extreme_month fgt (peak_price_month (insights r))
                       (monthly_averages_prices r)
      /\ extreme_month flt (low_price_month (insights r))
                       (monthly_averages_prices r).
Proof.
  intros w crop production_df price_df Hp Hpr Hne Hne'.
  unfold get_seasonal_pattern.
  unfold load_production_data, load_price_data.
  erewrite run_bind by (unfold read_csv; rewrite Hp; reflexivity).
  erewrite run_bind by (unfold read_csv; rewrite Hpr; reflexivity).
  cbv zeta.
  set (mp := map _ (Pd.groupby Z.eqb Z.leb
                      (fun r => month_of (prod_date r)) production_df)).
  set (mpr := map _ (Pd.groupby Z.eqb Z.leb
                       (fun r => month_of (price_date r)) price_df)).
  assert (Hmp : mp <> []).
  { unfold mp. intros H. apply map_eq_nil in H.
    exact (groupby_nonempty _ _ Z.eqb Z.leb _ Z.eqb_eq _ Hne H). }
  assert (Hmpr : mpr <> []).
  { unfold mpr. intros H. apply map_eq_nil in H.
    exact (groupby_nonempty _ _ Z.eqb Z.leb _ Z.eqb_eq _ Hne' H). }
  destruct (key_of_extreme_spec fgt fgt_irrefl fgt_chain fgt_le_trans fgt_feq
              "max() arg is an empty sequence" mp Hmp)
    as [k1 [Hk1 [Hin1 Hbest1]]].
  destruct (key_of_extreme_spec flt flt_irrefl flt_chain flt_le_trans flt_feq
              "min() arg is an empty sequence" mp Hmp)
    as [k2 [Hk2 [Hin2 Hbest2]]].
  destruct (key_of_extreme_spec fgt fgt_irrefl fgt_chain fgt_le_trans fgt_feq
              "max() arg is an empty sequence" mpr Hmpr)
    as [k3 [Hk3 [Hin3 Hbest3]]].
  destruct (key_of_extreme_spec flt flt_irrefl flt_chain flt_le_trans flt_feq
              "min() arg is an empty sequence" mpr Hmpr)
    as [k4 [Hk4 [Hin4 Hbest4]]].
  rewrite Hk1, Hk2, Hk3, Hk4.
  eexists. eexists. split; [reflexivity|].
  cbn [insights peak_production_month low_production_month peak_price_month
       low_price_month monthly_averages_production monthly_averages_prices].
  repeat match goal with |- _ /\ _ => split end.
  - exists k1. auto.
  - exists k2. auto.
  - exists k3. auto.
  - exists k4. auto.
Qed.

(** May averages 10 tons and June 30: June is the peak and May the low
    month of production. *)
Lemma seasonal_pattern_extremes_witness :
  exists r w',
    get_seasonal_pattern "maize"
      (Sample.world Cases.files_two_months Sample.june_2024) = (Ok r, w')
    /\ peak_production_month (insights r) = "Jun"
    /\ low_production_month (insights r) = "May"
    /\ extreme_month fgt (peak_production_month (insights r))
                     (monthly_averages_production r).
Proof.
  destruct (seasonal_pattern_extremes
              (Sample.world Cases.files_two_months Sample.june_2024)
              "maize" _ _ eq_refl eq_refl
              ltac:(discriminate) ltac:(discriminate))
    as [r [w' [Hrun [Hpeak _]]]].
  exists r, w'. split; [exact Hrun|].
  vm_compute in Hrun. inversion Hrun; subst r.
  split; [reflexivity|]. split; [reflexivity|]. exact Hpeak.
Defined.

(* ---------------------------------------------------------------------- *)
(** ** Supply and demand with little data *)

Lemma length_insert_key (K : Type) (leb : K -> K -> bool) (k : K) (l : list K) :
  List.length (Pd.insert_key leb k l) = S (List.length l).
Proof.
  induction l as [|y l IH]; simpl; [reflexivity|].
  destruct (leb k y); simpl; [reflexivity | rewrite IH; reflexivity].
Qed.

Lemma length_sort_keys (K : Type) (leb : K -> K -> bool) (l : list K) :
  List.length (Pd.sort_keys leb l) = List.length l.
Proof.
  induction l as [|x l IH]; [reflexivity|].
  unfold Pd.sort_keys in *. simpl. rewrite length_insert_key, IH.
  reflexivity.
Qed.

(** One value per calendar month that has a record. *)
Lemma length_monthly (R : Type) (agg : list pyfloat -> pyfloat)
      (date : R -> datetime) (col : R -> pyfloat) (rows : list R) :
  List.length (monthly agg date col rows)
  = Pd.nunique period_eqb (map (fun r => to_period_M (date r)) rows).
Proof.
  unfold monthly, Pd.groupby, Pd.nunique.
  rewrite !length_map, length_sort_keys. reflexivity.
Qed.

Lemma fadd_nan_r (x : pyfloat) : fadd x NaN = NaN.
Proof. destruct x; reflexivity. Qed.

Lemma fgt_nan_r (x : pyfloat) : fgt x NaN = false.
Proof. destruct x; reflexivity. Qed.

Lemma flt_nan_r (x : pyfloat) : flt x NaN = false.
Proof. destruct x; reflexivity. Qed.

Lemma filter_false (A : Type) (p : A -> bool) (l : list A) :
  (forall x, p x = false) -> filter p l = [].
Proof. intros H. apply filter_none. intros x _. apply H. Qed.

(** A single value is not above its own mean. *)
Lemma single_not_above_mean (v : pyfloat) : fgt v (mean [v]) = false.
Proof.
  apply not_true_false. rewrite fgt_spec.
  destruct v as [q| | |]; try (cbn; tauto).
  unfold mean, count, sum, dropna. cbn [filter notna isnan negb List.length
    fold_left fadd of_nat of_Z Z.of_nat fdiv].
  change (inject_Z (Z.of_nat 1)) with 1%Q.
  change (Qsign 1) with Gt. cbv iota. unfold fin.
  apply Qle_not_lt. rewrite !Qred_correct.
  apply Qle_lteq. right. field.
Qed.

(** The correlation is computed from at least three months that have both
    a production total and a mean price; below that the field is absent,
    and whenever it is absent the interpretation reads "Positive
    correlation indicates other factors at play". With production in at
    most one calendar month the deviation is NaN, so the status is
    "balanced" and no surplus or shortage period is listed. *)
Theorem supply_demand_little_data :
  forall (sqrt : Q -> Q) (w : World)
         (production_df : list ProductionRow) (price_df : list PriceRow)
         (storage_df : list StorageRow),
    PRODUCTION_DATA (files w) = Some production_df ->
    PRICE_DATA (files w) = Some price_df ->
    STORAGE_DATA (files w) = Some storage_df ->
    exists r w',
      get_supply_demand_balance sqrt w = (Ok r, w')
      /\ (price_production_correlation (correlation_analysis r) = None ->
          interpretation (correlation_analysis r)
          = "Positive correlation indicates other factors at play")
      /\ ((List.length
             (joined_months
                (monthly sum prod_date quantity_tons production_df)
                (monthly mean price_date price_per_kg_tzs price_df))
           <= 2)%nat ->
          price_production_correlation (correlation_analysis r) = None)
      /\ ((Pd.nunique period_eqb
             (map (fun row => to_period_M (prod_date row)) production_df)
           <= 1)%nat ->
          cb_status (current_balance r) = "balanced"
          /\ surplus_periods (historical_patterns r) = []
          /\ shortage_periods (historical_patterns r) = []).
Proof.
  intros sqrt w production_df price_df storage_df Hp Hpr Hs.
  unfold get_supply_demand_balance. run_call. rewrite Hp, Hpr, Hs.
  cbv zeta.
  eexists. eexists. split; [reflexivity|].
  cbn [correlation_analysis price_production_correlation interpretation
       current_balance cb_status historical_patterns surplus_periods
       shortage_periods].
  split; [|split].
  - destruct (2 <? _)%nat; [|reflexivity].
    cbn [truthy_opt].
    destruct (truthy _); [discriminate | reflexivity].
  - intros Hlen. apply Nat.ltb_ge in Hlen. rewrite Hlen. reflexivity.
  - rewrite <- (length_monthly _ sum prod_date quantity_tons production_df).
    intros Hlen.
    destruct (monthly sum prod_date quantity_tons production_df)
      as [|[k v] [|kv rest]]; [| |simpl in Hlen; lia].
    + repeat split.
    + cbn [map snd iloc_last_or_zero List.last].
      assert (Hstd : std sqrt [v] = NaN).
      { unfold std, dropna. simpl. destruct (notna v); reflexivity. }
      rewrite Hstd. unfold fsub. cbn [fneg]. rewrite !fadd_nan_r.
      rewrite single_not_above_mean, flt_nan_r.
      cbn [filter fst snd]. rewrite fgt_nan_r, flt_nan_r.
      repeat split.
Qed.

(** All the records lie in May 2024. *)
Lemma supply_demand_little_data_witness :
  exists r w',
    get_supply_demand_balance sqrt_upper
      (Sample.world Cases.files_one_month Sample.june_2024) = (Ok r, w')
    /\ price_production_correlation (correlation_analysis r) = None
    /\ interpretation (correlation_analysis r)
       = "Positive correlation indicates other factors at play"
    /\ cb_status (current_balance r) = "balanced".
Proof.
  destruct (supply_demand_little_data sqrt_upper
              (Sample.world Cases.files_one_month Sample.june_2024)
              _ _ _ eq_refl eq_refl eq_refl)
    as [r [w' [Hrun [Htext [Hnone Hone]]]]].
  exists r, w'. split; [exact Hrun|].
  assert (Hcorr : price_production_correlation (correlation_analysis r) = None)
    by (apply Hnone; vm_compute; lia).
  split; [exact Hcorr|]. split; [exact (Htext Hcorr)|].
  apply Hone. vm_compute. lia.
Defined.

(* ---------------------------------------------------------------------- *)
(** ** Market opportunities *)




